(** * GIF background remover: a model of [main.py] and its specification

    The script opens an animated GIF, walks its frames, hands each frame to
    a background-removal model and writes the results as PNG files.  All of
    its behaviour is control flow around three collaborators: the file
    system, the image library (PIL) and the inference library (rembg).

    The model below keeps the script's control flow as it is written
    (validation, [mkdir], one session, [try]/[with]/[for]/[try]/[finally],
    [except] with logging) over an explicit world: a file system, the
    records handed to [logging], and the trace of calls made to the
    collaborators.  The collaborators themselves are parameters. *)

From Stdlib Require Import String Ascii List Arith Lia ZArith.
From Stdlib Require Import Decimal DecimalString DecimalNat.
From stdpp Require Import base option list strings gmap.

Local Open Scope string_scope.

(* ===================================================================== *)
(** ** Python strings and number formatting                               *)
(* ===================================================================== *)

(** [str.lower] on the ASCII range.  Strings are sequences of bytes here;
    no character outside [A-Z] lowers to one of [g], [i], [f] or [.], so
    the comparison with [".gif"] made by the script is not affected by the
    restriction. *)
Definition ascii_lower (c : ascii) : ascii :=
  let n := nat_of_ascii c in
  if ((65 <=? n) && (n <=? 90))%nat then ascii_of_nat (n + 32) else c.

Fixpoint lower (s : string) : string :=
  match s with
  | EmptyString => EmptyString
  | String c s' => String (ascii_lower c) (lower s')
  end.

(** [s.rfind('.')]: the index of the last dot, if there is one. *)
Fixpoint rfind_dot (s : string) : option nat :=
  match s with
  | EmptyString => None
  | String c s' =>
      match rfind_dot s' with
      | Some i => Some (S i)
      | None => if Ascii.eqb c "." then Some 0 else None
      end
  end.

(** [s[i:]] *)
Fixpoint drop_str (i : nat) (s : string) : string :=
  match i, s with
  | 0, _ => s
  | S i', String _ s' => drop_str i' s'
  | S _, EmptyString => EmptyString
  end.

(** [str(n)] for a non-negative integer. *)
Definition str_of_nat (n : nat) : string :=
  NilEmpty.string_of_uint (Nat.to_uint n).

Fixpoint zeros (k : nat) : string :=
  match k with
  | 0 => EmptyString
  | S k' => String "0" (zeros k')
  end.

(** [f"{n:03d}"]: decimal digits, padded with zeros on the left up to
    three characters; a longer number is printed in full. *)
Definition format_03d (n : nat) : string :=
  let s := str_of_nat n in
  zeros (3 - String.length s) +:+ s.

(** The reverse reading, [int(s)], used to tell frame names apart. *)
Definition int_of_str (s : string) : option nat :=
  option_map Nat.of_uint (NilEmpty.uint_of_string s).

Definition is_digit (c : ascii) : bool :=
  let n := nat_of_ascii c in ((48 <=? n) && (n <=? 57))%nat.

Fixpoint all_digits (s : string) : bool :=
  match s with
  | EmptyString => true
  | String c s' => is_digit c && all_digits s'
  end.

(* ===================================================================== *)
(** ** [pathlib.Path]                                                     *)
(* ===================================================================== *)

(** A path is represented by its [parts]; an absolute path has the anchor
    ["/"] as its first part, a directory entry like any other.  Two paths
    name the same entry only when their parts are equal (no symbolic
    links, no case folding); a string given for a path stands for the
    path it denotes. *)
Definition Path := list string.

(** [p / name] for a single component [name]. *)
Definition joinpath (p : Path) (name : string) : Path := (p ++ [name])%list.

Infix "//" := joinpath (at level 40, left associativity).

(** [p.parent] *)
Definition parent (p : Path) : Path := removelast p.

(** [p.name]: the last part, empty for the anchor and for the empty path *)
Definition name (p : Path) : string :=
  if decide (p = ["/"]) then "" else List.last p "".

(** [PurePath.suffix]:
<<
    name = self.name
    i = name.rfind('.')
    if 0 < i < len(name) - 1: return name[i:]
    else: return ''
>> *)
Definition suffix_of_name (nm : string) : string :=
  match rfind_dot nm with
  | Some i =>
      if ((0 <? i) && (i <? String.length nm - 1))%nat then drop_str i nm else ""
  | None => ""
  end.

Definition suffix (p : Path) : string := suffix_of_name (name p).

(** [str(p)] *)
Definition path_str (p : Path) : string :=
  match p with
  | [] => "."
  | "/" :: rest => "/" +:+ String.concat "/" rest
  | _ => String.concat "/" p
  end.

(* ===================================================================== *)
(** ** Exceptions                                                         *)
(* ===================================================================== *)

(** The exception classes that occur.  All of them derive from
    [Exception]; [LibraryError] stands for whatever PIL or rembg raise. *)
Inductive exn_class :=
  | FileNotFoundError
  | FileExistsError
  | NotADirectoryError
  | IsADirectoryError
  | PermissionError
  | OSError
  | ValueError
  | LibraryError.

#[global] Instance exn_class_eq_dec : EqDecision exn_class.
Proof. solve_decision. Defined.

(** An exception value: its class and [str(e)]. *)
Record exception := Exc { exc_class : exn_class; exc_str : string }.

#[global] Instance exception_eq_dec : EqDecision exception.
Proof. solve_decision. Defined.

Inductive outcome (A : Type) :=
  | Return (a : A)
  | Raised (e : exception).
Arguments Return {A} a.
Arguments Raised {A} e.

(* ===================================================================== *)
(** ** The file system                                                    *)
(* ===================================================================== *)

Definition bytes := list Byte.byte.

Inductive entry :=
  | File (content : bytes)
  | Dir.

Abbreviation filesystem := (gmap Path entry).

(** The current directory (the empty path) always exists. *)
Definition stat (fs : filesystem) (p : Path) : option entry :=
  match p with
  | [] => Some Dir
  | _ => fs !! p
  end.

Definition is_file (o : option entry) : bool :=
  match o with Some (File _) => true | _ => false end.

(** The operations the operating system can refuse for reasons the model
    does not see in the tree (permissions, a full disk). *)
Inductive io_op :=
  | OpMkdir (p : Path)
  | OpOpenRead (p : Path)
  | OpOpenWrite (p : Path)
  | OpUnlink (p : Path).

(** [os.listdir]: the names of the entries directly inside [d]. *)
Definition child_name (d p : Path) : option string :=
  match last p with
  | Some nm => if decide (p = d // nm) then Some nm else None
  | None => None
  end.

Definition listdir (fs : filesystem) (d : Path) : gset string :=
  set_omap (child_name d) (dom fs).

(* ===================================================================== *)
(** ** The world of one run, and the collaborators                        *)
(* ===================================================================== *)

Inductive level := DEBUG | INFO | ERROR.

#[global] Instance level_eq_dec : EqDecision level.
Proof. solve_decision. Defined.

Definition log_record : Type := level * string.

Section Model.

(** Decoded images and inference sessions are opaque. *)
Context {image session : Type}.

(** What [Image.open] gives: the [duration] entry of [gif.info] when the
    file has one, the frames [ImageSequence.Iterator] yields, and the
    error with which the iteration stops when the file is cut short. *)
Record gif := Gif {
  info_duration : option Z;
  frames : list image;
  truncated : option exception
}.

(** Calls made to the collaborators, in the order they are made. *)
Inductive event :=
  | EvMkdir (p : Path)
  | EvNewSession (model_name : option string)
  | EvImageOpen (p : Path)
  | EvSave (p : Path)
  | EvOpenRead (p : Path)
  | EvRemove (data : bytes) (s : session)
  | EvOpenWrite (p : Path)
  | EvUnlink (p : Path).

Record world := World {
  fs : filesystem;
  log_config : option level;      (* set by [logging.basicConfig] *)
  log : list log_record;          (* records handed to [logging] *)
  trace : list event
}.

End Model.

(* ===================================================================== *)
(** ** Toy collaborators and sample worlds                                *)
(* ===================================================================== *)

(** They are used at the end, to run the model on concrete inputs. *)

(** A toy decoder: the first byte of the file is the duration (zero for a
    file without one), every further byte is one frame. *)
Definition toy_open (data : bytes) : outcome (@gif Byte.byte) :=
  match data with
  | [] => Raised (Exc LibraryError "cannot identify image file")
  | d :: rest =>
      Return (Gif (if Byte.eqb d Byte.x00 then None
                   else Some (Z.of_N (Byte.to_N d)))
                rest None)
  end.

Definition toy_convert (frame : Byte.byte) : outcome Byte.byte := Return frame.

Definition toy_encode (frame : Byte.byte) : outcome bytes := Return [frame].

Definition toy_new_session (model_name : option string) : outcome string :=
  Return (default "u2net" model_name).

Definition toy_remove (data : bytes) (s : string) : outcome bytes :=
  Return (data ++ [Byte.xff])%list.

(** An operating system that refuses nothing. *)
Definition willing (op : io_op) : option exception := None.

(** The wording of Linux, for paths of plain letters. *)
Definition linux_text (c : exn_class) (p : Path) : string :=
  match c with
  | FileNotFoundError => "[Errno 2] No such file or directory: '"
  | FileExistsError => "[Errno 17] File exists: '"
  | NotADirectoryError => "[Errno 20] Not a directory: '"
  | IsADirectoryError => "[Errno 21] Is a directory: '"
  | PermissionError => "[Errno 13] Permission denied: '"
  | _ => "[Errno 5] Input/output error: '"
  end +:+ path_str p +:+ "'".

(** Three frames shown for 40ms each, and the same without a duration. *)
Definition sample_data : bytes := [Byte.x28; Byte.x01; Byte.x02; Byte.x03].
Definition untimed_data : bytes := [Byte.x00; Byte.x01; Byte.x02; Byte.x03].

Definition sample_gif : @gif Byte.byte :=
  Gif (Some 40%Z) [Byte.x01; Byte.x02; Byte.x03] None.

Definition untimed_gif : @gif Byte.byte :=
  Gif None [Byte.x01; Byte.x02; Byte.x03] None.

(** A directory that holds [sample.gif] and nothing else. *)
Definition sample_world : @world string :=
  {| fs := {[ ["sample.gif"] := File sample_data ]};
     log_config := None; log := []; trace := [] |}.

Definition untimed_world : @world string :=
  {| fs := {[ ["sample.gif"] := File untimed_data ]};
     log_config := None; log := []; trace := [] |}.

(** The same bytes under another name. *)
Definition renamed_world : @world string :=
  {| fs := {[ ["sample.png"] := File sample_data ]};
     log_config := None; log := []; trace := [] |}.

(** A world in which the output directory is there already. *)
Definition ready_world : @world string :=
  {| fs := {[ ["out"] := Dir ]};
     log_config := None; log := []; trace := [] |}.

(** An inference that fails, and a directory from which nothing may be
    deleted. *)
Definition inference_error : exception := Exc LibraryError "inference failed".

Definition broken_remove (data : bytes) (s : string) : outcome bytes :=
  Raised inference_error.

Definition not_permitted : exception :=
  Exc PermissionError "Operation not permitted".

Definition sticky (op : io_op) : option exception :=
  match op with
  | OpUnlink _ => Some not_permitted
  | _ => None
  end.

(** An operating system that opens nothing for writing. *)
Definition read_only (op : io_op) : option exception :=
  match op with
  | OpOpenWrite _ => Some not_permitted
  | _ => None
  end.

(** A model that cannot be loaded. *)
Definition model_error : exception := Exc LibraryError "model not available".

Definition no_model (model_name : option string) : outcome string :=
  Raised model_error.

(** The sample under a name in capitals, and under a name that is
    nothing but an extension. *)
Definition capitals_world : @world string :=
  {| fs := {[ ["SAMPLE.GIF"] := File sample_data ]};
     log_config := None; log := []; trace := [] |}.

Definition hidden_world : @world string :=
  {| fs := {[ [".gif"] := File sample_data ]};
     log_config := None; log := []; trace := [] |}.

(** A world in which [out] is a regular file. *)
Definition blocked_world : @world string :=
  {| fs := <[ ["out"] := File [] ]> {[ ["sample.gif"] := File sample_data ]};
     log_config := None; log := []; trace := [] |}.

(** A file that the decoder does not take. *)
Definition empty_file_world : @world string :=
  {| fs := {[ ["sample.gif"] := File [] ]};
     log_config := None; log := []; trace := [] |}.

(** An output directory that has been used: it holds a file under the
    name of the second temporary file, and some notes. *)
Definition used_world : @world string :=
  {| fs := <[ ["out"; "notes.txt"] := File [Byte.x07] ]>
             (<[ ["out"; "frame_002.png"] := File [Byte.x09] ]>
                (<[ ["out"] := Dir ]>
                   {[ ["sample.gif"] := File sample_data ]}));
     log_config := None; log := []; trace := [] |}.

(** An output directory that holds some notes and nothing else. *)
Definition noted_world : @world string :=
  {| fs := <[ ["out"; "notes.txt"] := File [Byte.x07] ]>
             (<[ ["out"] := Dir ]>
                {[ ["sample.gif"] := File sample_data ]});
     log_config := None; log := []; trace := [] |}.

(** An inference that fails on the second frame of the sample. *)
Definition picky_remove (data : bytes) (s : string) : outcome bytes :=
  match data with
  | [b] => if Byte.eqb b Byte.x02 then Raised inference_error
           else Return (data ++ [Byte.xff])%list
  | _ => Return (data ++ [Byte.xff])%list
  end.

(** A decoder for files that were cut short: every byte is a frame, and
    the sequence ends in an error. *)
Definition truncation_error : exception :=
  Exc LibraryError "image file is truncated".

Definition toy_open_cut (data : bytes) : outcome (@gif Byte.byte) :=
  Return (Gif None data (Some truncation_error)).

Definition cut_gif : @gif Byte.byte :=
  Gif None sample_data (Some truncation_error).

(* ===================================================================== *)
(** ** The pipeline                                                       *)
(* ===================================================================== *)

Section Pipeline.

Context {image session : Type}.

Local Abbreviation gif := (@gif image) (only parsing).
Local Abbreviation event := (@event session) (only parsing).
Local Abbreviation world := (@world session) (only parsing).

Definition set_fs (f : filesystem) (w : world) : world :=
  {| fs := f; log_config := log_config w; log := log w; trace := trace w |}.

Definition add_event (ev : event) (w : world) : world :=
  {| fs := fs w; log_config := log_config w; log := log w;
     trace := (trace w ++ [ev])%list |}.

Definition add_log (lvl : level) (msg : string) (w : world) : world :=
  {| fs := fs w; log_config := log_config w;
     log := (log w ++ [(lvl, msg)])%list; trace := trace w |}.

(** PIL: decoding a GIF, [Image.convert("RGBA")], the PNG encoder. *)
Variable pil_open : bytes -> outcome gif.
Variable pil_convert_rgba : image -> outcome image.
Variable pil_png_encode : image -> outcome bytes.
(** rembg: [new_session] and [remove]. *)
Variable rembg_new_session : option string -> outcome session.
Variable rembg_remove : bytes -> session -> outcome bytes.
(** The operating system refusing an operation. *)
Variable os_refuses : io_op -> option exception.
(** The text of an [OSError] of a class about a path, which the platform
    and the library that made the call word. *)
Variable os_strerror : exn_class -> Path -> string.

Definition os_error (c : exn_class) (p : Path) : exception :=
  Exc c (os_strerror c p).

(* ------------------------------------------------------------------- *)
(** *** Statements: state and exceptions                                *)
(* ------------------------------------------------------------------- *)

Definition M (A : Type) : Type := world -> outcome A * world.

Definition ret {A} (a : A) : M A := fun w => (Return a, w).

Definition raise {A} (e : exception) : M A := fun w => (Raised e, w).

Definition bind {A B} (m : M A) (k : A -> M B) : M B :=
  fun w =>
    match m w with
    | (Return a, w1) => k a w1
    | (Raised e, w1) => (Raised e, w1)
    end.

Notation "x <- m ;; k" := (bind m (fun x => k))
  (at level 100, m at next level, right associativity).
Notation "m ;; k" := (bind m (fun _ => k))
  (at level 100, right associativity).

Definition lift {A} (r : outcome A) : M A := fun w => (r, w).

(** [try: body finally: cleanup].  The cleanup runs on every exit of the
    body; an exception leaving the cleanup is the one that goes on. *)
Definition try_finally {A} (body : M A) (cleanup : M unit) : M A :=
  fun w =>
    match body w with
    | (r, w1) =>
        match cleanup w1 with
        | (Return _, w2) => (r, w2)
        | (Raised e, w2) => (Raised e, w2)
        end
    end.

(** [try: body except Exception as e: handler e] *)
Definition try_except {A} (body : M A) (handler : exception -> M A) : M A :=
  fun w =>
    match body w with
    | (Return a, w1) => (Return a, w1)
    | (Raised e, w1) => handler e w1
    end.

(** [with contextlib.suppress(cls): body] *)
Definition suppress (cls : exn_class) (body : M unit) : M unit :=
  fun w =>
    match body w with
    | (Return _, w1) => (Return tt, w1)
    | (Raised e, w1) =>
        if decide (exc_class e = cls) then (Return tt, w1)
        else (Raised e, w1)
    end.

Definition emit (ev : event) : M unit :=
  fun w => (Return tt, add_event ev w).

Definition logging_log (lvl : level) (msg : string) : M unit :=
  fun w => (Return tt, add_log lvl msg w).

Definition logging_debug := logging_log DEBUG.
Definition logging_info := logging_log INFO.
Definition logging_error := logging_log ERROR.

(* ------------------------------------------------------------------- *)
(** *** File operations                                                 *)
(* ------------------------------------------------------------------- *)

Definition refuse (op : io_op) : M unit :=
  fun w =>
    match os_refuses op with
    | Some e => (Raised e, w)
    | None => (Return tt, w)
    end.

(** [Path.exists] *)
Definition path_exists (p : Path) : M bool :=
  fun w => (Return (bool_decide (is_Some (stat (fs w) p))), w).

(** [Path.mkdir(parents=True, exist_ok=True)], walking down from the
    first part: an existing directory is kept, a missing one is made, a
    file in the way is an error about the path that was asked for. *)
Fixpoint makedirs (made : Path) (rest : list string) : M unit :=
  match rest with
  | [] => ret tt
  | c :: rest' =>
      let p := made // c in
      fun w =>
        match stat (fs w) p with
        | Some Dir => makedirs p rest' w
        | Some (File _) =>
            (Raised (os_error
                       (if rest' is [] then FileExistsError
                        else NotADirectoryError)
                       (made ++ c :: rest')%list), w)
        | None =>
            match os_refuses (OpMkdir p) with
            | Some e => (Raised e, w)
            | None => makedirs p rest' (set_fs (<[p := Dir]> (fs w)) w)
            end
        end
  end.

Definition mkdir_parents_exist_ok (p : Path) : M unit :=
  emit (EvMkdir p) ;; makedirs [] p.

(** What [open(p, "wb")] raises, if anything. *)
Definition check_writable (p : Path) : M unit :=
  refuse (OpOpenWrite p) ;;
  fun w =>
    match stat (fs w) p with
    | Some Dir => (Raised (os_error IsADirectoryError p), w)
    | Some (File _) => (Return tt, w)
    | None =>
        match stat (fs w) (parent p) with
        | Some Dir => (Return tt, w)
        | Some (File _) => (Raised (os_error NotADirectoryError p), w)
        | None => (Raised (os_error FileNotFoundError p), w)
        end
    end.

Definition put (p : Path) (data : bytes) : M unit :=
  fun w => (Return tt, set_fs (<[p := File data]> (fs w)) w).

(** [with open(p, "wb") as f: f.write(data)] *)
Definition write_file (p : Path) (data : bytes) : M unit :=
  emit (EvOpenWrite p) ;; check_writable p ;; put p data.

(** [open(p, "rb").read()] *)
Definition read_file (p : Path) : M bytes :=
  emit (EvOpenRead p) ;;
  refuse (OpOpenRead p) ;;
  fun w =>
    match stat (fs w) p with
    | Some (File data) => (Return data, w)
    | Some Dir => (Raised (os_error IsADirectoryError p), w)
    | None => (Raised (os_error FileNotFoundError p), w)
    end.

(** [Path.unlink] *)
Definition unlink (p : Path) : M unit :=
  emit (EvUnlink p) ;;
  refuse (OpUnlink p) ;;
  fun w =>
    match stat (fs w) p with
    | Some (File _) => (Return tt, set_fs (delete p (fs w)) w)
    | Some Dir => (Raised (os_error IsADirectoryError p), w)
    | None => (Raised (os_error FileNotFoundError p), w)
    end.

(* ------------------------------------------------------------------- *)
(** *** The library calls                                               *)
(* ------------------------------------------------------------------- *)

(** [Image.open(p)] *)
Definition image_open (p : Path) : M gif :=
  emit (EvImageOpen p) ;;
  refuse (OpOpenRead p) ;;
  fun w =>
    match stat (fs w) p with
    | Some (File data) => (pil_open data, w)
    | Some Dir => (Raised (os_error IsADirectoryError p), w)
    | None => (Raised (os_error FileNotFoundError p), w)
    end.

(** [frame.save(p, "PNG")]: the file is opened for writing, the frame is
    encoded, the bytes are written.  A save that fails leaves no new
    file behind. *)
Definition save (frame : image) (p : Path) : M unit :=
  emit (EvSave p) ;;
  check_writable p ;;
  data <- lift (pil_png_encode frame) ;;
  put p data.

(** [new_session(model_name)], or [new_session()] for [None] *)
Definition new_session (model_name : option string) : M session :=
  emit (EvNewSession model_name) ;;
  lift (rembg_new_session model_name).

(** [remove(data, session=session)] *)
Definition remove (data : bytes) (s : session) : M bytes :=
  emit (EvRemove data s) ;;
  lift (rembg_remove data s).

(* ------------------------------------------------------------------- *)
(** *** [process_gif]                                                   *)
(* ------------------------------------------------------------------- *)

Definition temp_frame_name (frame_count : nat) : string :=
  "frame_" +:+ format_03d frame_count +:+ ".png".

Definition output_frame_name (frame_count : nat) : string :=
  "frame_" +:+ format_03d frame_count +:+ "_bg_removed.png".

(** The truth value of [model_name]: [None] and the empty string are
    false. *)
Definition truthy (model_name : option string) : bool :=
  match model_name with
  | None => false
  | Some s => negb (String.eqb s "")
  end.

(** The body of the [try] of one frame. *)
Definition frame_try (frame : image) (temp_frame_path output_frame_path : Path)
    (s : session) : M unit :=
  save frame temp_frame_path ;;
  input_data <- read_file temp_frame_path ;;
  output_data <- remove input_data s ;;
  write_file output_frame_path output_data.

(** Its [finally]. *)
Definition frame_finally (keep_temp_files : bool) (temp_frame_path : Path)
    : M unit :=
  if negb keep_temp_files
  then suppress FileNotFoundError (unlink temp_frame_path)
  else ret tt.

(** One turn of the [for] loop, with [frame_count] already advanced. *)
Definition frame_body (output_path : Path) (keep_temp_files : bool)
    (s : session) (frame_count : nat) (frame : image) : M unit :=
  logging_debug ("Processing frame " +:+ str_of_nat frame_count) ;;
  frame <- lift (pil_convert_rgba frame) ;;
  let temp_frame_path := output_path // temp_frame_name frame_count in
  let output_frame_path := output_path // output_frame_name frame_count in
  try_finally
    (frame_try frame temp_frame_path output_frame_path s)
    (frame_finally keep_temp_files temp_frame_path).

(** [for frame in ImageSequence.Iterator(gif): ...]; gives the final
    [frame_count]. *)
Fixpoint frame_loop (output_path : Path) (keep_temp_files : bool)
    (s : session) (todo : list image) (frame_count : nat) : M nat :=
  match todo with
  | [] => ret frame_count
  | frame :: rest =>
      let frame_count := frame_count + 1 in
      frame_body output_path keep_temp_files s frame_count frame ;;
      frame_loop output_path keep_temp_files s rest frame_count
  end.

(** The iterator stopping with an error instead of with the last frame. *)
Definition end_of_sequence (g : gif) : M unit :=
  match truncated g with
  | Some e => raise e
  | None => ret tt
  end.

(** The body of the outer [try]. *)
Definition process_frames (input_path output_path : Path)
    (keep_temp_files : bool) (s : session) : M Path :=
  g <- image_open input_path ;;
  let frame_count := 0 in
  let duration := default 100%Z (info_duration g) in
  frame_count <- frame_loop output_path keep_temp_files s (frames g) frame_count ;;
  end_of_sequence g ;;
  logging_info ("Successfully processed " +:+ str_of_nat frame_count +:+ " frames") ;;
  ret output_path.

Definition process_gif (input_gif_path output_folder : Path)
    (keep_temp_files : bool) (model_name : option string) : M Path :=
  let input_path := input_gif_path in
  let output_path := output_folder in
  found <- path_exists input_path ;;
  if negb found then
    raise (Exc FileNotFoundError
             ("Input file not found: " +:+ path_str input_path))
  else if negb (String.eqb (lower (suffix input_path)) ".gif") then
    raise (Exc ValueError
             ("Input file must be a GIF, got: " +:+ suffix input_path))
  else
    mkdir_parents_exist_ok output_path ;;
    logging_info ("Processing GIF: " +:+ path_str input_path) ;;
    logging_info ("Output directory: " +:+ path_str output_path) ;;
    s <- (if truthy model_name then new_session model_name
          else new_session None) ;;
    try_except
      (process_frames input_path output_path keep_temp_files s)
      (fun e =>
         logging_error ("Error processing GIF: " +:+ exc_str e) ;;
         raise e).

(* ------------------------------------------------------------------- *)
(** *** The command line                                                *)
(* ------------------------------------------------------------------- *)

(** The namespace [argparse] returns. *)
Record args := Args {
  input_gif : Path;
  output_dir : Path;
  keep_temp : bool;
  model : option string;
  debug : bool
}.

(** [logging.basicConfig(level=...)]: a configured root logger is left
    as it is. *)
Definition setup_logging (log_level : level) : M unit :=
  fun w =>
    (Return tt,
     match log_config w with
     | Some _ => w
     | None =>
         {| fs := fs w; log_config := Some log_level; log := log w;
            trace := trace w |}
     end).

(** The [__main__] block; the result is the exit status. *)
Definition main (a : args) (w : world) : nat * world :=
  match setup_logging (if debug a then DEBUG else INFO) w with
  | (_, w0) =>
      match process_gif (input_gif a) (output_dir a)
              (keep_temp a) (model a) w0 with
      | (Return _, w1) => (0, w1)
      | (Raised e, w1) =>
          match logging_error ("Failed to process GIF: " +:+ exc_str e) w1 with
          | (_, w2) => (1, w2)
          end
      end
  end.

(* ------------------------------------------------------------------- *)
(** *** Notions used in the statements                                  *)
(* ------------------------------------------------------------------- *)

(** The PNG encoding of a frame after its conversion to RGBA. *)
Definition frame_png (frame : image) : outcome bytes :=
  match pil_convert_rgba frame with
  | Return rgba => pil_png_encode rgba
  | Raised e => Raised e
  end.

(** The same bytes after background removal. *)
Definition frame_result (s : session) (frame : image) : outcome bytes :=
  match frame_png frame with
  | Return png => rembg_remove png s
  | Raised e => Raised e
  end.

(** What [process_gif] does once both checks on the input path have
    passed: its text from [output_path.mkdir] to the end. *)
Definition after_validation (input_path output_path : Path)
    (keep_temp_files : bool) (model_name : option string) : M Path :=
  mkdir_parents_exist_ok output_path ;;
  logging_info ("Processing GIF: " +:+ path_str input_path) ;;
  logging_info ("Output directory: " +:+ path_str output_path) ;;
  s <- (if truthy model_name then new_session model_name
        else new_session None) ;;
  try_except
    (process_frames input_path output_path keep_temp_files s)
    (fun e =>
       logging_error ("Error processing GIF: " +:+ exc_str e) ;;
       raise e).

(** The world in which the session is asked for, given the world [w1]
    that [mkdir] left. *)
Definition announced (input_path output_path : Path) (w1 : world) : world :=
  add_log INFO ("Output directory: " +:+ path_str output_path)
    (add_log INFO ("Processing GIF: " +:+ path_str input_path) w1).

(** The handler of the outer [try]. *)
Definition log_and_reraise (e : exception) : M Path :=
  logging_error ("Error processing GIF: " +:+ exc_str e) ;;
  raise e.

(** A frame on which conversion, encoding and inference all succeed. *)
Definition frame_ok (s : session) (frame : image) : Prop :=
  exists png res,
    frame_png frame = Return png /\ rembg_remove png s = Return res.

(** The session [process_gif] asks for. *)
Definition requested_model (model_name : option string) : option string :=
  if truthy model_name then model_name else None.

(** The artifact paths of the frames [lo+1..hi] in [output_path]. *)
Definition artifact (output_path : Path) (lo hi : nat) (p : Path) : Prop :=
  exists i, lo < i <= hi /\
    (p = output_path // temp_frame_name i \/
     p = output_path // output_frame_name i).

(** The number of frames of the file at [input_path], when it decodes. *)
Definition frame_total (input_path : Path) (w : world) : nat :=
  match stat (fs w) input_path with
  | Some (File data) =>
      match pil_open data with
      | Return g => length (frames g)
      | Raised _ => 0
      end
  | _ => 0
  end.

(** A computation whose every run relates the world before to the world
    after by [R]. *)
Definition respects {A} (R : world -> world -> Prop) (m : M A) : Prop :=
  forall w r w', m w = (r, w') -> R w w'.

(** The file system is left as it was. *)
Definition fs_unchanged (w w' : world) : Prop := fs w' = fs w.

(** Nothing outside [A] is created, changed or deleted. *)
Definition same_outside (A : Path -> Prop) (w w' : world) : Prop :=
  forall p, ~ A p -> fs w' !! p = fs w !! p.

(** No entry is changed or deleted; new ones may appear. *)
Definition keeps_entries (w w' : world) : Prop :=
  forall p e, fs w !! p = Some e -> fs w' !! p = Some e.

(** The record with which the loop announces frame [i]. *)
Definition debug_record (i : nat) : log_record :=
  (DEBUG, "Processing frame " +:+ str_of_nat i).

(** Nothing is logged. *)
Definition log_kept (w w' : world) : Prop := log w' = log w.

(** The frames [1..n] have been announced in the log, and no entry that
    was there before has been changed or deleted, except possibly at the
    artifact paths of these frames. *)
Definition touched_upto (output_path : Path) (n : nat) (w w' : world) : Prop :=
  (exists l, log w' = (log w ++ l)%list /\
             forall i, 1 <= i <= n -> debug_record i ∈ l) /\
  (forall (p : Path) e,
     fs w !! p = Some e -> ~ artifact output_path 0 n p ->
     fs w' !! p = Some e).

(** The world in which the frame loop starts, given the world [w1] that
    [mkdir] left: the two lines logged, the session asked for, the image
    opened. *)
Definition loop_world (input_path output_path : Path)
    (model_name : option string) (w1 : world) : world :=
  add_event (EvImageOpen input_path)
    (add_event (EvNewSession (requested_model model_name))
       (announced input_path output_path w1)).

(** The world [logging.basicConfig] leaves. *)
Definition configured (lvl : level) (w : world) : world :=
  snd (setup_logging lvl w).

(** Where each call of a run may go: [mkdir] to the output directory,
    [Image.open] to the input, saving, reading back and deleting to the
    temporary file of some frame, writing to the output file of some
    frame; deleting only when temporary files are not kept. *)
Definition on_expected_path (input_path output_path : Path) (keep : bool)
    (model_name : option string) (ev : event) : Prop :=
  match ev with
  | EvMkdir p => p = output_path
  | EvNewSession m => m = requested_model model_name
  | EvImageOpen p => p = input_path
  | EvSave p | EvOpenRead p =>
      exists i, 1 <= i /\ p = output_path // temp_frame_name i
  | EvRemove _ _ => True
  | EvOpenWrite p =>
      exists i, 1 <= i /\ p = output_path // output_frame_name i
  | EvUnlink p =>
      keep = false /\
      exists i, 1 <= i /\ p = output_path // temp_frame_name i
  end.

(** Events a loop that reuses the session [s] may produce. *)
Definition reuses (s : session) (ev : event) : Prop :=
  match ev with
  | EvNewSession _ => False
  | EvRemove _ s' => s' = s
  | _ => True
  end.

(** The calls of [remove] among some events: the bytes and the session
    each was given. *)
Fixpoint removes (evs : list event) : list (bytes * session) :=
  match evs with
  | [] => []
  | EvRemove data s :: rest => (data, s) :: removes rest
  | _ :: rest => removes rest
  end.

(** Events that are neither a session request nor an inference. *)
Definition other_call (ev : event) : Prop :=
  match ev with
  | EvNewSession _ => False
  | EvRemove _ _ => False
  | _ => True
  end.

Definition trace_extends (P : event -> Prop) (w w' : world) : Prop :=
  exists evs, trace w' = (trace w ++ evs)%list /\ Forall P evs.

(** Two worlds that differ at most in the content of the file at
    [input_path], which is [data1] in the first and [data2] in the
    second. *)
Definition same_but_input (input_path : Path) (data1 data2 : bytes)
    (w1 w2 : world) : Prop :=
  log_config w1 = log_config w2 /\ log w1 = log w2 /\ trace w1 = trace w2 /\
  fs w1 !! input_path = Some (File data1) /\
  fs w2 !! input_path = Some (File data2) /\
  forall p : Path, p <> input_path -> fs w1 !! p = fs w2 !! p.

(** A statement that, started in two related worlds, ends the same way in
    two related worlds. *)
Definition agree {A} (R : world -> world -> Prop) (m : M A) : Prop :=
  forall w1 w2, R w1 w2 ->
    exists r w1' w2', m w1 = (r, w1') /\ m w2 = (r, w2') /\ R w1' w2'.

(* =================================================================== *)
(** ** Facts about strings, numbers and paths                           *)
(* =================================================================== *)

Lemma str_app_nil (b : string) : "" +:+ b = b.
Proof. reflexivity. Qed.

Lemma str_app_cons x (a b : string) : String x a +:+ b = String x (a +:+ b).
Proof. reflexivity. Qed.

Lemma str_app_assoc (a b c : string) : (a +:+ b) +:+ c = a +:+ (b +:+ c).
Proof.
  induction a as [|x a IH]; [reflexivity|].
  rewrite !str_app_cons. now f_equal.
Qed.

Lemma str_app_length (a b : string) :
  String.length (a +:+ b) = String.length a + String.length b.
Proof.
  induction a as [|x a IH]; [reflexivity|].
  rewrite str_app_cons. simpl. now f_equal.
Qed.

Lemma str_app_inv_tail (a b c : string) : a +:+ c = b +:+ c -> a = b.
Proof.
  revert b. induction a as [|x a IH]; intros [|y b] H.
  - reflexivity.
  - apply (f_equal String.length) in H.
    rewrite !str_app_length in H. simpl in H. lia.
  - apply (f_equal String.length) in H.
    rewrite !str_app_length in H. simpl in H. lia.
  - rewrite !str_app_cons in H. injection H as -> H. f_equal. now apply IH.
Qed.

Lemma rfind_dot_app (a b : string) :
  rfind_dot (a +:+ b) =
  match rfind_dot b with
  | Some i => Some (String.length a + i)
  | None => rfind_dot a
  end.
Proof.
  induction a as [|x a IH].
  - rewrite str_app_nil. now destruct (rfind_dot b).
  - rewrite str_app_cons. simpl. rewrite IH.
    now destruct (rfind_dot b).
Qed.

Lemma drop_str_app (a b : string) : drop_str (String.length a) (a +:+ b) = b.
Proof.
  induction a as [|x a IH]; [now destruct b|].
  rewrite str_app_cons. exact IH.
Qed.

Lemma suffix_of_name_png (a : string) :
  a <> "" -> suffix_of_name (a +:+ ".png") = ".png".
Proof.
  intros Ha. unfold suffix_of_name.
  rewrite rfind_dot_app.
  change (rfind_dot ".png") with (Some 0). cbv beta iota.
  rewrite Nat.add_0_r, str_app_length.
  change (String.length ".png") with 4.
  destruct a as [|x a]; [congruence|]. simpl String.length.
  replace (0 <? S (String.length a))%nat with true
    by (symmetry; apply Nat.ltb_lt; lia).
  replace (S (String.length a) <? S (String.length a) + 4 - 1)%nat with true
    by (symmetry; apply Nat.ltb_lt; lia).
  exact (drop_str_app (String x a) ".png").
Qed.

Lemma all_digits_app (a b : string) :
  all_digits (a +:+ b) = all_digits a && all_digits b.
Proof.
  induction a as [|x a IH]; [reflexivity|].
  rewrite str_app_cons. simpl. rewrite IH. now rewrite andb_assoc.
Qed.

Lemma all_digits_zeros k : all_digits (zeros k) = true.
Proof. induction k; simpl; [reflexivity | assumption]. Qed.

Lemma all_digits_uint d : all_digits (NilEmpty.string_of_uint d) = true.
Proof. induction d; simpl; auto. Qed.

Lemma all_digits_format n : all_digits (format_03d n) = true.
Proof.
  unfold format_03d, str_of_nat.
  now rewrite all_digits_app, all_digits_zeros, all_digits_uint.
Qed.

Lemma uint_of_zeros k s d :
  NilEmpty.uint_of_string s = Some d ->
  exists d', NilEmpty.uint_of_string (zeros k +:+ s) = Some d' /\
             Nat.of_uint d' = Nat.of_uint d.
Proof.
  intros Hs. induction k as [|k [d' [H1 H2]]].
  - eauto.
  - simpl zeros. rewrite str_app_cons. simpl. rewrite H1.
    exists (D0 d'). split; [reflexivity | exact H2].
Qed.

Lemma int_of_str_format n : int_of_str (format_03d n) = Some n.
Proof.
  unfold int_of_str, format_03d, str_of_nat.
  destruct (uint_of_zeros
              (3 - String.length (NilEmpty.string_of_uint (Nat.to_uint n)))
              _ _ (NilEmpty.usu (Nat.to_uint n))) as [d' [H1 H2]].
  rewrite H1. simpl. now rewrite H2, Unsigned.of_to.
Qed.

Lemma format_03d_inj i j : format_03d i = format_03d j -> i = j.
Proof.
  intros H. apply (f_equal int_of_str) in H.
  rewrite !int_of_str_format in H. congruence.
Qed.

Lemma temp_frame_name_inj i j :
  temp_frame_name i = temp_frame_name j -> i = j.
Proof.
  unfold temp_frame_name. intros H.
  apply (inj (String.app "frame_")) in H.
  now apply str_app_inv_tail, format_03d_inj in H.
Qed.

Lemma output_frame_name_inj i j :
  output_frame_name i = output_frame_name j -> i = j.
Proof.
  unfold output_frame_name. intros H.
  apply (inj (String.app "frame_")) in H.
  now apply str_app_inv_tail, format_03d_inj in H.
Qed.

Lemma temp_not_output i j : temp_frame_name i <> output_frame_name j.
Proof.
  unfold temp_frame_name, output_frame_name. intros H.
  apply (inj (String.app "frame_")) in H.
  change "_bg_removed.png" with ("_bg_removed" +:+ ".png") in H.
  rewrite <- str_app_assoc in H. apply str_app_inv_tail in H.
  apply (f_equal all_digits) in H.
  rewrite all_digits_app, !all_digits_format in H. discriminate H.
Qed.

Lemma joinpath_inj (d : Path) a b : d // a = d // b -> a = b.
Proof. unfold joinpath. intros H. apply app_inv_head in H. congruence. Qed.

Lemma name_joinpath (d : Path) nm : nm <> "/" -> name (d // nm) = nm.
Proof.
  intros Hnm. unfold name, joinpath.
  destruct (decide _) as [E|_].
  - destruct d as [|x [|y d]]; simpl in E; congruence.
  - apply last_last.
Qed.

Lemma suffix_temp_frame (d : Path) i : suffix (d // temp_frame_name i) = ".png".
Proof.
  unfold suffix. rewrite name_joinpath by discriminate.
  unfold temp_frame_name. rewrite <- str_app_assoc.
  apply suffix_of_name_png. discriminate.
Qed.

Lemma suffix_output_frame (d : Path) i :
  suffix (d // output_frame_name i) = ".png".
Proof.
  unfold suffix. rewrite name_joinpath by discriminate.
  unfold output_frame_name.
  change "_bg_removed.png" with ("_bg_removed" +:+ ".png").
  rewrite <- !str_app_assoc.
  apply suffix_of_name_png. discriminate.
Qed.

(** A path that passed the extension check is no artifact path. *)
Lemma gif_not_artifact (input_path output_path : Path) n :
  lower (suffix input_path) = ".gif" -> ~ artifact output_path 0 n input_path.
Proof.
  intros Hgif [i [_ [-> | ->]]];
    rewrite ?suffix_temp_frame, ?suffix_output_frame in Hgif;
    discriminate Hgif.
Qed.

(* =================================================================== *)
(** ** Statements compose                                               *)
(* =================================================================== *)

Section Respects.
Variable R : world -> world -> Prop.
Hypothesis R_refl : forall w, R w w.
Hypothesis R_trans : forall w1 w2 w3, R w1 w2 -> R w2 w3 -> R w1 w3.

Lemma respects_ret {A} (a : A) : respects R (ret a).
Proof. intros w r w' [= <- <-]. apply R_refl. Qed.

Lemma respects_raise {A} e : respects R (@raise A e).
Proof. intros w r w' [= <- <-]. apply R_refl. Qed.

Lemma respects_lift {A} (o : outcome A) : respects R (lift o).
Proof. intros w r w' [= <- <-]. apply R_refl. Qed.

Lemma respects_bind {A B} (m : M A) (k : A -> M B) :
  respects R m -> (forall a, respects R (k a)) -> respects R (bind m k).
Proof.
  intros Hm Hk w r w'. unfold bind.
  destruct (m w) as [[a|e] w1] eqn:E.
  - intros Hka. eapply R_trans; [eapply Hm, E | eapply Hk, Hka].
  - intros [= <- <-]. eapply Hm, E.
Qed.

Lemma respects_try_finally {A} (body : M A) (cleanup : M unit) :
  respects R body -> respects R cleanup ->
  respects R (try_finally body cleanup).
Proof.
  intros Hb Hc w r w'. unfold try_finally.
  destruct (body w) as [r1 w1] eqn:E1.
  destruct (cleanup w1) as [[u|e] w2] eqn:E2; intros [= <- <-];
    (eapply R_trans; [eapply Hb, E1 | eapply Hc, E2]).
Qed.

Lemma respects_try_except {A} (body : M A) (handler : exception -> M A) :
  respects R body -> (forall e, respects R (handler e)) ->
  respects R (try_except body handler).
Proof.
  intros Hb Hh w r w'. unfold try_except.
  destruct (body w) as [[a|e] w1] eqn:E1.
  - intros [= <- <-]. eapply Hb, E1.
  - intros E2. eapply R_trans; [eapply Hb, E1 | eapply Hh, E2].
Qed.

Lemma respects_suppress cls (body : M unit) :
  respects R body -> respects R (suppress cls body).
Proof.
  intros Hb w r w'. unfold suppress.
  destruct (body w) as [[u|e] w1] eqn:E1.
  - intros [= <- <-]. eapply Hb, E1.
  - destruct (decide _); intros [= <- <-]; eapply Hb, E1.
Qed.
End Respects.

(* =================================================================== *)
(** ** Which paths a statement can touch                                *)
(* =================================================================== *)

(** Unfolds a run of a primitive statement into its cases. *)
Ltac run_cases H :=
  unfold bind, ret, raise, lift, emit, logging_debug, logging_info,
    logging_error, logging_log, refuse, put, set_fs, add_event,
    add_log in H;
  simpl in H; repeat case_match; simplify_eq; simpl in *.

Lemma same_outside_refl A w : same_outside A w w.
Proof. intros p _. reflexivity. Qed.

Lemma same_outside_trans A w1 w2 w3 :
  same_outside A w1 w2 -> same_outside A w2 w3 -> same_outside A w1 w3.
Proof. intros H1 H2 p Hp. rewrite H2, H1 by assumption. reflexivity. Qed.

Lemma same_outside_mono (A B : Path -> Prop) w w' :
  (forall p, A p -> B p) -> same_outside A w w' -> same_outside B w w'.
Proof. intros HAB H p Hp. apply H. intros HA. apply Hp, HAB, HA. Qed.

Lemma fs_unchanged_same_outside A w w' :
  fs_unchanged w w' -> same_outside A w w'.
Proof. intros H p _. now rewrite H. Qed.

Lemma respects_mono {X} (R R' : world -> world -> Prop) (m : M X) :
  (forall w w', R w w' -> R' w w') -> respects R m -> respects R' m.
Proof. intros HR Hm w r w' E. eapply HR, Hm, E. Qed.

Lemma emit_fs ev : respects fs_unchanged (emit ev).
Proof. intros w r w' H. run_cases H. reflexivity. Qed.

Lemma logging_log_fs lvl msg : respects fs_unchanged (logging_log lvl msg).
Proof. intros w r w' H. run_cases H. reflexivity. Qed.

Lemma check_writable_fs p : respects fs_unchanged (check_writable p).
Proof.
  intros w r w' H. unfold check_writable in H. run_cases H; reflexivity.
Qed.

Lemma read_file_fs p : respects fs_unchanged (read_file p).
Proof.
  intros w r w' H. unfold read_file in H. run_cases H; reflexivity.
Qed.

Lemma remove_fs data s : respects fs_unchanged (remove data s).
Proof. intros w r w' H. unfold remove in H. run_cases H; reflexivity. Qed.

Lemma put_outside (A : Path -> Prop) p data :
  A p -> respects (same_outside A) (put p data).
Proof.
  intros HA w r w' H q Hq. run_cases H.
  apply lookup_insert_ne. intros ->. contradiction.
Qed.

Lemma unlink_outside (A : Path -> Prop) p :
  A p -> respects (same_outside A) (unlink p).
Proof.
  intros HA w r w' H q Hq. unfold unlink in H. run_cases H; try reflexivity.
  apply lookup_delete_ne. intros ->. contradiction.
Qed.

Ltac outside_bind :=
  apply respects_bind; [apply same_outside_trans | | intros ?].

Ltac outside_pure lem :=
  eapply respects_mono; [apply fs_unchanged_same_outside | apply lem].

Lemma save_outside (A : Path -> Prop) frame p :
  A p -> respects (same_outside A) (save frame p).
Proof.
  intros HA. unfold save.
  outside_bind; [outside_pure emit_fs|].
  outside_bind; [outside_pure check_writable_fs|].
  outside_bind; [apply respects_lift, same_outside_refl|].
  now apply put_outside.
Qed.

Lemma write_file_outside (A : Path -> Prop) p data :
  A p -> respects (same_outside A) (write_file p data).
Proof.
  intros HA. unfold write_file.
  outside_bind; [outside_pure emit_fs|].
  outside_bind; [outside_pure check_writable_fs|].
  now apply put_outside.
Qed.

Lemma frame_body_outside (A : Path -> Prop) output_path keep s frame_count frame :
  A (output_path // temp_frame_name frame_count) ->
  A (output_path // output_frame_name frame_count) ->
  respects (same_outside A)
    (frame_body output_path keep s frame_count frame).
Proof.
  intros Ht Ho. unfold frame_body, frame_try, frame_finally.
  outside_bind; [outside_pure logging_log_fs|].
  outside_bind; [apply respects_lift, same_outside_refl|].
  apply respects_try_finally; [apply same_outside_trans | |].
  - outside_bind; [now apply save_outside|].
    outside_bind; [outside_pure read_file_fs|].
    outside_bind; [outside_pure remove_fs|].
    now apply write_file_outside.
  - destruct keep; simpl.
    + apply respects_ret, same_outside_refl.
    + apply respects_suppress. now apply unlink_outside.
Qed.

Lemma frame_loop_outside output_path keep s todo : forall frame_count,
  respects
    (same_outside
       (artifact output_path frame_count (frame_count + length todo)))
    (frame_loop output_path keep s todo frame_count).
Proof.
  induction todo as [|frame rest IH]; intros k; simpl frame_loop.
  - apply respects_ret, same_outside_refl.
  - outside_bind.
    + apply frame_body_outside.
      * exists (k + 1). simpl. split; [lia | now left].
      * exists (k + 1). simpl. split; [lia | now right].
    + eapply respects_mono; [|apply IH].
      intros w w'. apply same_outside_mono.
      intros p (i & Hi & Hp). exists i. simpl. split; [lia | exact Hp].
Qed.

(* =================================================================== *)
(** ** Creating the output directory                                    *)
(* =================================================================== *)

Lemma keeps_entries_refl w : keeps_entries w w.
Proof. intros p e H. exact H. Qed.

Lemma stat_child (f : filesystem) (d : Path) nm :
  stat f (d // nm) = f !! (d // nm).
Proof. unfold joinpath. now destruct d. Qed.

Lemma parent_child (d : Path) nm : parent (d // nm) = d.
Proof. apply removelast_last. Qed.

Lemma child_not_self (d : Path) nm : d // nm <> d.
Proof.
  unfold joinpath. intros H. apply (f_equal length) in H.
  rewrite length_app in H. simpl in H. lia.
Qed.

Lemma stat_insert (f : filesystem) (p q : Path) e :
  p <> [] ->
  stat (<[p := e]> f) q = if decide (q = p) then Some e else stat f q.
Proof.
  intros Hp. destruct (decide (q = p)) as [->|Hne].
  - destruct p; [congruence|]. simpl. apply lookup_insert_eq.
  - destruct q; [reflexivity|]. simpl. now apply lookup_insert_ne.
Qed.

Lemma makedirs_keeps rest : forall created,
  respects keeps_entries (makedirs created rest).
Proof.
  induction rest as [|c rest IH]; intros created w r w' H; simpl in H.
  - injection H as <- <-. apply keeps_entries_refl.
  - rewrite stat_child in H.
    destruct (fs w !! (created // c)) as [[data|]|] eqn:E.
    + injection H as <- <-. apply keeps_entries_refl.
    + eapply IH, H.
    + destruct (os_refuses (OpMkdir (created // c))).
      * injection H as <- <-. apply keeps_entries_refl.
      * apply IH in H. intros p e Hp. apply H. simpl.
        rewrite lookup_insert_ne; [exact Hp | congruence].
Qed.

(** Only the file system changes, and only above or at the directory. *)
Lemma makedirs_frame rest : forall created w r w',
  makedirs created rest w = (r, w') ->
  log w' = log w /\ trace w' = trace w /\ log_config w' = log_config w /\
  forall p : Path, length created + length rest < length p ->
                   fs w' !! p = fs w !! p.
Proof.
  induction rest as [|c rest IH]; intros created w r w' H; simpl in H.
  - injection H as <- <-. auto.
  - rewrite stat_child in H.
    destruct (fs w !! (created // c)) as [[data|]|] eqn:E.
    + injection H as <- <-. auto.
    + apply IH in H as (H1 & H2 & H3 & H4). repeat split; try assumption.
      intros p Hp. apply H4. unfold joinpath. rewrite length_app.
      simpl in *. lia.
    + destruct (os_refuses (OpMkdir (created // c))).
      * injection H as <- <-. auto.
      * apply IH in H as (H1 & H2 & H3 & H4). repeat split; try assumption.
        intros p Hp. rewrite H4.
        -- simpl. apply lookup_insert_ne. intros Heq.
           apply (f_equal length) in Heq. unfold joinpath in Heq.
           rewrite length_app in Heq. simpl in *. lia.
        -- unfold joinpath. rewrite length_app. simpl in *. lia.
Qed.

Lemma makedirs_ok rest : forall created w,
  (forall op, os_refuses op = None) ->
  stat (fs w) created = Some Dir ->
  (forall pre, pre `prefix_of` (created ++ rest)%list ->
               is_file (stat (fs w) pre) = false) ->
  exists w', makedirs created rest w = (Return tt, w') /\
             stat (fs w') (created ++ rest)%list = Some Dir.
Proof.
  induction rest as [|c rest IH]; intros created w Hos Hd Hpre; simpl.
  - exists w. rewrite app_nil_r. auto.
  - assert (Hc : (created ++ c :: rest)%list = ((created // c) ++ rest)%list).
    { unfold joinpath. now rewrite <- app_assoc. }
    rewrite Hc in *.
    assert (Hp : is_file (stat (fs w) (created // c)) = false).
    { apply Hpre. now exists rest. }
    destruct (stat (fs w) (created // c)) as [[data|]|] eqn:E;
      [discriminate Hp | |].
    + apply IH; assumption.
    + rewrite Hos. apply IH; [assumption | |]; simpl.
      * rewrite stat_insert by apply not_eq_sym, app_cons_not_nil.
        now rewrite decide_True.
      * intros pre Hpre'.
        rewrite stat_insert by apply not_eq_sym, app_cons_not_nil.
        destruct (decide _); [reflexivity | now apply Hpre].
Qed.

(* =================================================================== *)
(** ** Runs in which nothing fails                                      *)
(* =================================================================== *)

Lemma bind_return {A B} (m : M A) (k : A -> M B) w a w1 :
  m w = (Return a, w1) -> bind m k w = k a w1.
Proof. intros H. unfold bind. now rewrite H. Qed.

Lemma bind_raised {A B} (m : M A) (k : A -> M B) w e w1 :
  m w = (Raised e, w1) -> bind m k w = (Raised e, w1).
Proof. intros H. unfold bind. now rewrite H. Qed.

Lemma check_writable_ok p w :
  (forall op, os_refuses op = None) ->
  stat (fs w) p <> Some Dir ->
  stat (fs w) (parent p) = Some Dir ->
  check_writable p w = (Return tt, w).
Proof.
  intros Hos Hp Hd. unfold check_writable, bind, refuse. rewrite Hos.
  destruct (stat (fs w) p) as [[data|]|]; [reflexivity | congruence |].
  now rewrite Hd.
Qed.

Lemma save_ok frame p data w :
  (forall op, os_refuses op = None) ->
  stat (fs w) p <> Some Dir ->
  stat (fs w) (parent p) = Some Dir ->
  pil_png_encode frame = Return data ->
  exists w', save frame p w = (Return tt, w') /\
             fs w' = <[p := File data]> (fs w).
Proof.
  intros Hos Hp Hd He. unfold save.
  erewrite bind_return by reflexivity.
  erewrite bind_return by (apply check_writable_ok; assumption).
  unfold lift. erewrite bind_return by (rewrite He; reflexivity).
  eexists. split; reflexivity.
Qed.

Lemma write_file_ok p data w :
  (forall op, os_refuses op = None) ->
  stat (fs w) p <> Some Dir ->
  stat (fs w) (parent p) = Some Dir ->
  exists w', write_file p data w = (Return tt, w') /\
             fs w' = <[p := File data]> (fs w).
Proof.
  intros Hos Hp Hd. unfold write_file.
  erewrite bind_return by reflexivity.
  erewrite bind_return by (apply check_writable_ok; assumption).
  eexists. split; reflexivity.
Qed.

Lemma read_file_ok p data w :
  (forall op, os_refuses op = None) ->
  stat (fs w) p = Some (File data) ->
  exists w', read_file p w = (Return data, w') /\ fs w' = fs w.
Proof.
  intros Hos Hp. unfold read_file.
  erewrite bind_return by reflexivity.
  unfold bind, refuse. rewrite Hos. simpl. rewrite Hp.
  eexists. split; reflexivity.
Qed.

Lemma remove_ok data s res w :
  rembg_remove data s = Return res ->
  exists w', remove data s w = (Return res, w') /\ fs w' = fs w.
Proof.
  intros H. unfold remove.
  erewrite bind_return by reflexivity.
  unfold lift. rewrite H. eexists. split; reflexivity.
Qed.

Lemma unlink_ok p data w :
  (forall op, os_refuses op = None) ->
  stat (fs w) p = Some (File data) ->
  exists w', unlink p w = (Return tt, w') /\ fs w' = delete p (fs w).
Proof.
  intros Hos Hp. unfold unlink.
  erewrite bind_return by reflexivity.
  unfold bind, refuse. rewrite Hos. simpl. rewrite Hp.
  eexists. split; reflexivity.
Qed.

Lemma stat_same_outside (A : Path -> Prop) w w' p :
  same_outside A w w' -> ~ A p -> stat (fs w') p = stat (fs w) p.
Proof. intros H Hp. destruct p; [reflexivity|]. simpl. now apply H. Qed.

Lemma artifact_temp output_path lo hi i :
  artifact output_path lo hi (output_path // temp_frame_name i) -> lo < i <= hi.
Proof.
  intros (j & Hj & [H | H]); apply joinpath_inj in H.
  - apply temp_frame_name_inj in H. now subst.
  - now apply temp_not_output in H.
Qed.

Lemma artifact_output output_path lo hi i :
  artifact output_path lo hi (output_path // output_frame_name i) -> lo < i <= hi.
Proof.
  intros (j & Hj & [H | H]); apply joinpath_inj in H.
  - symmetry in H. now apply temp_not_output in H.
  - apply output_frame_name_inj in H. now subst.
Qed.

Lemma artifact_not_dir output_path lo hi : ~ artifact output_path lo hi output_path.
Proof. intros (j & _ & [H | H]); symmetry in H; now apply child_not_self in H. Qed.

Lemma frame_body_ok output_path keep s i frame png res w :
  (forall op, os_refuses op = None) ->
  stat (fs w) output_path = Some Dir ->
  fs w !! (output_path // temp_frame_name i) <> Some Dir ->
  fs w !! (output_path // output_frame_name i) <> Some Dir ->
  frame_png frame = Return png ->
  rembg_remove png s = Return res ->
  exists w', frame_body output_path keep s i frame w = (Return tt, w') /\
    fs w' !! (output_path // output_frame_name i) = Some (File res) /\
    fs w' !! (output_path // temp_frame_name i) =
      (if keep then Some (File png) else None).
Proof.
  intros Hos Hdir Htemp Hout Hpng Hres.
  set (temp := output_path // temp_frame_name i) in *.
  set (outp := output_path // output_frame_name i) in *.
  assert (Hne : temp <> outp).
  { intros H. apply joinpath_inj in H. now apply temp_not_output in H. }
  unfold frame_png in Hpng.
  destruct (pil_convert_rgba frame) as [rgba|] eqn:Hconv; [|discriminate].
  unfold frame_body. fold temp outp.
  erewrite bind_return by reflexivity.
  unfold lift at 1. erewrite bind_return by (rewrite Hconv; reflexivity).
  match goal with |- context [try_finally _ _ ?w0] => set (w0' := w0) end.
  assert (Hfs0 : fs w0' = fs w) by reflexivity.
  (* the body of the try *)
  destruct (save_ok rgba temp png w0' Hos) as (w1 & Hsave & Hfs1);
    [unfold temp; rewrite stat_child, Hfs0; exact Htemp
    |unfold temp; rewrite parent_child, Hfs0; exact Hdir
    |exact Hpng|].
  destruct (read_file_ok temp png w1 Hos) as (w2 & Hread & Hfs2).
  { unfold temp. rewrite stat_child. fold temp.
    rewrite Hfs1. apply lookup_insert_eq. }
  destruct (remove_ok png s res w2 Hres) as (w3 & Hrem & Hfs3).
  destruct (write_file_ok outp res w3 Hos) as (w4 & Hwrite & Hfs4).
  { unfold outp. rewrite stat_child. fold outp.
    rewrite Hfs3, Hfs2, Hfs1, Hfs0, lookup_insert_ne by assumption.
    exact Hout. }
  { unfold outp. rewrite parent_child. fold outp.
    rewrite Hfs3, Hfs2, Hfs1, Hfs0.
    rewrite stat_insert by (unfold temp, joinpath; apply not_eq_sym, app_cons_not_nil).
    rewrite decide_False by (apply not_eq_sym, child_not_self).
    exact Hdir. }
  assert (Htry : frame_try rgba temp outp s w0' = (Return tt, w4)).
  { unfold frame_try.
    erewrite bind_return by exact Hsave.
    erewrite bind_return by exact Hread.
    erewrite bind_return by exact Hrem.
    exact Hwrite. }
  assert (Hfs : fs w4 = <[outp := File res]> (<[temp := File png]> (fs w))).
  { now rewrite Hfs4, Hfs3, Hfs2, Hfs1, Hfs0. }
  unfold try_finally. rewrite Htry. unfold frame_finally.
  destruct keep; simpl.
  - eexists. split; [reflexivity|]. rewrite Hfs. split.
    + apply lookup_insert_eq.
    + rewrite lookup_insert_ne by congruence. apply lookup_insert_eq.
  - destruct (unlink_ok temp png w4 Hos) as (w5 & Hunl & Hfs5).
    { unfold temp. rewrite stat_child. fold temp. rewrite Hfs.
      rewrite lookup_insert_ne by congruence. apply lookup_insert_eq. }
    unfold suppress. rewrite Hunl.
    eexists. split; [reflexivity|]. rewrite Hfs5, Hfs. split.
    + rewrite lookup_delete_ne by assumption. apply lookup_insert_eq.
    + apply lookup_delete_eq.
Qed.

Lemma frame_loop_ok output_path keep s todo : forall k w,
  (forall op, os_refuses op = None) ->
  stat (fs w) output_path = Some Dir ->
  (forall i, k < i ->
     fs w !! (output_path // temp_frame_name i) <> Some Dir /\
     fs w !! (output_path // output_frame_name i) <> Some Dir) ->
  Forall (frame_ok s) todo ->
  exists w',
    frame_loop output_path keep s todo k w = (Return (k + length todo), w') /\
    forall j frame png res,
      todo !! j = Some frame ->
      frame_png frame = Return png ->
      rembg_remove png s = Return res ->
      fs w' !! (output_path // output_frame_name (k + 1 + j)) = Some (File res) /\
      fs w' !! (output_path // temp_frame_name (k + 1 + j)) =
        (if keep then Some (File png) else None).
Proof.
  induction todo as [|frame rest IH]; intros k w Hos Hdir Hfree Hall.
  - exists w. simpl. split; [now rewrite Nat.add_0_r|].
    intros j f png res Hj. discriminate Hj.
  - apply Forall_cons in Hall as [(png & res & Hpng & Hres) Hall].
    destruct (Hfree (k + 1)) as [Ht Ho]; [lia|].
    destruct (frame_body_ok output_path keep s (k + 1) frame png res w
                Hos Hdir Ht Ho Hpng Hres) as (w1 & Hbody & Hout1 & Htemp1).
    assert (Hsame : same_outside (artifact output_path k (k + 1)) w w1).
    { eapply frame_body_outside; [| |exact Hbody].
      - exists (k + 1). split; [lia | now left].
      - exists (k + 1). split; [lia | now right]. }
    destruct (IH (k + 1) w1 Hos) as (w' & Hloop & Hpost).
    { rewrite (stat_same_outside _ _ _ _ Hsame); [exact Hdir|].
      apply artifact_not_dir. }
    { intros i Hi. destruct (Hfree i) as [Hti Hoi]; [lia|].
      rewrite !Hsame; [auto| |].
      - intros H. apply artifact_output in H. lia.
      - intros H. apply artifact_temp in H. lia. }
    { exact Hall. }
    exists w'. split.
    { simpl frame_loop. erewrite bind_return by exact Hbody.
      rewrite Hloop. simpl. do 2 f_equal. lia. }
    assert (Hlater := frame_loop_outside output_path keep s rest (k + 1)
                        w1 _ w' Hloop).
    intros [|j] f png' res' Hj Hpng' Hres'.
    + injection Hj as <-. rewrite Hpng in Hpng'. injection Hpng' as <-.
      rewrite Hres in Hres'. injection Hres' as <-.
      rewrite Nat.add_0_r, !Hlater; [auto| |].
      * intros H. apply artifact_temp in H. lia.
      * intros H. apply artifact_output in H. lia.
    + replace (k + 1 + S j) with (k + 1 + 1 + j) by lia.
      eapply Hpost; eassumption.
Qed.

Lemma process_frames_ok input_path output_path keep s data g w :
  (forall op, os_refuses op = None) ->
  stat (fs w) input_path = Some (File data) ->
  pil_open data = Return g ->
  truncated g = None ->
  stat (fs w) output_path = Some Dir ->
  (forall i,
     fs w !! (output_path // temp_frame_name i) <> Some Dir /\
     fs w !! (output_path // output_frame_name i) <> Some Dir) ->
  Forall (frame_ok s) (frames g) ->
  exists w',
    process_frames input_path output_path keep s w = (Return output_path, w') /\
    same_outside (artifact output_path 0 (length (frames g))) w w' /\
    forall j frame png res,
      frames g !! j = Some frame ->
      frame_png frame = Return png ->
      rembg_remove png s = Return res ->
      fs w' !! (output_path // output_frame_name (j + 1)) = Some (File res) /\
      fs w' !! (output_path // temp_frame_name (j + 1)) =
        (if keep then Some (File png) else None).
Proof.
  intros Hos Hin Hdec Htr Hdir Hfree Hall.
  unfold process_frames.
  assert (Hopen : exists w0, image_open input_path w = (Return g, w0) /\
                             fs w0 = fs w).
  { unfold image_open. erewrite bind_return by reflexivity.
    unfold bind, refuse. rewrite Hos. simpl. rewrite Hin, Hdec.
    eexists. split; reflexivity. }
  destruct Hopen as (w0 & Hopen & Hfs0).
  erewrite bind_return by exact Hopen.
  destruct (frame_loop_ok output_path keep s (frames g) 0 w0 Hos)
    as (w1 & Hloop & Hpost).
  { now rewrite Hfs0. }
  { intros i _. rewrite Hfs0. apply Hfree. }
  { exact Hall. }
  erewrite bind_return by exact Hloop.
  unfold end_of_sequence. rewrite Htr.
  erewrite bind_return by reflexivity.
  erewrite bind_return by reflexivity.
  eexists. split; [reflexivity|]. simpl. split.
  - intros p Hp. simpl.
    rewrite (frame_loop_outside _ _ _ _ _ _ _ _ Hloop p Hp). now rewrite Hfs0.
  - intros j frame png res Hj Hpng Hres.
    rewrite (Nat.add_comm j 1). exact (Hpost j frame png res Hj Hpng Hres).
Qed.

Lemma new_session_choice model_name :
  (if truthy model_name then new_session model_name else new_session None)
  = new_session (requested_model model_name).
Proof. unfold requested_model. now destruct (truthy model_name). Qed.

Lemma stat_keeps w w' p e :
  keeps_entries w w' -> stat (fs w) p = Some e -> stat (fs w') p = Some e.
Proof. intros H. destruct p; [trivial | apply H]. Qed.

Lemma process_gif_valid input_path output_path keep model_name w :
  is_Some (stat (fs w) input_path) ->
  lower (suffix input_path) = ".gif" ->
  process_gif input_path output_path keep model_name w
  = after_validation input_path output_path keep model_name w.
Proof.
  intros Hin Hext. unfold process_gif, path_exists, bind at 1.
  rewrite bool_decide_eq_true_2 by exact Hin.
  rewrite Hext. reflexivity.
Qed.

Lemma process_gif_missing input_path output_path keep model_name w :
  stat (fs w) input_path = None ->
  process_gif input_path output_path keep model_name w
  = (Raised (Exc FileNotFoundError
               ("Input file not found: " +:+ path_str input_path)), w).
Proof.
  intros Hin. unfold process_gif, path_exists, bind.
  rewrite bool_decide_eq_false_2; [reflexivity|].
  rewrite Hin. now intros [e He].
Qed.

Lemma process_gif_bad_suffix input_path output_path keep model_name w :
  is_Some (stat (fs w) input_path) ->
  lower (suffix input_path) <> ".gif" ->
  process_gif input_path output_path keep model_name w
  = (Raised (Exc ValueError
               ("Input file must be a GIF, got: " +:+ suffix input_path)), w).
Proof.
  intros Hin Hext. unfold process_gif, path_exists, bind.
  rewrite bool_decide_eq_true_2 by exact Hin.
  apply String.eqb_neq in Hext. rewrite Hext. reflexivity.
Qed.

(** The whole of [process_gif] when every collaborator succeeds. *)
Lemma process_gif_ok input_path output_path keep model_name data g s w :
  (forall op, os_refuses op = None) ->
  stat (fs w) input_path = Some (File data) ->
  lower (suffix input_path) = ".gif" ->
  pil_open data = Return g ->
  truncated g = None ->
  rembg_new_session (requested_model model_name) = Return s ->
  Forall (frame_ok s) (frames g) ->
  (forall pre, pre `prefix_of` output_path ->
               is_file (stat (fs w) pre) = false) ->
  (forall i,
     fs w !! (output_path // temp_frame_name i) <> Some Dir /\
     fs w !! (output_path // output_frame_name i) <> Some Dir) ->
  exists w',
    process_gif input_path output_path keep model_name w
      = (Return output_path, w') /\
    (forall p : Path,
       length output_path < length p ->
       ~ artifact output_path 0 (length (frames g)) p ->
       fs w' !! p = fs w !! p) /\
    forall j frame png res,
      frames g !! j = Some frame ->
      frame_png frame = Return png ->
      rembg_remove png s = Return res ->
      fs w' !! (output_path // output_frame_name (j + 1)) = Some (File res) /\
      fs w' !! (output_path // temp_frame_name (j + 1)) =
        (if keep then Some (File png) else None).
Proof.
  intros Hos Hin Hext Hdec Htr Hsess Hall Hmk Hfree.
  rewrite process_gif_valid by (rewrite ?Hin; eauto).
  unfold after_validation.
  (* the output directory *)
  set (w0 := add_event (EvMkdir output_path) w).
  destruct (makedirs_ok output_path [] w0 Hos eq_refl Hmk)
    as (w1 & Hmkdir & Hdir).
  simpl app in Hdir.
  assert (Hkeep := makedirs_keeps _ _ _ _ _ Hmkdir).
  destruct (makedirs_frame _ _ _ _ _ Hmkdir) as (_ & _ & _ & Hdeep).
  assert (Hmk' : mkdir_parents_exist_ok output_path w = (Return tt, w1)).
  { unfold mkdir_parents_exist_ok. erewrite bind_return by reflexivity.
    exact Hmkdir. }
  erewrite bind_return by exact Hmk'.
  erewrite bind_return by reflexivity.
  erewrite bind_return by reflexivity.
  rewrite new_session_choice.
  unfold new_session at 1.
  erewrite bind_return;
    [|erewrite bind_return by reflexivity; unfold lift; rewrite Hsess;
      reflexivity].
  match goal with |- context [try_except _ _ ?w2] => set (w2' := w2) end.
  assert (Hfs2 : fs w2' = fs w1) by reflexivity.
  destruct (process_frames_ok input_path output_path keep s data g w2' Hos)
    as (w3 & Hrun & Hsame & Hpost); try assumption.
  { rewrite Hfs2. eapply stat_keeps; [exact Hkeep | exact Hin]. }
  { intros i. rewrite Hfs2, !Hdeep; [apply Hfree | |];
      unfold joinpath; rewrite length_app; simpl; lia. }
  unfold try_except. rewrite Hrun.
  exists w3. split; [reflexivity|]. split; [|exact Hpost].
  intros p Hlen Hp. rewrite (Hsame p Hp), Hfs2. apply Hdeep. simpl. lia.
Qed.

(* =================================================================== *)
(** ** Directory listings                                               *)
(* =================================================================== *)

Lemma elem_of_listdir (f : filesystem) (d : Path) nm :
  nm ∈ listdir f d <-> is_Some (f !! (d // nm)).
Proof.
  unfold listdir. rewrite elem_of_set_omap. split.
  - intros (p & Hp & Hc). unfold child_name in Hc.
    destruct (last p) as [nm'|]; [|discriminate].
    destruct (decide (p = d // nm')) as [->|]; [|discriminate].
    injection Hc as ->. now apply elem_of_dom.
  - intros H. exists (d // nm). split; [now apply elem_of_dom|].
    unfold child_name, joinpath. rewrite last_snoc.
    now rewrite decide_True.
Qed.

Lemma artifact_dec output_path lo hi p :
  {artifact output_path lo hi p} + {~ artifact output_path lo hi p}.
Proof.
  destruct (decide (Exists
              (fun i => p = output_path // temp_frame_name i \/
                        p = output_path // output_frame_name i)
              (seq (S lo) (hi - lo)))) as [H|H].
  - left. apply Exists_exists in H as (i & Hi & Hp).
    apply elem_of_seq in Hi. exists i. split; [lia | exact Hp].
  - right. intros (i & Hi & Hp). apply H, Exists_exists.
    exists i. split; [apply elem_of_seq; lia | exact Hp].
Qed.

Lemma NoDup_output_names n : NoDup (output_frame_name <$> seq 1 n).
Proof.
  apply NoDup_fmap_2; [|apply NoDup_seq].
  intros i j. apply output_frame_name_inj.
Qed.

Lemma NoDup_temp_names n : NoDup (temp_frame_name <$> seq 1 n).
Proof.
  apply NoDup_fmap_2; [|apply NoDup_seq].
  intros i j. apply temp_frame_name_inj.
Qed.

Lemma fresh_none (f : filesystem) (d : Path) nm :
  listdir f d = ∅ -> f !! (d // nm) = None.
Proof.
  intros H. destruct (f !! (d // nm)) eqn:E; [|reflexivity].
  assert (Hin : nm ∈ listdir f d) by (apply elem_of_listdir; eauto).
  rewrite H in Hin. now apply not_elem_of_empty in Hin.
Qed.

Lemma frame_at s (l : list image) i :
  1 <= i <= length l ->
  Forall (frame_ok s) l ->
  exists frame png res,
    l !! (i - 1) = Some frame /\ frame_png frame = Return png /\
    rembg_remove png s = Return res.
Proof.
  intros Hi Hall.
  destruct (lookup_lt_is_Some_2 l (i - 1)) as [frame Hf]; [lia|].
  destruct (Forall_lookup_1 _ _ _ _ Hall Hf) as (png & res & Hpng & Hres).
  eauto 6.
Qed.

(* =================================================================== *)
(** ** Reading a run backwards                                          *)
(* =================================================================== *)

Lemma bind_inv {A B} (m : M A) (k : A -> M B) w r w' :
  bind m k w = (r, w') ->
  (exists a w1, m w = (Return a, w1) /\ k a w1 = (r, w')) \/
  (exists e, m w = (Raised e, w') /\ r = Raised e).
Proof.
  unfold bind. destruct (m w) as [[a|e] w1].
  - intros H. left. eauto.
  - intros [= <- <-]. right. eauto.
Qed.

(** A run that returned went through every statement of a sequence. *)
Ltac returned H :=
  apply bind_inv in H as [(? & ? & ? & H) | (? & _ & ?)]; [|discriminate].

Lemma process_frames_returns input_path output_path keep s w r w' :
  process_frames input_path output_path keep s w = (Return r, w') ->
  r = output_path.
Proof.
  intros H. unfold process_frames in H.
  returned H. returned H. returned H. returned H.
  now injection H.
Qed.

Lemma after_validation_returns input_path output_path keep model_name w r w' :
  after_validation input_path output_path keep model_name w = (Return r, w') ->
  r = output_path.
Proof.
  intros H. unfold after_validation in H.
  returned H. returned H. returned H. returned H.
  unfold try_except in H.
  match type of H with
  | context [process_frames ?i ?o ?k ?s ?w0] =>
      destruct (process_frames i o k s w0) as [[a|e] w3] eqn:E
  end.
  - injection H as <- <-. eapply process_frames_returns, E.
  - returned H. discriminate H.
Qed.

Lemma process_gif_cases (input_path : Path) (w : world) :
  (stat (fs w) input_path = None) \/
  (is_Some (stat (fs w) input_path) /\ lower (suffix input_path) <> ".gif") \/
  (is_Some (stat (fs w) input_path) /\ lower (suffix input_path) = ".gif").
Proof.
  destruct (stat (fs w) input_path) eqn:E; [|now left].
  right. destruct (decide (lower (suffix input_path) = ".gif")); eauto.
Qed.

(* =================================================================== *)
(** ** The calls a run makes                                            *)
(* =================================================================== *)

Lemma trace_extends_refl P w : trace_extends P w w.
Proof. exists []. split; [now rewrite app_nil_r | constructor]. Qed.

Lemma trace_extends_trans P w1 w2 w3 :
  trace_extends P w1 w2 -> trace_extends P w2 w3 -> trace_extends P w1 w3.
Proof.
  intros (e1 & H1 & F1) (e2 & H2 & F2). exists (e1 ++ e2)%list. split.
  - now rewrite H2, H1, app_assoc.
  - now apply Forall_app.
Qed.

Lemma trace_extends_one (P : event -> Prop) ev w w' :
  P ev -> trace w' = (trace w ++ [ev])%list -> trace_extends P w w'.
Proof. intros HP H. exists [ev]. split; [exact H | now constructor]. Qed.

Lemma trace_extends_same P w w' : trace w' = trace w -> trace_extends P w w'.
Proof. intros H. exists []. split; [now rewrite app_nil_r | constructor]. Qed.

Ltac calls_bind :=
  apply respects_bind; [apply trace_extends_trans | | intros ?].

Lemma logging_log_calls P lvl msg :
  respects (trace_extends P) (logging_log lvl msg).
Proof. intros w r w' H. run_cases H. now apply trace_extends_same. Qed.

Lemma save_calls (P : event -> Prop) frame p :
  P (EvSave p) -> respects (trace_extends P) (save frame p).
Proof.
  intros HP w r w' H. unfold save, check_writable in H.
  run_cases H; now apply (trace_extends_one P (EvSave p)).
Qed.

Lemma read_file_calls (P : event -> Prop) p :
  P (EvOpenRead p) -> respects (trace_extends P) (read_file p).
Proof.
  intros HP w r w' H. unfold read_file in H.
  run_cases H; now apply (trace_extends_one P (EvOpenRead p)).
Qed.

Lemma remove_calls (P : event -> Prop) data s :
  P (EvRemove data s) -> respects (trace_extends P) (remove data s).
Proof.
  intros HP w r w' H. unfold remove in H.
  run_cases H; now apply (trace_extends_one P (EvRemove data s)).
Qed.

Lemma write_file_calls (P : event -> Prop) p data :
  P (EvOpenWrite p) -> respects (trace_extends P) (write_file p data).
Proof.
  intros HP w r w' H. unfold write_file, check_writable in H.
  run_cases H; now apply (trace_extends_one P (EvOpenWrite p)).
Qed.

Lemma unlink_calls (P : event -> Prop) p :
  P (EvUnlink p) -> respects (trace_extends P) (unlink p).
Proof.
  intros HP w r w' H. unfold unlink in H.
  run_cases H; now apply (trace_extends_one P (EvUnlink p)).
Qed.

Lemma image_open_calls (P : event -> Prop) p :
  P (EvImageOpen p) -> respects (trace_extends P) (image_open p).
Proof.
  intros HP w r w' H. unfold image_open in H.
  run_cases H; now apply (trace_extends_one P (EvImageOpen p)).
Qed.

Lemma frame_body_calls output_path keep s frame_count frame :
  respects (trace_extends (reuses s))
    (frame_body output_path keep s frame_count frame).
Proof.
  unfold frame_body, frame_try, frame_finally.
  calls_bind; [apply logging_log_calls|].
  calls_bind; [apply respects_lift, trace_extends_refl|].
  apply respects_try_finally; [apply trace_extends_trans | |].
  - calls_bind; [now apply save_calls|].
    calls_bind; [now apply read_file_calls|].
    calls_bind; [now apply remove_calls|].
    now apply write_file_calls.
  - destruct keep; simpl.
    + apply respects_ret, trace_extends_refl.
    + apply respects_suppress. now apply unlink_calls.
Qed.

Lemma frame_loop_calls output_path keep s todo : forall frame_count,
  respects (trace_extends (reuses s))
    (frame_loop output_path keep s todo frame_count).
Proof.
  induction todo as [|frame rest IH]; intros k; simpl frame_loop.
  - apply respects_ret, trace_extends_refl.
  - calls_bind; [apply frame_body_calls | apply IH].
Qed.

Lemma process_frames_calls input_path output_path keep s :
  respects (trace_extends (reuses s))
    (process_frames input_path output_path keep s).
Proof.
  unfold process_frames.
  calls_bind; [now apply image_open_calls|].
  calls_bind; [apply frame_loop_calls|].
  calls_bind.
  { unfold end_of_sequence. destruct (truncated _).
    - apply respects_raise, trace_extends_refl.
    - apply respects_ret, trace_extends_refl. }
  calls_bind; [apply logging_log_calls|].
  apply respects_ret, trace_extends_refl.
Qed.

Lemma mkdir_frame output_path w r w1 :
  mkdir_parents_exist_ok output_path w = (r, w1) ->
  trace w1 = (trace w ++ [EvMkdir output_path])%list /\
  log w1 = log w /\ keeps_entries w w1.
Proof.
  intros H. unfold mkdir_parents_exist_ok in H.
  apply bind_inv in H as [(u & w0 & E & H) | (e & E & _)];
    [|discriminate E].
  injection E as _ <-.
  destruct (makedirs_frame _ _ _ _ _ H) as (Hl & Ht & _ & _).
  split; [exact Ht|]. split; [exact Hl|].
  exact (makedirs_keeps _ _ _ _ _ H).
Qed.

(** After a successful [mkdir]: the two log lines, the session request,
    then the outer [try]. *)
Lemma after_validation_session input_path output_path keep model_name w w1 :
  mkdir_parents_exist_ok output_path w = (Return tt, w1) ->
  after_validation input_path output_path keep model_name w
  = match rembg_new_session (requested_model model_name) with
    | Return s =>
        try_except (process_frames input_path output_path keep s)
          log_and_reraise
          (add_event (EvNewSession (requested_model model_name))
             (announced input_path output_path w1))
    | Raised e =>
        (Raised e,
         add_event (EvNewSession (requested_model model_name))
           (announced input_path output_path w1))
    end.
Proof.
  intros Hmk. unfold after_validation.
  erewrite bind_return by exact Hmk.
  erewrite bind_return by reflexivity.
  erewrite bind_return by reflexivity.
  rewrite new_session_choice. unfold new_session, bind at 1, bind at 1, emit, lift.
  now destruct (rembg_new_session (requested_model model_name)).
Qed.

Lemma try_except_log input_path output_path keep s w :
  try_except (process_frames input_path output_path keep s) log_and_reraise w
  = match process_frames input_path output_path keep s w with
    | (Return r, w') => (Return r, w')
    | (Raised e, w') =>
        (Raised e, add_log ERROR ("Error processing GIF: " +:+ exc_str e) w')
    end.
Proof.
  unfold try_except.
  now destruct (process_frames input_path output_path keep s w) as [[r|e] w'].
Qed.

Lemma image_open_inv p w r w' :
  image_open p w = (r, w') ->
  fs w' = fs w /\
  forall g, r = Return g ->
    exists data, stat (fs w) p = Some (File data) /\ pil_open data = Return g.
Proof.
  intros H. unfold image_open in H. run_cases H; split; try reflexivity;
    intros g' Hg; try discriminate Hg; eauto.
Qed.

Lemma frame_total_keeps input_path w w1 :
  is_Some (stat (fs w) input_path) -> keeps_entries w w1 ->
  frame_total input_path w1 = frame_total input_path w.
Proof.
  intros [e He] Hk. unfold frame_total.
  now rewrite (stat_keeps _ _ _ _ Hk He), He.
Qed.

(* =================================================================== *)
(** ** The inferences of a run that returns                             *)
(* =================================================================== *)

Lemma removes_app evs1 evs2 :
  removes (evs1 ++ evs2) = (removes evs1 ++ removes evs2)%list.
Proof.
  induction evs1 as [|ev evs1 IH]; [reflexivity|].
  destruct ev; simpl; rewrite ?IH; reflexivity.
Qed.

Lemma removes_other evs : Forall other_call evs -> removes evs = [].
Proof.
  induction 1 as [|ev evs Hev _ IH]; [reflexivity|].
  destruct ev; simpl in *; try contradiction; exact IH.
Qed.

Lemma save_returned frame (p : Path) w w' :
  save frame p w = (Return tt, w') ->
  exists data, pil_png_encode frame = Return data /\
    fs w' = <[p := File data]> (fs w) /\
    trace w' = (trace w ++ [EvSave p])%list.
Proof.
  intros H. unfold save, check_writable in H. run_cases H; eauto.
Qed.

Lemma read_file_returned (p : Path) data w w' :
  read_file p w = (Return data, w') ->
  stat (fs w) p = Some (File data) /\ fs w' = fs w /\
  trace w' = (trace w ++ [EvOpenRead p])%list.
Proof. intros H. unfold read_file in H. run_cases H; auto. Qed.

Lemma remove_trace data s r w w' :
  remove data s w = (r, w') ->
  trace w' = (trace w ++ [EvRemove data s])%list.
Proof. intros H. unfold remove in H. run_cases H; reflexivity. Qed.

Lemma frame_finally_calls keep (p : Path) :
  respects (trace_extends other_call) (frame_finally keep p).
Proof.
  unfold frame_finally. destruct keep; simpl.
  - apply respects_ret, trace_extends_refl.
  - apply respects_suppress. now apply unlink_calls.
Qed.

Lemma frame_body_returned output_path keep s i frame w w' :
  frame_body output_path keep s i frame w = (Return tt, w') ->
  exists png evs,
    frame_png frame = Return png /\
    trace w' = (trace w ++ evs)%list /\ removes evs = [(png, s)].
Proof.
  intros H. unfold frame_body in H.
  returned H. returned H.
  match goal with
  | E1 : logging_debug _ _ = _, E2 : lift _ _ = _ |- _ =>
      unfold logging_debug, logging_log in E1; injection E1 as _ <-;
      unfold lift in E2; injection E2 as Hconv <-
  end.
  unfold try_finally in H.
  match type of H with
  | context [frame_try ?f ?t ?o ?s' ?w0] =>
      destruct (frame_try f t o s' w0) as [r1 w1] eqn:Et
  end.
  match type of H with
  | context [frame_finally ?k ?t ?w0] =>
      destruct (frame_finally k t w0) as [[u|e] w2] eqn:Ef
  end; [|discriminate H].
  injection H as -> <-.
  unfold frame_try in Et.
  returned Et. returned Et. returned Et.
  repeat match goal with u : unit |- _ => destruct u end.
  match goal with
  | Es : save _ _ _ = _, Er : read_file _ _ = _, Em : remove _ _ _ = _ |- _ =>
      apply save_returned in Es as (png & Henc & Hfs1 & Ht1);
      apply read_file_returned in Er as (Hst & Hfs2 & Ht2);
      apply remove_trace in Em as Ht3
  end.
  rewrite stat_child, Hfs1, lookup_insert_eq in Hst. injection Hst as <-.
  apply (write_file_calls other_call) in Et as (ev4 & Ht4 & Ho4); [|exact I].
  apply frame_finally_calls in Ef as (ev5 & Ht5 & Ho5).
  exists png. eexists. split; [|split].
  - unfold frame_png. now rewrite Hconv.
  - rewrite Ht5, Ht4, Ht3, Ht2, Ht1. simpl. rewrite <- !app_assoc. reflexivity.
  - rewrite !removes_app. simpl.
    now rewrite (removes_other _ Ho4), (removes_other _ Ho5).
Qed.

Lemma frame_loop_returned output_path keep s todo : forall k n w w',
  frame_loop output_path keep s todo k w = (Return n, w') ->
  exists evs,
    trace w' = (trace w ++ evs)%list /\
    Forall2 (fun frame call => frame_png frame = Return (fst call) /\ snd call = s)
      todo (removes evs).
Proof.
  induction todo as [|frame rest IH]; intros k n w w' H; simpl in H.
  - injection H as _ <-. exists []. split; [now rewrite app_nil_r | constructor].
  - returned H.
    match goal with
    | E : frame_body _ _ _ _ _ _ = (Return ?u, _) |- _ =>
        destruct u; apply frame_body_returned in E as (png & ev1 & Hpng & Ht1 & Hr1)
    end.
    apply IH in H as (ev2 & Ht2 & Hall).
    exists (ev1 ++ ev2)%list. split.
    + now rewrite Ht2, Ht1, app_assoc.
    + rewrite removes_app, Hr1. simpl. constructor; [split|]; auto.
Qed.

Lemma process_frames_returned input_path output_path keep s r w w' :
  process_frames input_path output_path keep s w = (Return r, w') ->
  exists data g evs,
    stat (fs w) input_path = Some (File data) /\ pil_open data = Return g /\
    trace w' = (trace w ++ evs)%list /\
    Forall2 (fun frame call => frame_png frame = Return (fst call) /\ snd call = s)
      (frames g) (removes evs).
Proof.
  intros H. unfold process_frames in H.
  returned H. returned H. returned H. returned H.
  injection H as _ <-.
  match goal with
  | Eo : image_open _ _ = (Return ?g, ?w0), El : frame_loop _ _ _ _ _ _ = _,
    Ee : end_of_sequence _ _ = (_, ?w2), Eg : logging_info _ _ = _ |- _ =>
      pose proof (image_open_calls other_call _ I _ _ _ Eo) as (ev1 & Ht1 & Ho1);
      apply image_open_inv in Eo as [Hfs Hg];
      destruct (Hg g eq_refl) as (data & Hst & Hdec);
      apply frame_loop_returned in El as (ev2 & Ht2 & Hall);
      unfold end_of_sequence in Ee; destruct (truncated g); [discriminate Ee|];
      injection Ee as _ <-;
      unfold logging_info, logging_log in Eg; injection Eg as _ <-;
      exists data, g, (ev1 ++ ev2)%list
  end.
  split; [exact Hst|]. split; [exact Hdec|]. split.
  - simpl. now rewrite Ht2, Ht1, app_assoc.
  - now rewrite removes_app, (removes_other _ Ho1).
Qed.

(* =================================================================== *)
(** ** Which frames a run has reached                                   *)
(* =================================================================== *)

Lemma log_kept_refl w : log_kept w w.
Proof. reflexivity. Qed.

Lemma log_kept_trans w1 w2 w3 : log_kept w1 w2 -> log_kept w2 w3 -> log_kept w1 w3.
Proof. unfold log_kept. congruence. Qed.

Ltac log_bind := apply respects_bind; [apply log_kept_trans | | intros ?].

Lemma save_log frame p : respects log_kept (save frame p).
Proof.
  intros w r w' H. unfold save, check_writable in H. run_cases H; reflexivity.
Qed.

Lemma read_file_log p : respects log_kept (read_file p).
Proof. intros w r w' H. unfold read_file in H. run_cases H; reflexivity. Qed.

Lemma remove_log data s : respects log_kept (remove data s).
Proof. intros w r w' H. unfold remove in H. run_cases H; reflexivity. Qed.

Lemma write_file_log p data : respects log_kept (write_file p data).
Proof.
  intros w r w' H. unfold write_file, check_writable in H.
  run_cases H; reflexivity.
Qed.

Lemma unlink_log p : respects log_kept (unlink p).
Proof. intros w r w' H. unfold unlink in H. run_cases H; reflexivity. Qed.

Lemma image_open_log p : respects log_kept (image_open p).
Proof. intros w r w' H. unfold image_open in H. run_cases H; reflexivity. Qed.

Lemma frame_block_log frame temp_frame_path output_frame_path s keep :
  respects log_kept
    (try_finally (frame_try frame temp_frame_path output_frame_path s)
       (frame_finally keep temp_frame_path)).
Proof.
  apply respects_try_finally; [apply log_kept_trans | |].
  - unfold frame_try.
    log_bind; [apply save_log|].
    log_bind; [apply read_file_log|].
    log_bind; [apply remove_log|].
    apply write_file_log.
  - unfold frame_finally. destruct keep; simpl.
    + apply respects_ret, log_kept_refl.
    + apply respects_suppress, unlink_log.
Qed.

Lemma frame_body_log output_path keep s i frame w r w' :
  frame_body output_path keep s i frame w = (r, w') ->
  log w' = (log w ++ [debug_record i])%list.
Proof.
  intros H. unfold frame_body in H.
  apply bind_inv in H as [(u & w0 & E & H) | (e & E & _)];
    [|discriminate E].
  unfold logging_debug, logging_log in E. injection E as _ <-.
  apply bind_inv in H as [(rgba & w1 & E & H) | (e & E & _)].
  - unfold lift in E. injection E as _ <-.
    apply frame_block_log in H. rewrite H. reflexivity.
  - unfold lift in E. injection E as _ <-. reflexivity.
Qed.

Lemma frame_loop_reached output_path keep s todo : forall k w r w',
  frame_loop output_path keep s todo k w = (r, w') ->
  exists j, j <= length todo /\
    log w' = (log w ++ (debug_record <$> seq (k + 1) j))%list /\
    same_outside (artifact output_path k (k + j)) w w'.
Proof.
  induction todo as [|frame rest IH]; intros k w r w' H; simpl in H.
  - injection H as _ <-. exists 0. split; [lia|]. split.
    + simpl. now rewrite app_nil_r.
    + apply same_outside_refl.
  - assert (Hfirst : forall w1 r1,
              frame_body output_path keep s (k + 1) frame w = (r1, w1) ->
              same_outside (artifact output_path k (k + 1)) w w1).
    { intros w1 r1 E. eapply frame_body_outside; [| |exact E].
      - exists (k + 1). split; [lia | now left].
      - exists (k + 1). split; [lia | now right]. }
    apply bind_inv in H as [(u & w1 & E & H) | (e & E & _)].
    + apply IH in H as (j & Hj & Hlog & Hsame).
      exists (S j). split; [simpl; lia|]. split.
      * rewrite Hlog, (frame_body_log _ _ _ _ _ _ _ _ E). simpl.
        rewrite <- app_assoc. simpl. do 4 f_equal. lia.
      * eapply same_outside_trans.
        -- eapply same_outside_mono; [|exact (Hfirst _ _ E)].
           intros p (i & Hi & Hp). exists i. split; [lia | exact Hp].
        -- eapply same_outside_mono; [|exact Hsame].
           intros p (i & Hi & Hp). exists i. split; [lia | exact Hp].
    + exists 1. split; [simpl; lia|]. split.
      * rewrite (frame_body_log _ _ _ _ _ _ _ _ E). reflexivity.
      * exact (Hfirst _ _ E).
Qed.

Lemma touched_upto_refl output_path w : touched_upto output_path 0 w w.
Proof.
  split; [|auto]. exists []. split; [now rewrite app_nil_r|].
  intros i Hi. lia.
Qed.

Lemma touched_upto_before output_path n w w1 w2 :
  touched_upto output_path 0 w w1 -> touched_upto output_path n w1 w2 ->
  touched_upto output_path n w w2.
Proof.
  intros [(l1 & Hl1 & _) Hf1] [(l2 & Hl2 & Hd) Hf2]. split.
  - exists (l1 ++ l2)%list. split; [now rewrite Hl2, Hl1, app_assoc|].
    intros i Hi. apply elem_of_app. right. now apply Hd.
  - intros p e Hp Hna. apply Hf2; [|exact Hna].
    apply Hf1; [exact Hp|]. intros (i & Hi & _). lia.
Qed.

Lemma touched_upto_after output_path n w w1 w2 :
  touched_upto output_path n w w1 -> touched_upto output_path 0 w1 w2 ->
  touched_upto output_path n w w2.
Proof.
  intros [(l1 & Hl1 & Hd) Hf1] [(l2 & Hl2 & _) Hf2]. split.
  - exists (l1 ++ l2)%list. split; [now rewrite Hl2, Hl1, app_assoc|].
    intros i Hi. apply elem_of_app. left. now apply Hd.
  - intros p e Hp Hna. apply Hf2.
    + now apply Hf1.
    + intros (i & Hi & _). lia.
Qed.

(** A step that changes no entry and logs what it likes. *)
Lemma touched_upto_quiet output_path w w' l :
  fs w' = fs w -> log w' = (log w ++ l)%list -> touched_upto output_path 0 w w'.
Proof.
  intros Hfs Hl. split.
  - exists l. split; [exact Hl|]. intros i Hi. lia.
  - intros p e Hp _. now rewrite Hfs.
Qed.

Lemma process_frames_reached input_path output_path keep s w r w' :
  process_frames input_path output_path keep s w = (r, w') ->
  exists n, n <= frame_total input_path w /\ touched_upto output_path n w w'.
Proof.
  intros H. unfold process_frames in H.
  apply bind_inv in H as [(g & w0 & Hopen & H) | (e & Hopen & _)].
  - assert (Hl0 := image_open_log _ _ _ _ Hopen).
    apply image_open_inv in Hopen as [Hfs Hg].
    destruct (Hg g eq_refl) as (data & Hstat & Hdec).
    unfold frame_total. rewrite Hstat, Hdec.
    assert (Hloop : forall r1 w1,
              frame_loop output_path keep s (frames g) 0 w0 = (r1, w1) ->
              exists n, n <= length (frames g) /\
                        touched_upto output_path n w w1).
    { intros r1 w1 E. apply frame_loop_reached in E as (j & Hj & Hlog & Hsame).
      exists j. split; [exact Hj|]. split.
      - exists (debug_record <$> seq 1 j). split; [now rewrite Hlog, Hl0|].
        intros i Hi. apply list_elem_of_fmap. exists i.
        split; [reflexivity | apply elem_of_seq; lia].
      - intros p e Hp Hna. rewrite (Hsame p Hna), Hfs. exact Hp. }
    apply bind_inv in H as [(k & w1 & E & H) | (e & E & _)];
      [|now apply Hloop in E].
    apply Hloop in E as (n & Hn & Ht). exists n. split; [exact Hn|].
    eapply touched_upto_after; [exact Ht|].
    unfold end_of_sequence in H. destruct (truncated g).
    + injection H as _ <-. apply touched_upto_refl.
    + unfold bind, ret, logging_info, logging_log in H. injection H as _ <-.
      now eapply touched_upto_quiet.
  - assert (Hl0 := image_open_log _ _ _ _ Hopen).
    apply image_open_inv in Hopen as [Hfs _].
    exists 0. split; [lia|]. eapply touched_upto_quiet; [exact Hfs|].
    rewrite Hl0. now rewrite app_nil_r.
Qed.

Lemma after_validation_reached input_path output_path keep model_name w r w' :
  is_Some (stat (fs w) input_path) ->
  after_validation input_path output_path keep model_name w = (r, w') ->
  exists n, n <= frame_total input_path w /\ touched_upto output_path n w w'.
Proof.
  intros Hin H.
  destruct (mkdir_parents_exist_ok output_path w) as [[[]|e] w1] eqn:Hmk.
  - destruct (mkdir_frame _ _ _ _ Hmk) as (_ & Hl1 & Hk).
    rewrite (after_validation_session _ _ _ _ _ _ Hmk) in H.
    set (w2 := add_event (EvNewSession (requested_model model_name))
                 (announced input_path output_path w1)) in H.
    assert (Hstart : touched_upto output_path 0 w w2).
    { split.
      - eexists. split; [simpl; rewrite Hl1, <- app_assoc; reflexivity|].
        intros i Hi. lia.
      - intros p e Hp _. simpl. now apply Hk. }
    assert (Htotal : frame_total input_path w2 = frame_total input_path w).
    { apply frame_total_keeps; [exact Hin|].
      intros p e Hp. simpl. now apply Hk. }
    destruct (rembg_new_session (requested_model model_name)) as [s|e].
    + rewrite try_except_log in H.
      destruct (process_frames input_path output_path keep s w2)
        as [[a|e] w3] eqn:E;
        apply process_frames_reached in E as (n & Hn & Ht);
        rewrite Htotal in Hn; injection H as <- <-;
        exists n; (split; [exact Hn|]).
      * eapply touched_upto_before; eassumption.
      * eapply touched_upto_before; [exact Hstart|].
        eapply touched_upto_after; [exact Ht|].
        now eapply touched_upto_quiet.
    + injection H as <- <-. exists 0. split; [lia | exact Hstart].
  - unfold after_validation in H. erewrite bind_raised in H by exact Hmk.
    injection H as <- <-.
    destruct (mkdir_frame _ _ _ _ Hmk) as (_ & Hl1 & Hk).
    exists 0. split; [lia|]. split.
    + exists []. split; [now rewrite Hl1, app_nil_r|]. intros i Hi. lia.
    + intros p e0 Hp _. now apply Hk.
Qed.

(* =================================================================== *)
(** ** Two runs side by side                                            *)
(* =================================================================== *)

Section Agree.
Variable R : world -> world -> Prop.

Lemma agree_ret {A} (a : A) : agree R (ret a).
Proof. intros w1 w2 H. exists (Return a), w1, w2. auto. Qed.

Lemma agree_raise {A} e : agree R (@raise A e).
Proof. intros w1 w2 H. exists (Raised e), w1, w2. auto. Qed.

Lemma agree_lift {A} (o : outcome A) : agree R (lift o).
Proof. intros w1 w2 H. exists o, w1, w2. auto. Qed.

Lemma agree_refuse op : agree R (refuse op).
Proof.
  intros w1 w2 H. unfold refuse. destruct (os_refuses op); eauto 6.
Qed.

Lemma agree_bind {A B} (m : M A) (k : A -> M B) :
  agree R m -> (forall a, agree R (k a)) -> agree R (bind m k).
Proof.
  intros Hm Hk w1 w2 H. unfold bind.
  destruct (Hm w1 w2 H) as ([a|e] & w1' & w2' & E1 & E2 & H').
  - rewrite E1, E2. now apply Hk.
  - rewrite E1, E2. eauto 6.
Qed.

Lemma agree_try_finally {A} (body : M A) (cleanup : M unit) :
  agree R body -> agree R cleanup -> agree R (try_finally body cleanup).
Proof.
  intros Hb Hc w1 w2 H. unfold try_finally.
  destruct (Hb w1 w2 H) as (r & w1' & w2' & E1 & E2 & H').
  rewrite E1, E2.
  destruct (Hc w1' w2' H') as ([u|e] & v1 & v2 & F1 & F2 & H'').
  - rewrite F1, F2. eauto 6.
  - rewrite F1, F2. eauto 6.
Qed.

Lemma agree_try_except {A} (body : M A) (handler : exception -> M A) :
  agree R body -> (forall e, agree R (handler e)) ->
  agree R (try_except body handler).
Proof.
  intros Hb Hh w1 w2 H. unfold try_except.
  destruct (Hb w1 w2 H) as ([a|e] & w1' & w2' & E1 & E2 & H').
  - rewrite E1, E2. eauto 6.
  - rewrite E1, E2. now apply Hh.
Qed.

Lemma agree_suppress cls (body : M unit) :
  agree R body -> agree R (suppress cls body).
Proof.
  intros Hb w1 w2 H. unfold suppress.
  destruct (Hb w1 w2 H) as ([u|e] & w1' & w2' & E1 & E2 & H').
  - rewrite E1, E2. eauto 6.
  - rewrite E1, E2. destruct (decide _); eauto 6.
Qed.
End Agree.

Section SameButInput.
Variable input_path : Path.
Variables data1 data2 : bytes.

Let R := same_but_input input_path data1 data2.

Lemma rel_stat w1 w2 (p : Path) :
  R w1 w2 -> p <> input_path -> stat (fs w1) p = stat (fs w2) p.
Proof.
  intros (_ & _ & _ & _ & _ & H) Hp. destruct p; [reflexivity|]. simpl.
  now apply H.
Qed.

Lemma rel_stat_shape w1 w2 (p : Path) :
  R w1 w2 ->
  stat (fs w1) p = stat (fs w2) p \/
  exists a b, stat (fs w1) p = Some (File a) /\ stat (fs w2) p = Some (File b).
Proof.
  intros H. destruct (decide (p = input_path)) as [->|Hne].
  - destruct H as (_ & _ & _ & H1 & H2 & _).
    destruct input_path; [now left|]. right. simpl. eauto.
  - left. now apply rel_stat.
Qed.

Lemma rel_absent w1 w2 (p : Path) :
  R w1 w2 -> stat (fs w1) p = None -> p <> input_path.
Proof.
  intros (_ & _ & _ & H1 & _) Hp ->.
  destruct input_path; [discriminate Hp|]. simpl in Hp. congruence.
Qed.

Lemma rel_add_event ev w1 w2 : R w1 w2 -> R (add_event ev w1) (add_event ev w2).
Proof.
  intros (H1 & H2 & H3 & H4 & H5 & H6). repeat split; simpl; try assumption.
  now rewrite H3.
Qed.

Lemma rel_add_log lvl msg w1 w2 :
  R w1 w2 -> R (add_log lvl msg w1) (add_log lvl msg w2).
Proof.
  intros (H1 & H2 & H3 & H4 & H5 & H6). repeat split; simpl; try assumption.
  now rewrite H2.
Qed.

Lemma rel_insert (p : Path) e w1 w2 :
  p <> input_path -> R w1 w2 ->
  R (set_fs (<[p := e]> (fs w1)) w1) (set_fs (<[p := e]> (fs w2)) w2).
Proof.
  intros Hp (H1 & H2 & H3 & H4 & H5 & H6). repeat split; simpl; try assumption.
  - now rewrite lookup_insert_ne.
  - now rewrite lookup_insert_ne.
  - intros q Hq. destruct (decide (q = p)) as [->|Hne].
    + now rewrite !lookup_insert_eq.
    + rewrite !lookup_insert_ne by congruence. now apply H6.
Qed.

Lemma rel_delete (p : Path) w1 w2 :
  p <> input_path -> R w1 w2 ->
  R (set_fs (delete p (fs w1)) w1) (set_fs (delete p (fs w2)) w2).
Proof.
  intros Hp (H1 & H2 & H3 & H4 & H5 & H6). repeat split; simpl; try assumption.
  - now rewrite lookup_delete_ne.
  - now rewrite lookup_delete_ne.
  - intros q Hq. destruct (decide (q = p)) as [->|Hne].
    + now rewrite !lookup_delete_eq.
    + rewrite !lookup_delete_ne by congruence. now apply H6.
Qed.

Lemma agree_emit ev : agree R (emit ev).
Proof.
  intros w1 w2 H. unfold emit. do 3 eexists.
  split; [reflexivity|]. split; [reflexivity|]. now apply rel_add_event.
Qed.

Lemma agree_logging_log lvl msg : agree R (logging_log lvl msg).
Proof.
  intros w1 w2 H. unfold logging_log. do 3 eexists.
  split; [reflexivity|]. split; [reflexivity|]. now apply rel_add_log.
Qed.

Lemma agree_path_exists (p : Path) : agree R (path_exists p).
Proof.
  intros w1 w2 H. unfold path_exists.
  exists (Return (bool_decide (is_Some (stat (fs w1) p)))), w1, w2.
  split; [reflexivity|]. split; [|exact H].
  destruct (rel_stat_shape w1 w2 p H) as [E | (a & b & E1 & E2)].
  - now rewrite E.
  - rewrite E1, E2. reflexivity.
Qed.

Lemma agree_check_writable (p : Path) : agree R (check_writable p).
Proof.
  unfold check_writable. apply agree_bind; [apply agree_refuse | intros _].
  intros w1 w2 H.
  destruct (rel_stat_shape w1 w2 p H) as [E | (a & b & E1 & E2)].
  - rewrite E. destruct (stat (fs w2) p) as [[d|]|]; eauto 6.
    destruct (rel_stat_shape w1 w2 (parent p) H) as [F | (a & b & F1 & F2)].
    + rewrite F. destruct (stat (fs w2) (parent p)) as [[d|]|]; eauto 6.
    + rewrite F1, F2. eauto 6.
  - rewrite E1, E2. eauto 6.
Qed.

Lemma agree_put (p : Path) data : p <> input_path -> agree R (put p data).
Proof.
  intros Hp w1 w2 H. unfold put. do 3 eexists.
  split; [reflexivity|]. split; [reflexivity|]. now apply rel_insert.
Qed.

Lemma agree_read_file (p : Path) : p <> input_path -> agree R (read_file p).
Proof.
  intros Hp. unfold read_file.
  apply agree_bind; [apply agree_emit | intros _].
  apply agree_bind; [apply agree_refuse | intros _].
  intros w1 w2 H. rewrite (rel_stat w1 w2 p H Hp).
  destruct (stat (fs w2) p) as [[d|]|]; eauto 6.
Qed.

Lemma agree_unlink (p : Path) : p <> input_path -> agree R (unlink p).
Proof.
  intros Hp. unfold unlink.
  apply agree_bind; [apply agree_emit | intros _].
  apply agree_bind; [apply agree_refuse | intros _].
  intros w1 w2 H. rewrite (rel_stat w1 w2 p H Hp).
  destruct (stat (fs w2) p) as [[d|]|]; eauto 6.
  do 3 eexists. split; [reflexivity|]. split; [reflexivity|].
  now apply rel_delete.
Qed.

Lemma agree_makedirs rest : forall created, agree R (makedirs created rest).
Proof.
  induction rest as [|c rest IH]; intros created w1 w2 H; simpl.
  - eauto 6.
  - destruct (rel_stat_shape w1 w2 (created // c) H) as [E | (a & b & E1 & E2)].
    + rewrite E. destruct (stat (fs w2) (created // c)) as [[d|]|] eqn:E2.
      * eauto 6.
      * now apply IH.
      * destruct (os_refuses (OpMkdir (created // c))); [eauto 6|].
        apply IH. apply rel_insert; [|exact H].
        eapply rel_absent; [exact H|]. now rewrite E.
    + rewrite E1, E2. eauto 6.
Qed.

Lemma agree_save frame (p : Path) : p <> input_path -> agree R (save frame p).
Proof.
  intros Hp. unfold save.
  apply agree_bind; [apply agree_emit | intros _].
  apply agree_bind; [apply agree_check_writable | intros _].
  apply agree_bind; [apply agree_lift | intros data].
  now apply agree_put.
Qed.

Lemma agree_write_file (p : Path) data :
  p <> input_path -> agree R (write_file p data).
Proof.
  intros Hp. unfold write_file.
  apply agree_bind; [apply agree_emit | intros _].
  apply agree_bind; [apply agree_check_writable | intros _].
  now apply agree_put.
Qed.

Lemma agree_remove data s : agree R (remove data s).
Proof.
  unfold remove. apply agree_bind; [apply agree_emit | intros _].
  apply agree_lift.
Qed.

Lemma agree_new_session m : agree R (new_session m).
Proof.
  unfold new_session. apply agree_bind; [apply agree_emit | intros _].
  apply agree_lift.
Qed.

Hypothesis input_is_gif : lower (suffix input_path) = ".gif".

Lemma temp_not_input output_path i :
  output_path // temp_frame_name i <> input_path.
Proof.
  intros H. rewrite <- H, suffix_temp_frame in input_is_gif.
  discriminate input_is_gif.
Qed.

Lemma output_not_input output_path i :
  output_path // output_frame_name i <> input_path.
Proof.
  intros H. rewrite <- H, suffix_output_frame in input_is_gif.
  discriminate input_is_gif.
Qed.

Lemma agree_frame_body output_path keep s frame_count frame :
  agree R (frame_body output_path keep s frame_count frame).
Proof.
  unfold frame_body, frame_try, frame_finally.
  apply agree_bind; [apply agree_logging_log | intros _].
  apply agree_bind; [apply agree_lift | intros rgba].
  apply agree_try_finally.
  - apply agree_bind; [apply agree_save, temp_not_input | intros _].
    apply agree_bind; [apply agree_read_file, temp_not_input | intros data].
    apply agree_bind; [apply agree_remove | intros res].
    apply agree_write_file, output_not_input.
  - destruct keep; simpl.
    + apply agree_ret.
    + apply agree_suppress, agree_unlink, temp_not_input.
Qed.

Lemma agree_frame_loop output_path keep s todo : forall frame_count,
  agree R (frame_loop output_path keep s todo frame_count).
Proof.
  induction todo as [|frame rest IH]; intros k; simpl frame_loop.
  - apply agree_ret.
  - apply agree_bind; [apply agree_frame_body | intros _; apply IH].
Qed.

(** The two files decode to the same frames; the durations may differ. *)
Variables g1 g2 : gif.
Hypothesis decode1 : pil_open data1 = Return g1.
Hypothesis decode2 : pil_open data2 = Return g2.
Hypothesis same_frames : frames g1 = frames g2.
Hypothesis same_end : truncated g1 = truncated g2.

Lemma input_not_cwd : input_path <> [].
Proof. intros E. rewrite E in input_is_gif. discriminate input_is_gif. Qed.

Lemma image_open_refused (p : Path) e w :
  os_refuses (OpOpenRead p) = Some e ->
  image_open p w = (Raised e, add_event (EvImageOpen p) w).
Proof.
  intros E. unfold image_open. erewrite bind_return by reflexivity.
  unfold bind, refuse. now rewrite E.
Qed.

Lemma image_open_decoded (p : Path) d g w :
  os_refuses (OpOpenRead p) = None ->
  stat (fs w) p = Some (File d) ->
  pil_open d = Return g ->
  image_open p w = (Return g, add_event (EvImageOpen p) w).
Proof.
  intros E Hf Hd. unfold image_open. erewrite bind_return by reflexivity.
  unfold bind, refuse. rewrite E. simpl. now rewrite Hf, Hd.
Qed.

Lemma rel_stat_input w1 w2 :
  R w1 w2 ->
  stat (fs w1) input_path = Some (File data1) /\
  stat (fs w2) input_path = Some (File data2).
Proof.
  intros (_ & _ & _ & H1 & H2 & _).
  assert (Hs : forall f : filesystem, stat f input_path = f !! input_path).
  { intros f. generalize input_not_cwd. now destruct input_path. }
  now rewrite !Hs.
Qed.

Lemma agree_process_frames output_path keep s :
  agree R (process_frames input_path output_path keep s).
Proof.
  intros w1 w2 H. unfold process_frames.
  destruct (rel_stat_input w1 w2 H) as [Hf1 Hf2].
  destruct (os_refuses (OpOpenRead input_path)) as [e|] eqn:Eref.
  - erewrite !bind_raised by (apply image_open_refused; exact Eref).
    do 3 eexists. split; [reflexivity|]. split; [reflexivity|].
    now apply rel_add_event.
  - erewrite (bind_return _ _ w1)
      by (apply (image_open_decoded _ data1 g1); assumption).
    erewrite (bind_return _ _ w2)
      by (apply (image_open_decoded _ data2 g2); assumption).
    cbv zeta. unfold end_of_sequence. rewrite same_frames, same_end.
    match goal with
    | |- exists r w1' w2', ?m _ = _ /\ _ => assert (Hag : agree R m)
    end.
    { apply agree_bind; [apply agree_frame_loop | intros n].
      apply agree_bind; [|intros _].
      { destruct (truncated g2); [apply agree_raise | apply agree_ret]. }
      apply agree_bind; [apply agree_logging_log | intros _].
      apply agree_ret. }
    apply Hag. now apply rel_add_event.
Qed.

Lemma agree_process_gif output_path keep model_name :
  agree R (process_gif input_path output_path keep model_name).
Proof.
  unfold process_gif.
  apply agree_bind; [apply agree_path_exists | intros found].
  destruct (negb found); [apply agree_raise|].
  destruct (negb _); [apply agree_raise|].
  apply agree_bind; [|intros _].
  { unfold mkdir_parents_exist_ok.
    apply agree_bind; [apply agree_emit | intros _]. apply agree_makedirs. }
  apply agree_bind; [apply agree_logging_log | intros _].
  apply agree_bind; [apply agree_logging_log | intros _].
  apply agree_bind; [|intros s].
  { destruct (truthy model_name); apply agree_new_session. }
  apply agree_try_except; [apply agree_process_frames | intros e].
  apply agree_bind; [apply agree_logging_log | intros _].
  apply agree_raise.
Qed.


End SameButInput.

(* =================================================================== *)
(** ** The claims                                                       *)
(* =================================================================== *)

(** C1.  A valid input of [N] frames, processed with the default options
    ([keep_temp_files = False]) into an output directory that holds
    nothing before the run: [process_gif] returns, the directory then
    holds exactly the [N] files [frame_{i:03d}_bg_removed.png] for
    [i = 1..N] and no temporary file.  The counter starts at 1 and the
    number is printed in full beyond 999. *)
Theorem default_run_one_file_per_frame
    input_path output_path model_name data g s w :
  (forall op, os_refuses op = None) ->
  stat (fs w) input_path = Some (File data) ->
  lower (suffix input_path) = ".gif" ->
  pil_open data = Return g ->
  truncated g = None ->
  rembg_new_session (requested_model model_name) = Return s ->
  Forall (frame_ok s) (frames g) ->
  (forall pre, pre `prefix_of` output_path ->
               is_file (stat (fs w) pre) = false) ->
  listdir (fs w) output_path = ∅ ->
  exists w',
    process_gif input_path output_path false model_name w
      = (Return output_path, w') /\
    listdir (fs w') output_path
      = list_to_set (output_frame_name <$> seq 1 (length (frames g))) /\
    size (listdir (fs w') output_path) = length (frames g) /\
    (forall i, 1 <= i <= length (frames g) ->
       is_file (fs w' !! (output_path // output_frame_name i)) = true) /\
    (forall i, fs w' !! (output_path // temp_frame_name i) = None) /\
    (forall i frame res,
       frames g !! i = Some frame ->
       frame_result s frame = Return res ->
       fs w' !! (output_path // output_frame_name (i + 1)) = Some (File res)) /\
    output_frame_name 1 = "frame_001_bg_removed.png" /\
    output_frame_name 1000 = "frame_1000_bg_removed.png".
Proof.
  intros Hos Hin Hext Hdec Htr Hsess Hall Hmk Hfresh.
  destruct (process_gif_ok input_path output_path false model_name
              data g s w Hos Hin Hext Hdec Htr Hsess Hall Hmk)
    as (w' & Hrun & Hsame & Hpost).
  { intros i. rewrite !(fresh_none _ _ _ Hfresh). split; discriminate. }
  assert (Hout : forall i, 1 <= i <= length (frames g) ->
            is_file (fs w' !! (output_path // output_frame_name i)) = true).
  { intros i Hi.
    destruct (frame_at s _ i Hi Hall) as (frame & png & res & Hf & Hpng & Hres).
    destruct (Hpost _ _ _ _ Hf Hpng Hres) as [H _].
    replace (i - 1 + 1) with i in H by lia. now rewrite H. }
  assert (Htemp : forall i, fs w' !! (output_path // temp_frame_name i) = None).
  { intros i.
    destruct (decide (1 <= i <= length (frames g))) as [Hi|Hi].
    - destruct (frame_at s _ i Hi Hall)
        as (frame & png & res & Hf & Hpng & Hres).
      destruct (Hpost _ _ _ _ Hf Hpng Hres) as [_ H].
      now replace (i - 1 + 1) with i in H by lia.
    - rewrite Hsame.
      + now apply fresh_none.
      + unfold joinpath. rewrite length_app. simpl. lia.
      + intros H. apply artifact_temp in H. lia. }
  assert (Hlist : listdir (fs w') output_path
            = list_to_set (output_frame_name <$> seq 1 (length (frames g)))).
  { apply set_eq. intros nm.
    rewrite elem_of_listdir, elem_of_list_to_set, list_elem_of_fmap.
    split.
    - intros Hsome.
      destruct (artifact_dec output_path 0 (length (frames g))
                  (output_path // nm)) as [(i & Hi & [Hp | Hp])|Hno].
      + rewrite Hp, Htemp in Hsome. now destruct Hsome.
      + apply joinpath_inj in Hp. exists i. split; [exact Hp|].
        apply elem_of_seq. lia.
      + rewrite Hsame, (fresh_none _ _ _ Hfresh) in Hsome.
        * now destruct Hsome.
        * unfold joinpath. rewrite length_app. simpl. lia.
        * exact Hno.
    - intros (i & -> & Hi). apply elem_of_seq in Hi.
      specialize (Hout i ltac:(lia)).
      destruct (fs w' !! (output_path // output_frame_name i)); [eauto|].
      discriminate Hout. }
  exists w'. split; [exact Hrun|]. split; [exact Hlist|].
  split; [|split; [exact Hout | split; [exact Htemp | split; [|split; reflexivity]]]].
  - rewrite Hlist, size_list_to_set by apply NoDup_output_names.
    now rewrite length_fmap, length_seq.
  - intros i frame res Hf Hres. unfold frame_result in Hres.
    destruct (frame_png frame) as [png|] eqn:Hpng; [|discriminate Hres].
    now destruct (Hpost _ _ _ _ Hf Hpng Hres) as [H _].
Qed.

(** C5.  The same run with [keep_temp_files = True]: the directory then
    holds exactly [2N] files, the [N] results and the [N] temporary
    files, and the temporary file of frame [i] is the PNG encoding of
    that frame after its conversion to RGBA, as it was before the
    background removal. *)
Theorem kept_temp_files_hold_converted_frames
    input_path output_path model_name data g s w :
  (forall op, os_refuses op = None) ->
  stat (fs w) input_path = Some (File data) ->
  lower (suffix input_path) = ".gif" ->
  pil_open data = Return g ->
  truncated g = None ->
  rembg_new_session (requested_model model_name) = Return s ->
  Forall (frame_ok s) (frames g) ->
  (forall pre, pre `prefix_of` output_path ->
               is_file (stat (fs w) pre) = false) ->
  listdir (fs w) output_path = ∅ ->
  exists w',
    process_gif input_path output_path true model_name w
      = (Return output_path, w') /\
    listdir (fs w') output_path
      = list_to_set
          ((temp_frame_name <$> seq 1 (length (frames g))) ++
           (output_frame_name <$> seq 1 (length (frames g)))) /\
    size (listdir (fs w') output_path) = 2 * length (frames g) /\
    forall i frame png,
      frames g !! i = Some frame ->
      frame_png frame = Return png ->
      fs w' !! (output_path // temp_frame_name (i + 1)) = Some (File png).
Proof.
  intros Hos Hin Hext Hdec Htr Hsess Hall Hmk Hfresh.
  destruct (process_gif_ok input_path output_path true model_name
              data g s w Hos Hin Hext Hdec Htr Hsess Hall Hmk)
    as (w' & Hrun & Hsame & Hpost).
  { intros i. rewrite !(fresh_none _ _ _ Hfresh). split; discriminate. }
  assert (Hboth : forall i, 1 <= i <= length (frames g) ->
            is_Some (fs w' !! (output_path // temp_frame_name i)) /\
            is_Some (fs w' !! (output_path // output_frame_name i))).
  { intros i Hi.
    destruct (frame_at s _ i Hi Hall) as (frame & png & res & Hf & Hpng & Hres).
    destruct (Hpost _ _ _ _ Hf Hpng Hres) as [H1 H2].
    replace (i - 1 + 1) with i in * by lia. rewrite H1, H2. eauto. }
  assert (Hlist : listdir (fs w') output_path
            = list_to_set
                ((temp_frame_name <$> seq 1 (length (frames g))) ++
                 (output_frame_name <$> seq 1 (length (frames g))))).
  { apply set_eq. intros nm.
    rewrite elem_of_listdir, elem_of_list_to_set, elem_of_app,
      !list_elem_of_fmap.
    split.
    - intros Hsome.
      destruct (artifact_dec output_path 0 (length (frames g))
                  (output_path // nm)) as [(i & Hi & [Hp | Hp])|Hno].
      + apply joinpath_inj in Hp. left. exists i. split; [exact Hp|].
        apply elem_of_seq. lia.
      + apply joinpath_inj in Hp. right. exists i. split; [exact Hp|].
        apply elem_of_seq. lia.
      + rewrite Hsame, (fresh_none _ _ _ Hfresh) in Hsome.
        * now destruct Hsome.
        * unfold joinpath. rewrite length_app. simpl. lia.
        * exact Hno.
    - intros [(i & -> & Hi) | (i & -> & Hi)]; apply elem_of_seq in Hi;
        apply Hboth; lia. }
  exists w'. split; [exact Hrun|]. split; [exact Hlist|]. split.
  - rewrite Hlist, size_list_to_set.
    + rewrite length_app, !length_fmap, !length_seq. lia.
    + apply NoDup_app. split; [apply NoDup_temp_names|].
      split; [|apply NoDup_output_names].
      intros nm Ht Ho.
      apply list_elem_of_fmap in Ht as (i & -> & _).
      apply list_elem_of_fmap in Ho as (j & Ho & _).
      now apply temp_not_output in Ho.
  - intros i frame png Hf Hpng.
    destruct (Forall_lookup_1 _ _ _ _ Hall Hf) as (png' & res & Hpng' & Hres).
    rewrite Hpng in Hpng'. injection Hpng' as <-.
    now destruct (Hpost _ _ _ _ Hf Hpng Hres) as [_ H].
Qed.

(** C3.  When the input path names nothing, [process_gif] raises
    [FileNotFoundError] at once: the world it leaves is the world it
    found, so no directory has been made, nothing has been logged and no
    collaborator has been called. *)
Theorem missing_input_raises_not_found
    input_path output_path keep model_name w :
  stat (fs w) input_path = None ->
  process_gif input_path output_path keep model_name w
  = (Raised (Exc FileNotFoundError
               ("Input file not found: " +:+ path_str input_path)), w).
Proof.
  intros Hin. unfold process_gif, path_exists, bind.
  rewrite bool_decide_eq_false_2; [reflexivity|].
  rewrite Hin. now intros [e He].
Qed.

(** C4.  When the input path exists but its suffix, lowered, is not
    [.gif], [process_gif] raises [ValueError] and leaves the world as it
    found it, whatever the entry at that path is and whatever the decoder
    would make of its content: the file is not opened.  The suffix alone
    decides: with the suffix [.gif] the run goes on to [mkdir] whatever
    the entry is. *)
Theorem wrong_extension_raises_invalid_format
    input_path output_path keep model_name w e :
  stat (fs w) input_path = Some e ->
  (lower (suffix input_path) <> ".gif" ->
   process_gif input_path output_path keep model_name w
   = (Raised (Exc ValueError
                ("Input file must be a GIF, got: " +:+ suffix input_path)),
      w)) /\
  (lower (suffix input_path) = ".gif" ->
   process_gif input_path output_path keep model_name w
   = after_validation input_path output_path keep model_name w).
Proof.
  intros Hin. split; intros Hext.
  - unfold process_gif, path_exists, bind.
    rewrite bool_decide_eq_true_2 by (rewrite Hin; eauto).
    apply String.eqb_neq in Hext. rewrite Hext. reflexivity.
  - unfold process_gif, path_exists, bind at 1.
    rewrite bool_decide_eq_true_2 by (rewrite Hin; eauto).
    rewrite Hext. reflexivity.
Qed.

(** C8.  Every run of [process_gif] that returns, returns the output
    directory path it was given. *)
Theorem success_returns_output_folder
    input_gif_path output_folder keep model_name w r w' :
  process_gif input_gif_path output_folder keep model_name w = (Return r, w') ->
  r = output_folder.
Proof.
  intros H.
  destruct (process_gif_cases input_gif_path w)
    as [Hno | [[Hin Hext] | [Hin Hext]]].
  - rewrite process_gif_missing in H by exact Hno. discriminate H.
  - rewrite process_gif_bad_suffix in H by assumption. discriminate H.
  - rewrite process_gif_valid in H by assumption.
    eapply after_validation_returns, H.
Qed.

(** C6.  An invocation that has passed the checks and made the output
    directory asks for a session exactly once, right after [mkdir]: for
    the given model when [model_name] is a non-empty name, with no
    argument otherwise.  Whatever happens afterwards, no further session
    is asked for, and every call of [remove] is given the session that
    this one request returned.  In a run that returns there is one such
    call per frame, in the order of the frames, each on the PNG bytes of
    its frame. *)
Theorem one_session_for_all_frames
    input_path output_path keep model_name w w1 r w' :
  is_Some (stat (fs w) input_path) ->
  lower (suffix input_path) = ".gif" ->
  mkdir_parents_exist_ok output_path w = (Return tt, w1) ->
  process_gif input_path output_path keep model_name w = (r, w') ->
  requested_model model_name
    = match model_name with
      | Some nm => if decide (nm = "") then None else Some nm
      | None => None
      end /\
  exists evs,
    trace w'
      = (trace w ++
         [EvMkdir output_path; EvNewSession (requested_model model_name)] ++
         evs)%list /\
    Forall
      (fun ev =>
         match ev with
         | EvNewSession _ => False
         | EvRemove _ s =>
             rembg_new_session (requested_model model_name) = Return s
         | _ => True
         end) evs /\
    forall out data g,
      r = Return out ->
      stat (fs w) input_path = Some (File data) ->
      pil_open data = Return g ->
      Forall2
        (fun frame call =>
           frame_png frame = Return (fst call) /\
           rembg_new_session (requested_model model_name) = Return (snd call))
        (frames g) (removes evs).
Proof.
  intros Hin Hext Hmk H. split.
  { unfold requested_model, truthy. destruct model_name as [nm|]; [|reflexivity].
    destruct (decide (nm = "")) as [->|Hne]; [reflexivity|].
    apply String.eqb_neq in Hne. now rewrite Hne. }
  rewrite process_gif_valid in H by assumption.
  rewrite (after_validation_session _ _ _ _ _ _ Hmk) in H.
  destruct (mkdir_frame _ _ _ _ Hmk) as (Ht & _ & Hk).
  destruct (rembg_new_session (requested_model model_name)) as [s|e] eqn:Hs.
  - assert (Hcalls := H).
    apply (respects_try_except (trace_extends (reuses s))) in Hcalls.
    + destruct Hcalls as (evs & Hev & Hall). exists evs. split; [|split].
      * rewrite Hev. simpl. rewrite Ht, <- !app_assoc. reflexivity.
      * eapply Forall_impl; [exact Hall|].
        intros [] Hr; simpl in *; congruence.
      * intros out data g -> Hst Hdec.
        rewrite try_except_log in H.
        match type of H with
        | context [process_frames ?i ?o ?k ?s' ?w0] =>
            destruct (process_frames i o k s' w0) as [[a|e] w3] eqn:E
        end; [|discriminate H].
        injection H as _ <-.
        apply process_frames_returned in E
          as (data' & g' & evs' & Hst' & Hdec' & Hev' & Hall').
        simpl in Hst'. rewrite (stat_keeps _ _ _ _ Hk Hst) in Hst'.
        injection Hst' as <-. rewrite Hdec in Hdec'. injection Hdec' as <-.
        rewrite Hev in Hev'. apply app_inv_head in Hev'. subst evs'.
        eapply Forall2_impl; [exact Hall'|].
        intros frame call [Hpng Hc]. split; [exact Hpng | congruence].
    + apply trace_extends_trans.
    + apply process_frames_calls.
    + intros e. unfold log_and_reraise.
      apply respects_bind; [apply trace_extends_trans | | intros _].
      * apply logging_log_calls.
      * apply respects_raise, trace_extends_refl.
  - injection H as <- <-. exists []. split; [|split; [constructor|]].
    + simpl. rewrite Ht, <- !app_assoc. reflexivity.
    + intros out data g Hr. discriminate Hr.
Qed.

(** C7, as the code has it.  Once the checks have passed and the output
    directory is there: an exception raised by the session request leaves
    [process_gif] unchanged and without a log record of its own; an
    exception raised from opening the image to the end of the frame loop
    is logged once, as an error, and leaves [process_gif] unchanged, with
    nothing run after it; a run of these steps that returns is returned
    as it is.  The command line logs whatever exception leaves
    [process_gif] and exits with status 1, and exits with status 0 when
    [process_gif] returns. *)
Theorem errors_are_logged_and_reraised
    input_path output_path keep model_name w w1 :
  is_Some (stat (fs w) input_path) ->
  lower (suffix input_path) = ".gif" ->
  mkdir_parents_exist_ok output_path w = (Return tt, w1) ->
  let w2 := add_event (EvNewSession (requested_model model_name))
              (announced input_path output_path w1) in
  (forall e,
     rembg_new_session (requested_model model_name) = Raised e ->
     process_gif input_path output_path keep model_name w = (Raised e, w2)) /\
  (forall s e w3,
     rembg_new_session (requested_model model_name) = Return s ->
     process_frames input_path output_path keep s w2 = (Raised e, w3) ->
     process_gif input_path output_path keep model_name w
     = (Raised e,
        add_log ERROR ("Error processing GIF: " +:+ exc_str e) w3)) /\
  (forall s r w3,
     rembg_new_session (requested_model model_name) = Return s ->
     process_frames input_path output_path keep s w2 = (Return r, w3) ->
     process_gif input_path output_path keep model_name w = (Return r, w3)) /\
  (forall (a : args) (w0 : world) e w4,
     process_gif (input_gif a) (output_dir a) (keep_temp a) (model a)
       (snd (setup_logging (if debug a then DEBUG else INFO) w0))
       = (Raised e, w4) ->
     main a w0
     = (1, add_log ERROR ("Failed to process GIF: " +:+ exc_str e) w4)) /\
  (forall (a : args) (w0 : world) r w4,
     process_gif (input_gif a) (output_dir a) (keep_temp a) (model a)
       (snd (setup_logging (if debug a then DEBUG else INFO) w0))
       = (Return r, w4) ->
     main a w0 = (0, w4)).
Proof.
  intros Hin Hext Hmk w2.
  assert (Hrun := after_validation_session input_path output_path keep
                    model_name w w1 Hmk).
  rewrite <- process_gif_valid in Hrun by assumption.
  fold w2 in Hrun. repeat split.
  - intros e He. now rewrite Hrun, He.
  - intros s e w3 Hs Hf. now rewrite Hrun, Hs, try_except_log, Hf.
  - intros s r w3 Hs Hf. now rewrite Hrun, Hs, try_except_log, Hf.
  - intros a w0 e w4 H. unfold main.
    destruct (setup_logging _ w0) as [u w5]. simpl in H. now rewrite H.
  - intros a w0 r w4 H. unfold main.
    destruct (setup_logging _ w0) as [u w5]. simpl in H. now rewrite H.
Qed.


(** C10.  Whatever a run of [process_gif] does and however it ends,
    there is a number [n] of frames it has reached, each announced in the
    log and none beyond the frames of the input, such that every entry
    that was in the file system before the run and is not one of the
    artifact paths [frame_{i:03d}.png], [frame_{i:03d}_bg_removed.png] of
    the output directory for [i = 1..n] is there unchanged after it; the
    input path is among them. *)
Theorem only_frame_artifacts_are_touched
    input_path output_path keep model_name w r w' :
  process_gif input_path output_path keep model_name w = (r, w') ->
  exists n,
    n <= frame_total input_path w /\
    (exists l, log w' = (log w ++ l)%list /\
               forall i, 1 <= i <= n -> debug_record i ∈ l) /\
    (forall (p : Path) e,
       fs w !! p = Some e ->
       ~ artifact output_path 0 n p ->
       fs w' !! p = Some e) /\
    stat (fs w') input_path = stat (fs w) input_path.
Proof.
  intros H.
  destruct (process_gif_cases input_path w)
    as [Hno | [[Hin Hext] | [Hin Hext]]].
  - rewrite process_gif_missing in H by exact Hno.
    injection H as <- <-. exists 0.
    destruct (touched_upto_refl output_path w) as [Hl Hf]. auto 6 with arith.
  - rewrite process_gif_bad_suffix in H by assumption.
    injection H as <- <-. exists 0.
    destruct (touched_upto_refl output_path w) as [Hl Hf]. auto 6 with arith.
  - rewrite process_gif_valid in H by assumption.
    destruct (after_validation_reached _ _ _ _ _ _ _ Hin H)
      as (n & Hn & Hl & Hf).
    exists n. split; [exact Hn|]. split; [exact Hl|]. split; [exact Hf|].
    destruct input_path as [|c rest]; [reflexivity|]. simpl.
    destruct Hin as [e He]. simpl in He. rewrite He.
    apply Hf; [exact He|]. now apply gif_not_artifact.
Qed.

(** C9.  Two runs of [process_gif] on worlds that differ only in the
    content of the input file, the two contents decoding to the same
    frames with whatever [duration] each has (or has not): the runs end
    the same way, with the same return value or exception, the same log
    and calls, and the same entries at every path but the input's. *)
Theorem duration_does_not_show
    input_path output_path keep model_name data1 data2 g1 g2 w1 w2 :
  same_but_input input_path data1 data2 w1 w2 ->
  pil_open data1 = Return g1 ->
  pil_open data2 = Return g2 ->
  frames g1 = frames g2 ->
  truncated g1 = truncated g2 ->
  exists r w1' w2',
    process_gif input_path output_path keep model_name w1 = (r, w1') /\
    process_gif input_path output_path keep model_name w2 = (r, w2') /\
    log w1' = log w2' /\ trace w1' = trace w2' /\
    forall p : Path, p <> input_path -> fs w1' !! p = fs w2' !! p.
Proof.
  intros H Hd1 Hd2 Hfr Htr.
  destruct (decide (lower (suffix input_path) = ".gif")) as [Hext|Hext].
  2:{ assert (Hs : forall w : world, is_Some (fs w !! input_path) ->
                   is_Some (stat (fs w) input_path)).
      { intros w Hw. destruct input_path; simpl; eauto. }
      destruct H as (_ & Hl & Ht & H1 & H2 & Hfs).
      exists (Raised (Exc ValueError
                ("Input file must be a GIF, got: " +:+ suffix input_path))),
        w1, w2.
      rewrite !process_gif_bad_suffix by (try apply Hs; eauto). auto. }
  destruct (agree_process_gif input_path data1 data2 Hext g1 g2 Hd1 Hd2
              Hfr Htr output_path keep model_name w1 w2 H)
    as (r & w1' & w2' & E1 & E2 & (_ & Hl & Ht & _ & _ & Hfs)).
  exists r, w1', w2'. auto.
Qed.

(* =================================================================== *)
(** ** More about the file names                                        *)
(* =================================================================== *)

(** X1.  Two different frames never share a file: their temporary names
    differ, their output names differ, and no temporary name is an output
    name, whatever the frame numbers, beyond 999 too. *)
Theorem artifact_names_never_collide i j :
  i <> j ->
  temp_frame_name i <> temp_frame_name j /\
  output_frame_name i <> output_frame_name j /\
  temp_frame_name i <> output_frame_name j /\
  temp_frame_name i <> output_frame_name i.
Proof.
  intros Hij. repeat split.
  - intros H. now apply temp_frame_name_inj in H.
  - intros H. now apply output_frame_name_inj in H.
  - apply temp_not_output.
  - apply temp_not_output.
Qed.

Lemma name_le_chain (f : nat -> string) n :
  (forall i, S i < n -> String.le (f i) (f (S i))) ->
  forall i j, i <= j -> j < n -> String.le (f i) (f j).
Proof.
  intros Hstep i j Hij Hj. induction Hij as [|j Hij IH].
  - reflexivity.
  - etrans; [apply IH; lia | apply Hstep; lia].
Qed.

Lemma le_ne_ltb (a b : string) : String.le a b -> a <> b -> String.ltb a b = true.
Proof.
  unfold String.le, String.leb, String.ltb. intros Hle Hne.
  destruct (String.compare a b) eqn:E; [|reflexivity|contradiction].
  now apply String.compare_eq_iff in E.
Qed.

Lemma forallb_seq_lt (P : nat -> bool) n i :
  forallb P (seq 0 n) = true -> i < n -> P i = true.
Proof.
  intros H Hi. rewrite forallb_forall in H. apply H, in_seq. lia.
Qed.

(** X2.  Below a thousand frames the names sort as the frames do: for
    [i < j < 1000] the name of frame [i] comes strictly before the name
    of frame [j] in the order of strings, for the temporary and for the
    output files.  The padding is three digits wide and no more: the
    name of frame 1000 comes before the name of frame 999. *)
Theorem names_sort_in_frame_order_below_1000 i j :
  i < j -> j < 1000 ->
  String.ltb (output_frame_name i) (output_frame_name j) = true /\
  String.ltb (temp_frame_name i) (temp_frame_name j) = true /\
  String.ltb (output_frame_name 1000) (output_frame_name 999) = true /\
  String.ltb (temp_frame_name 1000) (temp_frame_name 999) = true.
Proof.
  intros Hij Hj. split; [|split; [|split; reflexivity]].
  - apply le_ne_ltb.
    + apply (name_le_chain output_frame_name 1000); [|lia|exact Hj].
      intros k Hk. apply Is_true_true.
      apply (forallb_seq_lt
               (fun k => String.leb (output_frame_name k)
                           (output_frame_name (S k))) 999 k);
        [vm_compute; reflexivity | lia].
    + intros H. apply output_frame_name_inj in H. lia.
  - apply le_ne_ltb.
    + apply (name_le_chain temp_frame_name 1000); [|lia|exact Hj].
      intros k Hk. apply Is_true_true.
      apply (forallb_seq_lt
               (fun k => String.leb (temp_frame_name k)
                           (temp_frame_name (S k))) 999 k);
        [vm_compute; reflexivity | lia].
    + intros H. apply temp_frame_name_inj in H. lia.
Qed.

Lemma lower_app (a b : string) : lower (a +:+ b) = lower a +:+ lower b.
Proof.
  induction a as [|x a IH]; [reflexivity|].
  rewrite str_app_cons. simpl. now rewrite IH.
Qed.

Lemma lower_not_dot c x : ascii_lower c = x -> x <> "."%char -> c <> "."%char.
Proof. intros H Hx ->. now apply Hx. Qed.

Lemma lower_gif_shape ext :
  lower ext = "gif" -> rfind_dot ext = None /\ String.length ext = 3.
Proof.
  destruct ext as [|a [|b [|c [|d r]]]]; simpl; intros H; try discriminate H.
  injection H as Ha Hb Hc.
  apply lower_not_dot in Ha; [|discriminate].
  apply lower_not_dot in Hb; [|discriminate].
  apply lower_not_dot in Hc; [|discriminate].
  apply Ascii.eqb_neq in Ha, Hb, Hc. now rewrite Ha, Hb, Hc.
Qed.

Lemma suffix_of_name_ext stem ext :
  stem <> "" -> ext <> "" -> rfind_dot ext = None ->
  suffix_of_name (stem +:+ "." +:+ ext) = "." +:+ ext.
Proof.
  intros Hstem Hext Hdot. unfold suffix_of_name.
  rewrite rfind_dot_app. rewrite (str_app_cons "." "" ext), str_app_nil.
  simpl rfind_dot. rewrite Hdot. simpl. rewrite Nat.add_0_r.
  rewrite str_app_length. simpl String.length.
  destruct stem as [|x stem]; [congruence|].
  destruct ext as [|y ext]; [congruence|]. simpl String.length.
  replace (0 <? S (String.length stem))%nat with true
    by (symmetry; apply Nat.ltb_lt; lia).
  replace (S (String.length stem) <?
           S (String.length stem) + S (S (String.length ext)) - 1)%nat
    with true by (symmetry; apply Nat.ltb_lt; lia).
  exact (drop_str_app (String x stem) (String "." (String y ext))).
Qed.

(** X3.  The extension check takes any spelling of [gif]: a path whose
    last part is a stem that does not start with a dot, a dot and three
    letters that lower to [gif] has that dot and those letters as its
    suffix, and when it exists [process_gif] goes on to make the output
    directory. *)
Theorem any_case_of_gif_is_accepted
    (d : Path) stem ext output_path keep model_name w e :
  (exists c t, stem = String c t /\ c <> "."%char) ->
  lower ext = "gif" ->
  stat (fs w) (d // (stem +:+ "." +:+ ext)) = Some e ->
  suffix (d // (stem +:+ "." +:+ ext)) = "." +:+ ext /\
  process_gif (d // (stem +:+ "." +:+ ext)) output_path keep model_name w
  = after_validation (d // (stem +:+ "." +:+ ext)) output_path keep
      model_name w.
Proof.
  intros Hfirst Hext Hin.
  assert (Hstem : stem <> "")
    by (destruct Hfirst as (c & t & -> & _); discriminate).
  destruct (lower_gif_shape ext Hext) as [Hdot Hlen].
  assert (Hne : ext <> "") by (intros ->; discriminate Hlen).
  assert (Hsuf : suffix (d // (stem +:+ "." +:+ ext)) = "." +:+ ext).
  { unfold suffix. rewrite name_joinpath.
    - now apply suffix_of_name_ext.
    - intros H. apply (f_equal String.length) in H.
      rewrite !str_app_length, Hlen in H. simpl in H. lia. }
  split; [exact Hsuf|].
  apply process_gif_valid; [rewrite Hin; eauto|].
  rewrite Hsuf, lower_app, Hext. reflexivity.
Qed.

(** X4.  A file whose whole name is a dot and the letters of [gif], such
    as [.gif], has no suffix for [pathlib]: [process_gif] refuses it with
    [ValueError], naming an empty suffix, and touches nothing. *)
Theorem dot_gif_alone_is_refused
    (d : Path) ext output_path keep model_name w e :
  lower ext = "gif" ->
  stat (fs w) (d // ("." +:+ ext)) = Some e ->
  process_gif (d // ("." +:+ ext)) output_path keep model_name w
  = (Raised (Exc ValueError "Input file must be a GIF, got: "), w).
Proof.
  intros Hext Hin.
  destruct (lower_gif_shape ext Hext) as [Hdot Hlen].
  assert (Hsuf : suffix (d // ("." +:+ ext)) = "").
  { unfold suffix. rewrite name_joinpath.
    - unfold suffix_of_name. rewrite (str_app_cons "." "" ext), str_app_nil.
      simpl rfind_dot. now rewrite Hdot.
    - intros H. apply (f_equal String.length) in H.
      rewrite str_app_length, Hlen in H. simpl in H. lia. }
  rewrite process_gif_bad_suffix.
  - now rewrite Hsuf.
  - rewrite Hin. eauto.
  - rewrite Hsuf. discriminate.
Qed.

(* =================================================================== *)
(** ** More about the output directory                                  *)
(* =================================================================== *)

Lemma prefix_snoc_cases (pre l : Path) x :
  pre `prefix_of` (l ++ [x])%list -> pre = (l ++ [x])%list \/ pre `prefix_of` l.
Proof.
  intros [k Hk]. destruct k as [|y k _] using rev_ind.
  - left. now rewrite app_nil_r in Hk.
  - right. rewrite app_assoc in Hk. apply app_inj_tail in Hk as [-> _].
    now exists k.
Qed.

Lemma makedirs_file rest : forall (created : Path) w data,
  rest <> [] ->
  (forall pre : Path, pre `prefix_of` (created ++ rest)%list ->
     pre <> (created ++ rest)%list -> length created < length pre ->
     stat (fs w) pre = Some Dir) ->
  stat (fs w) (created ++ rest)%list = Some (File data) ->
  makedirs created rest w
  = (Raised (os_error FileExistsError (created ++ rest)%list), w).
Proof.
  induction rest as [|c rest IH]; intros created w data Hne Hpre Hfile;
    [congruence|].
  assert (Hc : (created ++ c :: rest)%list = ((created // c) ++ rest)%list).
  { unfold joinpath. now rewrite <- app_assoc. }
  simpl makedirs. destruct rest as [|c' rest].
  - change (created ++ [c])%list with (created // c) in *.
    now rewrite Hfile.
  - rewrite (Hpre (created // c)).
    + rewrite Hc. apply (IH (created // c) w data); [discriminate | |].
      * intros pre Hp Hn Hl. apply Hpre; rewrite ?Hc; try assumption.
        unfold joinpath in Hl. rewrite length_app in Hl. simpl in Hl. lia.
      * now rewrite <- Hc.
    + rewrite Hc. now exists (c' :: rest).
    + rewrite Hc. intros H. apply (f_equal length) in H.
      rewrite length_app in H. simpl in H. lia.
    + unfold joinpath. rewrite length_app. simpl. lia.
Qed.

(** X5.  When the output path names an existing regular file, inside
    directories that exist, [mkdir] fails with [FileExistsError] and that
    is what [process_gif] raises: nothing has been logged, no session has
    been asked for, and the file system is as it was. *)
Theorem output_path_that_is_a_file
    input_path output_path keep model_name w data :
  is_Some (stat (fs w) input_path) ->
  lower (suffix input_path) = ".gif" ->
  (forall pre : Path, pre `prefix_of` output_path -> pre <> output_path ->
     stat (fs w) pre = Some Dir) ->
  stat (fs w) output_path = Some (File data) ->
  exists e,
    exc_class e = FileExistsError /\
    process_gif input_path output_path keep model_name w
    = (Raised e, add_event (EvMkdir output_path) w).
Proof.
  intros Hin Hext Hpre Hfile.
  exists (os_error FileExistsError output_path). split; [reflexivity|].
  rewrite process_gif_valid by assumption.
  unfold after_validation, mkdir_parents_exist_ok.
  erewrite bind_raised; [reflexivity|].
  erewrite bind_return by reflexivity.
  assert (Hne : output_path <> []) by (intros ->; discriminate Hfile).
  exact (makedirs_file output_path [] (add_event (EvMkdir output_path) w) data
           Hne (fun pre Hp Hn _ => Hpre pre Hp Hn) Hfile).
Qed.

Lemma makedirs_dirs rest : forall (created : Path) w w',
  makedirs created rest w = (Return tt, w') ->
  (forall pre : Path, pre `prefix_of` created -> stat (fs w) pre = Some Dir) ->
  forall pre : Path, pre `prefix_of` (created ++ rest)%list ->
    stat (fs w') pre = Some Dir.
Proof.
  induction rest as [|c rest IH]; intros created w w' H Hdirs; simpl in H.
  - injection H as <-. now rewrite app_nil_r.
  - assert (Hc : (created ++ c :: rest)%list = ((created // c) ++ rest)%list).
    { unfold joinpath. now rewrite <- app_assoc. }
    rewrite Hc.
    destruct (stat (fs w) (created // c)) as [[data|]|] eqn:E;
      [discriminate H | |].
    + apply (IH _ _ _ H). intros pre Hp.
      apply prefix_snoc_cases in Hp as [-> | Hp]; [exact E | now apply Hdirs].
    + destruct (os_refuses (OpMkdir (created // c))); [discriminate H|].
      apply (IH _ _ _ H). intros pre Hp. simpl.
      rewrite stat_insert by apply not_eq_sym, app_cons_not_nil.
      apply prefix_snoc_cases in Hp as [-> | Hp].
      * now rewrite decide_True.
      * rewrite decide_False; [now apply Hdirs|].
        intros ->. now apply prefix_snoc_not in Hp.
Qed.

Lemma prefix_not_artifact (pre output_path : Path) lo hi :
  pre `prefix_of` output_path -> ~ artifact output_path lo hi pre.
Proof.
  intros Hp (i & _ & [-> | ->]); apply prefix_length in Hp;
    unfold joinpath in Hp; rewrite length_app in Hp; simpl in Hp; lia.
Qed.

(** X6.  Once [mkdir] has returned, the output directory and every
    directory above it are there, and they are still there when
    [process_gif] ends, however it ends: a run that fails later leaves
    the directory it made. *)
Theorem output_directory_outlives_the_run
    input_path output_path keep model_name w w1 r w' :
  is_Some (stat (fs w) input_path) ->
  lower (suffix input_path) = ".gif" ->
  mkdir_parents_exist_ok output_path w = (Return tt, w1) ->
  process_gif input_path output_path keep model_name w = (r, w') ->
  forall pre : Path, pre `prefix_of` output_path ->
    stat (fs w') pre = Some Dir.
Proof.
  intros Hin Hext Hmk H pre Hpre.
  assert (Hd1 : stat (fs w1) pre = Some Dir).
  { unfold mkdir_parents_exist_ok in Hmk.
    erewrite bind_return in Hmk by reflexivity.
    apply (makedirs_dirs output_path [] _ _ Hmk); [|exact Hpre].
    intros p Hp. apply prefix_nil_inv in Hp. now subst. }
  rewrite process_gif_valid in H by assumption.
  rewrite (after_validation_session _ _ _ _ _ _ Hmk) in H.
  destruct pre as [|c pre]; [reflexivity|]. simpl in *.
  destruct (rembg_new_session (requested_model model_name)) as [s|e].
  - rewrite try_except_log in H.
    match type of H with
    | context [process_frames ?i ?o ?k ?s' ?w0] =>
        destruct (process_frames i o k s' w0) as [[a|e] w3] eqn:E
    end;
      apply process_frames_reached in E as (n & _ & _ & Hkeep);
      injection H as _ <-; simpl;
      (apply Hkeep; [exact Hd1 | now apply prefix_not_artifact]).
  - injection H as _ <-. exact Hd1.
Qed.

(* =================================================================== *)
(** ** More about whole runs                                            *)
(* =================================================================== *)

(** [process_gif] on an input that decodes, from the loop on. *)
Lemma process_gif_loop input_path output_path keep model_name w w1 data g s :
  stat (fs w) input_path = Some (File data) ->
  lower (suffix input_path) = ".gif" ->
  mkdir_parents_exist_ok output_path w = (Return tt, w1) ->
  os_refuses (OpOpenRead input_path) = None ->
  pil_open data = Return g ->
  rembg_new_session (requested_model model_name) = Return s ->
  process_gif input_path output_path keep model_name w
  = match frame_loop output_path keep s (frames g) 0
            (loop_world input_path output_path model_name w1) with
    | (Return n, w3) =>
        match truncated g with
        | Some e =>
            (Raised e,
             add_log ERROR ("Error processing GIF: " +:+ exc_str e) w3)
        | None =>
            (Return output_path,
             add_log INFO
               ("Successfully processed " +:+ str_of_nat n +:+ " frames") w3)
        end
    | (Raised e, w3) =>
        (Raised e, add_log ERROR ("Error processing GIF: " +:+ exc_str e) w3)
    end.
Proof.
  intros Hin Hext Hmk Hos Hdec Hs.
  rewrite process_gif_valid by (rewrite ?Hin; eauto).
  rewrite (after_validation_session _ _ _ _ _ _ Hmk), Hs, try_except_log.
  destruct (mkdir_frame _ _ _ _ Hmk) as (_ & _ & Hk).
  unfold process_frames.
  erewrite bind_return.
  2:{ apply (image_open_decoded _ data g); [exact Hos | | exact Hdec].
      simpl. exact (stat_keeps _ _ _ _ Hk Hin). }
  cbv zeta. fold (loop_world input_path output_path model_name w1).
  unfold bind at 1.
  destruct (frame_loop output_path keep s (frames g) 0
              (loop_world input_path output_path model_name w1))
    as [[n|e] w3]; [|reflexivity].
  unfold end_of_sequence. destruct (truncated g); reflexivity.
Qed.

Lemma frame_loop_returned_log output_path keep s todo : forall k n w w',
  frame_loop output_path keep s todo k w = (Return n, w') ->
  n = k + length todo /\
  log w' = (log w ++ (debug_record <$> seq (k + 1) (length todo)))%list.
Proof.
  induction todo as [|frame rest IH]; intros k n w w' H; simpl in H.
  - injection H as <- <-. split; [simpl; lia|]. simpl. now rewrite app_nil_r.
  - apply bind_inv in H as [(u & w1 & E & H) | (e & _ & He)];
      [|discriminate He].
    apply IH in H as [-> Hlog]. split; [simpl; lia|].
    rewrite Hlog, (frame_body_log _ _ _ _ _ _ _ _ E). simpl.
    rewrite <- app_assoc. simpl. do 4 f_equal. lia.
Qed.

Lemma process_frames_returned_log input_path output_path keep s r w w' :
  process_frames input_path output_path keep s w = (Return r, w') ->
  log w'
  = (log w ++ (debug_record <$> seq 1 (frame_total input_path w)) ++
     [(INFO, "Successfully processed " +:+
             str_of_nat (frame_total input_path w) +:+ " frames")])%list.
Proof.
  intros H. unfold process_frames in H.
  apply bind_inv in H as [(g & w0 & Hopen & H) | (e & _ & He)];
    [|discriminate He].
  assert (Hl0 := image_open_log _ _ _ _ Hopen).
  apply image_open_inv in Hopen as [Hfs Hg].
  destruct (Hg g eq_refl) as (data & Hstat & Hdec).
  unfold frame_total. rewrite Hstat, Hdec.
  apply bind_inv in H as [(n & w1 & Hloop & H) | (e & _ & He)];
    [|discriminate He].
  apply frame_loop_returned_log in Hloop as [-> Hlog].
  apply bind_inv in H as [(u & w2 & Hend & H) | (e & _ & He)];
    [|discriminate He].
  unfold end_of_sequence in Hend. destruct (truncated g); [discriminate Hend|].
  injection Hend as _ <-.
  unfold bind, logging_info, logging_log, ret in H. injection H as _ <-.
  simpl. rewrite Hlog, Hl0, <- app_assoc. reflexivity.
Qed.

(** X7.  The log of a run that returns, whatever the collaborators did:
    the two opening lines, one debug line per frame of the input in
    order, and the closing line, whose count is the number of frames. *)
Theorem returning_run_logs_every_frame
    input_path output_path keep model_name w r w' :
  process_gif input_path output_path keep model_name w = (Return r, w') ->
  log w'
  = (log w ++
     [(INFO, "Processing GIF: " +:+ path_str input_path);
      (INFO, "Output directory: " +:+ path_str output_path)] ++
     (debug_record <$> seq 1 (frame_total input_path w)) ++
     [(INFO, "Successfully processed " +:+
             str_of_nat (frame_total input_path w) +:+ " frames")])%list.
Proof.
  intros H.
  destruct (process_gif_cases input_path w)
    as [Hno | [[Hin Hext] | [Hin Hext]]].
  - rewrite process_gif_missing in H by exact Hno. discriminate H.
  - rewrite process_gif_bad_suffix in H by assumption. discriminate H.
  - rewrite process_gif_valid in H by assumption.
    destruct (mkdir_parents_exist_ok output_path w) as [[[]|e] w1] eqn:Hmk.
    2:{ unfold after_validation in H. erewrite bind_raised in H by exact Hmk.
        discriminate H. }
    rewrite (after_validation_session _ _ _ _ _ _ Hmk) in H.
    destruct (mkdir_frame _ _ _ _ Hmk) as (_ & Hl1 & Hk).
    destruct (rembg_new_session (requested_model model_name)) as [s|e];
      [|discriminate H].
    rewrite try_except_log in H.
    match type of H with
    | context [process_frames ?i ?o ?k ?s' ?w0] =>
        destruct (process_frames i o k s' w0) as [[a|e] w3] eqn:E
    end; [|discriminate H].
    injection H as _ <-.
    apply process_frames_returned_log in E. rewrite E.
    rewrite (frame_total_keeps input_path w) by
      (try exact Hin; intros p e0 Hp; simpl; now apply Hk).
    simpl. rewrite Hl1, <- !app_assoc. reflexivity.
Qed.

(** X8.  A file with the right suffix that the image library cannot
    open: by then the output directory has been made and a session
    asked for; the library's exception is logged once and raised, no
    frame file has been written, and the directory stays. *)
Theorem undecodable_input_leaves_the_directory
    input_path output_path keep model_name w w1 data s e :
  stat (fs w) input_path = Some (File data) ->
  lower (suffix input_path) = ".gif" ->
  mkdir_parents_exist_ok output_path w = (Return tt, w1) ->
  rembg_new_session (requested_model model_name) = Return s ->
  os_refuses (OpOpenRead input_path) = None ->
  pil_open data = Raised e ->
  process_gif input_path output_path keep model_name w
  = (Raised e,
     add_log ERROR ("Error processing GIF: " +:+ exc_str e)
       (loop_world input_path output_path model_name w1)) /\
  stat (fs w1) output_path = Some Dir /\
  forall nm, fs w1 !! (output_path // nm) = fs w !! (output_path // nm).
Proof.
  intros Hin Hext Hmk Hs Hos Hdec.
  destruct (mkdir_frame _ _ _ _ Hmk) as (_ & _ & Hk).
  split; [|split].
  - rewrite process_gif_valid by (rewrite ?Hin; eauto).
    rewrite (after_validation_session _ _ _ _ _ _ Hmk), Hs, try_except_log.
    unfold process_frames, image_open.
    erewrite bind_raised; [reflexivity|].
    erewrite bind_return by reflexivity.
    unfold bind, refuse. rewrite Hos. simpl.
    now rewrite (stat_keeps _ _ _ _ Hk Hin), Hdec.
  - unfold mkdir_parents_exist_ok in Hmk.
    erewrite bind_return in Hmk by reflexivity.
    apply (makedirs_dirs output_path [] _ _ Hmk); [|reflexivity].
    intros p Hp. apply prefix_nil_inv in Hp. now subst.
  - intros nm. unfold mkdir_parents_exist_ok in Hmk.
    erewrite bind_return in Hmk by reflexivity.
    destruct (makedirs_frame _ _ _ _ _ Hmk) as (_ & _ & _ & Hdeep).
    rewrite Hdeep; [reflexivity|].
    unfold joinpath. rewrite length_app. simpl. lia.
Qed.

(** X9.  What the command line reports.  A missing input is logged once,
    by the [__main__] block, and nothing else happens; an exception from
    the frames is logged twice, by [process_gif] and then by the
    [__main__] block; the exit status is 1 both times. *)
Theorem command_line_reports
    (a : args) (w0 : world) :
  let w := configured (if debug a then DEBUG else INFO) w0 in
  (stat (fs w0) (input_gif a) = None ->
   main a w0
   = (1, add_log ERROR
           ("Failed to process GIF: Input file not found: " +:+
            path_str (input_gif a)) w)) /\
  (forall w1 s e w3,
     is_Some (stat (fs w0) (input_gif a)) ->
     lower (suffix (input_gif a)) = ".gif" ->
     mkdir_parents_exist_ok (output_dir a) w = (Return tt, w1) ->
     rembg_new_session (requested_model (model a)) = Return s ->
     process_frames (input_gif a) (output_dir a) (keep_temp a) s
       (add_event (EvNewSession (requested_model (model a)))
          (announced (input_gif a) (output_dir a) w1))
       = (Raised e, w3) ->
     main a w0
     = (1, add_log ERROR ("Failed to process GIF: " +:+ exc_str e)
             (add_log ERROR ("Error processing GIF: " +:+ exc_str e) w3))).
Proof.
  intros w.
  assert (Hfs : fs w = fs w0).
  { unfold w, configured, setup_logging. simpl. now destruct (log_config w0). }
  split.
  - intros Hno. unfold main. fold (configured (if debug a then DEBUG else INFO) w0).
    destruct (setup_logging (if debug a then DEBUG else INFO) w0) as [u w'] eqn:E.
    assert (w' = w) as -> by (unfold w, configured; now rewrite E).
    rewrite process_gif_missing by now rewrite Hfs. reflexivity.
  - intros w1 s e w3 Hin Hext Hmk Hs Hf. unfold main.
    destruct (setup_logging (if debug a then DEBUG else INFO) w0) as [u w'] eqn:E.
    assert (w' = w) as -> by (unfold w, configured; now rewrite E).
    rewrite process_gif_valid by (rewrite ?Hfs; assumption).
    rewrite (after_validation_session _ _ _ _ _ _ Hmk), Hs, try_except_log, Hf.
    reflexivity.
Qed.

Lemma frame_body_calls_on (P : event -> Prop) output_path keep s i frame :
  P (EvSave (output_path // temp_frame_name i)) ->
  P (EvOpenRead (output_path // temp_frame_name i)) ->
  (forall data, P (EvRemove data s)) ->
  P (EvOpenWrite (output_path // output_frame_name i)) ->
  (keep = false -> P (EvUnlink (output_path // temp_frame_name i))) ->
  respects (trace_extends P) (frame_body output_path keep s i frame).
Proof.
  intros Hs Hr Hm Hw Hu. unfold frame_body, frame_try, frame_finally.
  calls_bind; [apply logging_log_calls|].
  calls_bind; [apply respects_lift, trace_extends_refl|].
  apply respects_try_finally; [apply trace_extends_trans | |].
  - calls_bind; [now apply save_calls|].
    calls_bind; [now apply read_file_calls|].
    calls_bind; [now apply remove_calls|].
    now apply write_file_calls.
  - destruct keep; simpl.
    + apply respects_ret, trace_extends_refl.
    + apply respects_suppress, unlink_calls. now apply Hu.
Qed.

Lemma frame_loop_calls_on input_path output_path keep model_name s todo :
  forall k,
  respects
    (trace_extends (on_expected_path input_path output_path keep model_name))
    (frame_loop output_path keep s todo k).
Proof.
  induction todo as [|frame rest IH]; intros k; simpl frame_loop.
  - apply respects_ret, trace_extends_refl.
  - calls_bind; [|apply IH].
    apply frame_body_calls_on; simpl; try (exists (k + 1); split; [lia|reflexivity]).
    + intros data. exact I.
    + intros Hk. split; [exact Hk|]. exists (k + 1). split; [lia|reflexivity].
Qed.

(** X10.  Every call a run of [process_gif] makes goes where it should,
    however the run ends: [mkdir] to the output directory, [Image.open]
    to the input, the one session request for the requested model, and
    every save, read, write and delete to the temporary or output file
    of some frame in the output directory.  With [keep_temp_files]
    nothing at all is deleted. *)
Theorem calls_go_where_they_should
    input_path output_path keep model_name w r w' :
  process_gif input_path output_path keep model_name w = (r, w') ->
  exists evs,
    trace w' = (trace w ++ evs)%list /\
    Forall (on_expected_path input_path output_path keep model_name) evs /\
    (keep = true -> forall p, EvUnlink p ∉ evs).
Proof.
  intros H.
  assert (Hall : trace_extends
            (on_expected_path input_path output_path keep model_name) w w').
  { revert H. generalize w r w'.
    change (respects
              (trace_extends
                 (on_expected_path input_path output_path keep model_name))
              (process_gif input_path output_path keep model_name)).
    unfold process_gif.
    calls_bind.
    { intros w0 r0 w0' E. unfold path_exists in E. injection E as _ <-.
      apply trace_extends_refl. }
    destruct (negb _); [apply respects_raise, trace_extends_refl|].
    destruct (negb _); [apply respects_raise, trace_extends_refl|].
    calls_bind.
    { intros w0 r0 w0' E. apply mkdir_frame in E as (Ht & _).
      now apply (trace_extends_one _ (EvMkdir output_path)). }
    calls_bind; [apply logging_log_calls|].
    calls_bind; [apply logging_log_calls|].
    calls_bind.
    { intros w0 r0 w0' E. rewrite new_session_choice in E.
      unfold new_session in E. run_cases E;
        now apply (trace_extends_one _
                     (EvNewSession (requested_model model_name))). }
    apply respects_try_except; [apply trace_extends_trans | |].
    - unfold process_frames.
      calls_bind; [now apply image_open_calls|].
      calls_bind; [apply frame_loop_calls_on|].
      calls_bind.
      { unfold end_of_sequence. destruct (truncated _).
        - apply respects_raise, trace_extends_refl.
        - apply respects_ret, trace_extends_refl. }
      calls_bind; [apply logging_log_calls|].
      apply respects_ret, trace_extends_refl.
    - intros e. calls_bind; [apply logging_log_calls|].
      apply respects_raise, trace_extends_refl. }
  destruct Hall as (evs & Ht & Hall). exists evs.
  split; [exact Ht|]. split; [exact Hall|].
  intros Hk p Hp. rewrite Forall_forall in Hall. apply Hall in Hp.
  destruct Hp as [Hp _]. congruence.
Qed.

(* =================================================================== *)
(** ** More about the files a run leaves                                *)
(* =================================================================== *)

Lemma mkdir_ok output_path w :
  (forall op, os_refuses op = None) ->
  (forall pre, pre `prefix_of` output_path ->
               is_file (stat (fs w) pre) = false) ->
  exists w1,
    mkdir_parents_exist_ok output_path w = (Return tt, w1) /\
    keeps_entries w w1 /\
    (forall p : Path, length output_path < length p ->
                      fs w1 !! p = fs w !! p) /\
    (forall pre : Path, pre `prefix_of` output_path ->
                        stat (fs w1) pre = Some Dir).
Proof.
  intros Hos Hmk.
  destruct (makedirs_ok output_path [] (add_event (EvMkdir output_path) w)
              Hos eq_refl Hmk) as (w1 & Hrun & _).
  exists w1.
  assert (Hmkdir : mkdir_parents_exist_ok output_path w = (Return tt, w1)).
  { unfold mkdir_parents_exist_ok. now erewrite bind_return by reflexivity. }
  split; [exact Hmkdir|]. split; [|split].
  - now destruct (mkdir_frame _ _ _ _ Hmkdir) as (_ & _ & Hk).
  - destruct (makedirs_frame _ _ _ _ _ Hrun) as (_ & _ & _ & Hdeep).
    intros p Hp. now apply Hdeep.
  - apply (makedirs_dirs output_path [] _ _ Hrun).
    intros p Hp. apply prefix_nil_inv in Hp. now subst.
Qed.

Lemma makedirs_existing rest : forall (created : Path) w,
  (forall pre : Path, pre `prefix_of` (created ++ rest)%list ->
     length created < length pre -> stat (fs w) pre = Some Dir) ->
  makedirs created rest w = (Return tt, w).
Proof.
  induction rest as [|c rest IH]; intros created w Hdirs; [reflexivity|].
  assert (Hc : (created ++ c :: rest)%list = ((created // c) ++ rest)%list).
  { unfold joinpath. now rewrite <- app_assoc. }
  simpl. rewrite (Hdirs (created // c)).
  - apply IH. intros pre Hp Hl. apply Hdirs; [now rewrite Hc|].
    unfold joinpath in Hl. rewrite length_app in Hl. simpl in Hl. lia.
  - rewrite Hc. now exists rest.
  - unfold joinpath. rewrite length_app. simpl. lia.
Qed.

Lemma frame_loop_app output_path keep s l1 l2 : forall k w,
  frame_loop output_path keep s (l1 ++ l2) k w
  = match frame_loop output_path keep s l1 k w with
    | (Return n, w1) => frame_loop output_path keep s l2 n w1
    | (Raised e, w1) => (Raised e, w1)
    end.
Proof.
  induction l1 as [|frame l1 IH]; intros k w; [reflexivity|].
  simpl. unfold bind.
  destruct (frame_body output_path keep s (k + 1) frame w) as [[u|e] w1];
    [apply IH | reflexivity].
Qed.

Lemma remove_raised data s e w :
  rembg_remove data s = Raised e ->
  exists w', remove data s w = (Raised e, w') /\ fs w' = fs w.
Proof.
  intros H. unfold remove. erewrite bind_return by reflexivity.
  unfold lift. rewrite H. eexists. split; reflexivity.
Qed.

(** One frame whose inference fails. *)
Lemma frame_body_inference_fails output_path keep s i frame png e w :
  (forall op, os_refuses op = None) ->
  stat (fs w) output_path = Some Dir ->
  fs w !! (output_path // temp_frame_name i) <> Some Dir ->
  frame_png frame = Return png ->
  rembg_remove png s = Raised e ->
  exists w',
    frame_body output_path keep s i frame w = (Raised e, w') /\
    (forall p : Path, p <> output_path // temp_frame_name i ->
                      fs w' !! p = fs w !! p) /\
    fs w' !! (output_path // temp_frame_name i)
      = (if keep then Some (File png) else None).
Proof.
  intros Hos Hdir Htemp Hpng Hres.
  set (temp := output_path // temp_frame_name i) in *.
  set (outp := output_path // output_frame_name i) in *.
  unfold frame_png in Hpng.
  destruct (pil_convert_rgba frame) as [rgba|] eqn:Hconv; [|discriminate].
  unfold frame_body. fold temp outp.
  erewrite bind_return by reflexivity.
  unfold lift at 1. erewrite bind_return by (rewrite Hconv; reflexivity).
  match goal with |- context [try_finally _ _ ?w0] => set (w0' := w0) end.
  assert (Hfs0 : fs w0' = fs w) by reflexivity.
  destruct (save_ok rgba temp png w0' Hos) as (w1 & Hsave & Hfs1);
    [unfold temp; rewrite stat_child, Hfs0; exact Htemp
    |unfold temp; rewrite parent_child, Hfs0; exact Hdir
    |exact Hpng|].
  destruct (read_file_ok temp png w1 Hos) as (w2 & Hread & Hfs2).
  { unfold temp. rewrite stat_child. fold temp.
    rewrite Hfs1. apply lookup_insert_eq. }
  destruct (remove_raised png s e w2 Hres) as (w3 & Hrem & Hfs3).
  assert (Htry : frame_try rgba temp outp s w0' = (Raised e, w3)).
  { unfold frame_try.
    erewrite bind_return by exact Hsave.
    erewrite bind_return by exact Hread.
    now erewrite bind_raised by exact Hrem. }
  assert (Hfs : fs w3 = <[temp := File png]> (fs w)).
  { now rewrite Hfs3, Hfs2, Hfs1, Hfs0. }
  unfold try_finally. rewrite Htry. unfold frame_finally.
  destruct keep; simpl.
  - eexists. split; [reflexivity|]. rewrite Hfs. split.
    + intros p Hp. now apply lookup_insert_ne.
    + apply lookup_insert_eq.
  - destruct (unlink_ok temp png w3 Hos) as (w4 & Hunl & Hfs4).
    { unfold temp. rewrite stat_child. fold temp. rewrite Hfs.
      apply lookup_insert_eq. }
    unfold suppress. rewrite Hunl.
    eexists. split; [reflexivity|]. rewrite Hfs4, Hfs. split.
    + intros p Hp. rewrite lookup_delete_ne by congruence.
      now apply lookup_insert_ne.
    + apply lookup_delete_eq.
Qed.

(** The listing of a directory after the frames up to [n] have been
    touched, the frames [1..m] having got their output file, and no
    temporary file being left. *)
Lemma listing_after_frames (f0 f : filesystem) (output_path : Path) n m :
  (forall p : Path, length output_path < length p ->
     ~ artifact output_path 0 n p -> f !! p = f0 !! p) ->
  (forall i, 1 <= i <= m -> is_Some (f !! (output_path // output_frame_name i))) ->
  (forall i, m < i <= n ->
     f !! (output_path // output_frame_name i)
     = f0 !! (output_path // output_frame_name i)) ->
  (forall i, 1 <= i <= n -> f !! (output_path // temp_frame_name i) = None) ->
  listdir f output_path
  = (listdir f0 output_path ∖ list_to_set (temp_frame_name <$> seq 1 n))
    ∪ list_to_set (output_frame_name <$> seq 1 m).
Proof.
  intros Hsame Hout Hlate Htemp. apply set_eq. intros nm.
  rewrite elem_of_union, elem_of_difference, !elem_of_list_to_set,
    !list_elem_of_fmap, !elem_of_listdir.
  assert (Hdeep : length output_path < length (output_path // nm)).
  { unfold joinpath. rewrite length_app. simpl. lia. }
  split.
  - intros Hsome.
    destruct (artifact_dec output_path 0 n (output_path // nm))
      as [(i & Hi & [Hp | Hp])|Hno].
    + rewrite Hp, Htemp in Hsome by lia. now destruct Hsome.
    + apply joinpath_inj in Hp. destruct (decide (i <= m)) as [Him|Him].
      * right. exists i. split; [exact Hp|]. apply elem_of_seq. lia.
      * left. split.
        -- subst nm. rewrite <- Hlate by lia. exact Hsome.
        -- intros (j & Hj & _). subst nm. symmetry in Hj.
           now apply temp_not_output in Hj.
    + left. split.
      * now rewrite <- (Hsame _ Hdeep Hno).
      * intros (i & -> & Hi). apply elem_of_seq in Hi. apply Hno.
        exists i. split; [lia | now left].
  - intros [[Hsome Hnot] | (i & -> & Hi)].
    + destruct (artifact_dec output_path 0 n (output_path // nm))
        as [(i & Hi & [Hp | Hp])|Hno].
      * exfalso. apply Hnot. apply joinpath_inj in Hp. exists i.
        split; [exact Hp|]. apply elem_of_seq. lia.
      * destruct (decide (i <= m)) as [Him|Him].
        -- rewrite Hp. apply Hout. lia.
        -- apply joinpath_inj in Hp. subst nm. rewrite Hlate by lia.
           exact Hsome.
      * now rewrite (Hsame _ Hdeep Hno).
    + apply elem_of_seq in Hi. apply Hout. lia.
Qed.

(** A run that got past validation, the directory, the session and the
    decoder is the loop over the frames, started in a world whose files
    are those the creation of the directory left. *)
Lemma run_reaches_loop input_path output_path keep model_name data g s w :
  (forall op, os_refuses op = None) ->
  stat (fs w) input_path = Some (File data) ->
  lower (suffix input_path) = ".gif" ->
  pil_open data = Return g ->
  rembg_new_session (requested_model model_name) = Return s ->
  (forall pre, pre `prefix_of` output_path ->
               is_file (stat (fs w) pre) = false) ->
  exists w1,
    process_gif input_path output_path keep model_name w
    = match frame_loop output_path keep s (frames g) 0
              (loop_world input_path output_path model_name w1) with
      | (Return n, w3) =>
          match truncated g with
          | Some e =>
              (Raised e,
               add_log ERROR ("Error processing GIF: " +:+ exc_str e) w3)
          | None =>
              (Return output_path,
               add_log INFO
                 ("Successfully processed " +:+ str_of_nat n +:+ " frames") w3)
          end
      | (Raised e, w3) =>
          (Raised e, add_log ERROR ("Error processing GIF: " +:+ exc_str e) w3)
      end /\
    keeps_entries w w1 /\
    (forall p : Path, length output_path < length p ->
                      fs w1 !! p = fs w !! p) /\
    (forall pre : Path, pre `prefix_of` output_path ->
                        stat (fs w1) pre = Some Dir) /\
    log w1 = log w.
Proof.
  intros Hos Hin Hext Hopen Hsess Hmk.
  destruct (mkdir_ok output_path w Hos Hmk) as (w1 & Hmkdir & Hk & Hdeep & Hdirs).
  destruct (mkdir_frame _ _ _ _ Hmkdir) as (_ & Hlog & _).
  exists w1. split; [|now repeat split].
  now apply (process_gif_loop _ _ _ _ _ _ data).
Qed.

Lemma artifact_widen output_path lo hi hi' p :
  hi <= hi' -> artifact output_path lo hi p -> artifact output_path lo hi' p.
Proof. intros Hle (i & Hi & Hp). exists i. split; [lia | exact Hp]. Qed.

Lemma deep_child (output_path : Path) nm :
  length output_path < length (output_path // nm).
Proof. unfold joinpath. rewrite length_app. simpl. lia. Qed.

(** X11. When the inference fails on a frame, the run raises that
    exception and logs it last; the output files of the frames before
    hold their results, the entry at the output path of the failing
    frame is the one from before the run, its temporary file is deleted
    unless temporary files are kept, and nothing else inside the
    directory is touched.  Without kept files the directory lists what
    it listed before, less the temporary names of the frames up to the
    failing one, plus the output names of the frames before it; in a
    directory that was empty, exactly those output names. *)
Theorem inference_failure_keeps_earlier_frames
    input_path output_path keep model_name data g s w before bad rest png e :
  (forall op, os_refuses op = None) ->
  stat (fs w) input_path = Some (File data) ->
  lower (suffix input_path) = ".gif" ->
  pil_open data = Return g ->
  rembg_new_session (requested_model model_name) = Return s ->
  (forall pre, pre `prefix_of` output_path ->
               is_file (stat (fs w) pre) = false) ->
  (forall i,
     fs w !! (output_path // temp_frame_name i) <> Some Dir /\
     fs w !! (output_path // output_frame_name i) <> Some Dir) ->
  frames g = (before ++ bad :: rest)%list ->
  Forall (frame_ok s) before ->
  frame_png bad = Return png ->
  rembg_remove png s = Raised e ->
  exists w',
    process_gif input_path output_path keep model_name w = (Raised e, w') /\
    (forall j frame p r,
       before !! j = Some frame ->
       frame_png frame = Return p ->
       rembg_remove p s = Return r ->
       fs w' !! (output_path // output_frame_name (j + 1)) = Some (File r)) /\
    fs w' !! (output_path // output_frame_name (length before + 1))
      = fs w !! (output_path // output_frame_name (length before + 1)) /\
    fs w' !! (output_path // temp_frame_name (length before + 1))
      = (if keep then Some (File png) else None) /\
    (forall p : Path, length output_path < length p ->
       ~ artifact output_path 0 (length before + 1) p ->
       fs w' !! p = fs w !! p) /\
    (keep = false ->
     listdir (fs w') output_path
     = (listdir (fs w) output_path ∖
          list_to_set (temp_frame_name <$> seq 1 (length before + 1)))
       ∪ list_to_set (output_frame_name <$> seq 1 (length before))) /\
    (keep = false ->
     listdir (fs w) output_path = ∅ ->
     listdir (fs w') output_path
     = list_to_set (output_frame_name <$> seq 1 (length before))) /\
    last (log w') = Some (ERROR, "Error processing GIF: " +:+ exc_str e).
Proof.
  intros Hos Hin Hext Hopen Hsess Hmk Hnodir Hfr Hbefore Hpng Hres.
  destruct (run_reaches_loop input_path output_path keep model_name data g s w
              Hos Hin Hext Hopen Hsess Hmk)
    as (w1 & Hrun & Hk & Hdeep & Hdirs & Hlog1).
  set (lw := loop_world input_path output_path model_name w1) in *.
  assert (Hlw : fs lw = fs w1) by reflexivity.
  assert (Hsame0 : forall nm, fs lw !! (output_path // nm)
                              = fs w !! (output_path // nm)).
  { intros nm. now rewrite Hlw, Hdeep by apply deep_child. }
  destruct (frame_loop_ok output_path keep s before 0 lw Hos) as (w3 & Hloop & Hpost).
  { rewrite Hlw. now apply Hdirs. }
  { intros i _. rewrite !Hsame0. apply Hnodir. }
  { exact Hbefore. }
  assert (Hout3 : same_outside (artifact output_path 0 (0 + length before)) lw w3)
    by exact (frame_loop_outside output_path keep s before 0 lw _ _ Hloop).
  simpl in Hloop, Hout3.
  set (n := length before) in *.
  destruct (frame_body_inference_fails output_path keep s (n + 1) bad png e w3 Hos)
    as (w4 & Hbody & Hother & Htemp).
  { rewrite (stat_same_outside _ _ _ _ Hout3) by apply artifact_not_dir.
    rewrite Hlw. now apply Hdirs. }
  { rewrite Hout3, Hsame0; [apply Hnodir|].
    intros Ha. apply artifact_temp in Ha. lia. }
  { exact Hpng. }
  { exact Hres. }
  assert (Hout_j : forall j frame p r,
             before !! j = Some frame -> frame_png frame = Return p ->
             rembg_remove p s = Return r ->
             fs w4 !! (output_path // output_frame_name (j + 1)) = Some (File r)).
  { intros j frame p r Hj Hp Hr.
    rewrite Hother.
    - destruct (Hpost j frame p r Hj Hp Hr) as [Ho _].
      now replace (j + 1) with (0 + 1 + j) by lia.
    - intros Heq. apply joinpath_inj in Heq. symmetry in Heq.
      now apply temp_not_output in Heq. }
  assert (Hout_n : fs w4 !! (output_path // output_frame_name (n + 1))
                   = fs w !! (output_path // output_frame_name (n + 1))).
  { rewrite Hother.
    - rewrite Hout3; [apply Hsame0|].
      intros Ha. apply artifact_output in Ha. lia.
    - intros Heq. apply joinpath_inj in Heq. symmetry in Heq.
      now apply temp_not_output in Heq. }
  assert (Hframe : forall p : Path, length output_path < length p ->
            ~ artifact output_path 0 (n + 1) p -> fs w4 !! p = fs w !! p).
  { intros p Hp Hno. rewrite Hother.
    - rewrite Hout3; [now rewrite Hlw; apply Hdeep|].
      intros Ha. apply Hno. revert Ha. apply artifact_widen. lia.
    - intros ->. apply Hno. exists (n + 1). split; [lia | now left]. }
  assert (Hlist : keep = false ->
            listdir (fs w4) output_path
            = (listdir (fs w) output_path ∖
                 list_to_set (temp_frame_name <$> seq 1 (n + 1)))
              ∪ list_to_set (output_frame_name <$> seq 1 n)).
  { intros ->. apply listing_after_frames.
    - exact Hframe.
    - intros i Hi.
      destruct (frame_at s before i Hi Hbefore) as (frame & p & r & Hj & Hp & Hr).
      replace i with (i - 1 + 1) by lia.
      rewrite (Hout_j _ _ _ _ Hj Hp Hr). now eexists.
    - intros i Hi. assert (i = n + 1) as -> by lia. exact Hout_n.
    - intros i Hi. destruct (decide (i = n + 1)) as [->|Hne].
      + exact Htemp.
      + rewrite Hother.
        * destruct (frame_at s before i) as (frame & p & r & Hj & Hp & Hr);
            [lia | exact Hbefore |].
          destruct (Hpost _ _ _ _ Hj Hp Hr) as [_ Ht].
          now replace (0 + 1 + (i - 1)) with i in Ht by lia.
        * intros Heq. apply joinpath_inj, temp_frame_name_inj in Heq.
          contradiction. }
  exists (add_log ERROR ("Error processing GIF: " +:+ exc_str e) w4).
  split; [|split; [|split; [|split; [|split; [|split; [|split]]]]]].
  - rewrite Hrun, Hfr, frame_loop_app, Hloop. simpl. unfold bind.
    now rewrite Hbody.
  - exact Hout_j.
  - exact Hout_n.
  - exact Htemp.
  - exact Hframe.
  - exact Hlist.
  - intros Hkeep Hfresh. simpl. rewrite (Hlist Hkeep), Hfresh.
    apply set_eq. intros nm.
    rewrite elem_of_union, elem_of_difference, elem_of_empty. tauto.
  - simpl. apply last_snoc.
Qed.

(** X12. A GIF whose frame sequence ends in a decoding error: every
    frame read before the error is processed and its output file holds
    its result, the run raises the decoder's error and logs it last,
    after the records of the frames; no line tells of a success.
    Without kept files the directory lists what it listed before, less
    the temporary names of the frames, plus their output names. *)
Theorem truncated_gif_keeps_all_frames_read
    input_path output_path keep model_name data g s w e :
  (forall op, os_refuses op = None) ->
  stat (fs w) input_path = Some (File data) ->
  lower (suffix input_path) = ".gif" ->
  pil_open data = Return g ->
  truncated g = Some e ->
  rembg_new_session (requested_model model_name) = Return s ->
  Forall (frame_ok s) (frames g) ->
  (forall pre, pre `prefix_of` output_path ->
               is_file (stat (fs w) pre) = false) ->
  (forall i,
     fs w !! (output_path // temp_frame_name i) <> Some Dir /\
     fs w !! (output_path // output_frame_name i) <> Some Dir) ->
  exists w',
    process_gif input_path output_path keep model_name w = (Raised e, w') /\
    (forall j frame p r,
       frames g !! j = Some frame ->
       frame_png frame = Return p ->
       rembg_remove p s = Return r ->
       fs w' !! (output_path // output_frame_name (j + 1)) = Some (File r)) /\
    (forall p : Path, length output_path < length p ->
       ~ artifact output_path 0 (length (frames g)) p ->
       fs w' !! p = fs w !! p) /\
    (keep = false ->
     listdir (fs w') output_path
     = (listdir (fs w) output_path ∖
          list_to_set (temp_frame_name <$> seq 1 (length (frames g))))
       ∪ list_to_set (output_frame_name <$> seq 1 (length (frames g)))) /\
    log w'
    = (log w ++
       [(INFO, "Processing GIF: " +:+ path_str input_path);
        (INFO, "Output directory: " +:+ path_str output_path)] ++
       (debug_record <$> seq 1 (length (frames g))) ++
       [(ERROR, "Error processing GIF: " +:+ exc_str e)])%list.
Proof.
  intros Hos Hin Hext Hopen Htrunc Hsess Hframes Hmk Hnodir.
  destruct (run_reaches_loop input_path output_path keep model_name data g s w
              Hos Hin Hext Hopen Hsess Hmk)
    as (w1 & Hrun & Hk & Hdeep & Hdirs & Hlog1).
  set (lw := loop_world input_path output_path model_name w1) in *.
  assert (Hlw : fs lw = fs w1) by reflexivity.
  assert (Hsame0 : forall nm, fs lw !! (output_path // nm)
                              = fs w !! (output_path // nm)).
  { intros nm. now rewrite Hlw, Hdeep by apply deep_child. }
  destruct (frame_loop_ok output_path keep s (frames g) 0 lw Hos)
    as (w3 & Hloop & Hpost).
  { rewrite Hlw. now apply Hdirs. }
  { intros i _. rewrite !Hsame0. apply Hnodir. }
  { exact Hframes. }
  assert (Hout3 : same_outside (artifact output_path 0 (0 + length (frames g))) lw w3)
    by exact (frame_loop_outside output_path keep s (frames g) 0 lw _ _ Hloop).
  destruct (frame_loop_returned_log _ _ _ _ _ _ _ _ Hloop) as [_ Hlog3].
  simpl in Hloop, Hout3, Hlog3.
  exists (add_log ERROR ("Error processing GIF: " +:+ exc_str e) w3).
  assert (Hout_j : forall j frame p r,
             frames g !! j = Some frame -> frame_png frame = Return p ->
             rembg_remove p s = Return r ->
             fs w3 !! (output_path // output_frame_name (j + 1)) = Some (File r)).
  { intros j frame p r Hj Hp Hr.
    destruct (Hpost j frame p r Hj Hp Hr) as [Ho _].
    now replace (j + 1) with (0 + 1 + j) by lia. }
  assert (Hframe : forall p : Path, length output_path < length p ->
            ~ artifact output_path 0 (length (frames g)) p ->
            fs w3 !! p = fs w !! p).
  { intros p Hp Hno. rewrite Hout3 by exact Hno. rewrite Hlw. now apply Hdeep. }
  split; [|split; [|split; [|split]]].
  - now rewrite Hrun, Hloop, Htrunc.
  - exact Hout_j.
  - exact Hframe.
  - intros ->. apply listing_after_frames.
    + exact Hframe.
    + intros i Hi.
      destruct (frame_at s (frames g) i Hi Hframes) as (frame & p & r & Hj & Hp & Hr).
      simpl. replace i with (i - 1 + 1) by lia.
      rewrite (Hout_j _ _ _ _ Hj Hp Hr). now eexists.
    + intros i Hi. lia.
    + intros i Hi.
      destruct (frame_at s (frames g) i Hi Hframes) as (frame & p & r & Hj & Hp & Hr).
      destruct (Hpost _ _ _ _ Hj Hp Hr) as [_ Ht].
      simpl. now replace (0 + 1 + (i - 1)) with i in Ht by lia.
  - simpl. rewrite Hlog3. simpl. rewrite Hlog1.
    now rewrite <- !app_assoc.
Qed.

(** X13. In a directory that already holds files, a successful run
    without kept files leaves the names that were there, less the
    temporary-file names of its frames, plus the output names of its
    frames: a file that happened to bear a temporary-file name is gone,
    every entry under another name is as it was. *)
Theorem used_directory_loses_only_temp_names
    input_path output_path model_name data g s w :
  (forall op, os_refuses op = None) ->
  stat (fs w) input_path = Some (File data) ->
  lower (suffix input_path) = ".gif" ->
  pil_open data = Return g ->
  truncated g = None ->
  rembg_new_session (requested_model model_name) = Return s ->
  Forall (frame_ok s) (frames g) ->
  (forall pre, pre `prefix_of` output_path ->
               is_file (stat (fs w) pre) = false) ->
  (forall i,
     fs w !! (output_path // temp_frame_name i) <> Some Dir /\
     fs w !! (output_path // output_frame_name i) <> Some Dir) ->
  exists w',
    process_gif input_path output_path false model_name w
      = (Return output_path, w') /\
    listdir (fs w') output_path
    = (listdir (fs w) output_path ∖
         list_to_set (temp_frame_name <$> seq 1 (length (frames g))))
      ∪ list_to_set (output_frame_name <$> seq 1 (length (frames g))) /\
    (forall i, 1 <= i <= length (frames g) ->
       fs w' !! (output_path // temp_frame_name i) = None) /\
    (forall nm,
       (forall i, 1 <= i <= length (frames g) ->
          nm <> temp_frame_name i /\ nm <> output_frame_name i) ->
       fs w' !! (output_path // nm) = fs w !! (output_path // nm)).
Proof.
  intros Hos Hin Hext Hopen Htrunc Hsess Hframes Hmk Hnodir.
  destruct (process_gif_ok input_path output_path false model_name data g s w
              Hos Hin Hext Hopen Htrunc Hsess Hframes Hmk Hnodir)
    as (w' & Hrun & Hsame & Hpost).
  set (n := length (frames g)) in *.
  assert (Htemp : forall i, 1 <= i <= n ->
            fs w' !! (output_path // temp_frame_name i) = None).
  { intros i Hi.
    destruct (frame_at s (frames g) i Hi Hframes) as (frame & p & r & Hj & Hp & Hr).
    destruct (Hpost _ _ _ _ Hj Hp Hr) as [_ Ht].
    now replace (i - 1 + 1) with i in Ht by lia. }
  assert (Hout : forall i, 1 <= i <= n ->
            is_Some (fs w' !! (output_path // output_frame_name i))).
  { intros i Hi.
    destruct (frame_at s (frames g) i Hi Hframes) as (frame & p & r & Hj & Hp & Hr).
    destruct (Hpost _ _ _ _ Hj Hp Hr) as [Ho _].
    replace (i - 1 + 1) with i in Ho by lia. rewrite Ho. now eexists. }
  assert (Hother : forall nm,
            (forall i, 1 <= i <= n ->
               nm <> temp_frame_name i /\ nm <> output_frame_name i) ->
            fs w' !! (output_path // nm) = fs w !! (output_path // nm)).
  { intros nm Hnm. apply Hsame; [apply deep_child|].
    intros (i & Hi & [Hp | Hp]); apply joinpath_inj in Hp;
      destruct (Hnm i) as [Ht Ho]; try lia; contradiction. }
  exists w'. split; [exact Hrun|]. split; [|split; [exact Htemp | exact Hother]].
  apply set_eq. intros nm.
  rewrite elem_of_union, elem_of_difference, !elem_of_list_to_set,
    !list_elem_of_fmap, !elem_of_listdir.
  split.
  - intros Hsome.
    destruct (artifact_dec output_path 0 n (output_path // nm))
      as [(i & Hi & [Hp | Hp])|Hno].
    + rewrite Hp, Htemp in Hsome by lia. now destruct Hsome.
    + right. apply joinpath_inj in Hp. exists i. split; [exact Hp|].
      apply elem_of_seq. lia.
    + left. split.
      * now rewrite <- (Hsame _ (deep_child _ _) Hno).
      * intros (i & -> & Hi). apply elem_of_seq in Hi. apply Hno.
        exists i. split; [lia | now left].
  - intros [[Hsome Hnot] | (i & -> & Hi)].
    + destruct (artifact_dec output_path 0 n (output_path // nm))
        as [(i & Hi & [Hp | Hp])|Hno].
      * exfalso. apply Hnot. apply joinpath_inj in Hp. exists i.
        split; [exact Hp|]. apply elem_of_seq. lia.
      * rewrite Hp. apply Hout. lia.
      * now rewrite (Hsame _ (deep_child _ _) Hno).
    + apply elem_of_seq in Hi. apply Hout. lia.
Qed.

(** X14. Running a second time on what a successful run left changes no
    file: the second run succeeds too and the file system after it is
    the file system before it. *)
Theorem second_run_changes_no_file
    input_path output_path keep model_name data g s w :
  (forall op, os_refuses op = None) ->
  stat (fs w) input_path = Some (File data) ->
  lower (suffix input_path) = ".gif" ->
  pil_open data = Return g ->
  truncated g = None ->
  rembg_new_session (requested_model model_name) = Return s ->
  Forall (frame_ok s) (frames g) ->
  (forall pre, pre `prefix_of` output_path ->
               is_file (stat (fs w) pre) = false) ->
  (forall i,
     fs w !! (output_path // temp_frame_name i) <> Some Dir /\
     fs w !! (output_path // output_frame_name i) <> Some Dir) ->
  exists w1 w2,
    process_gif input_path output_path keep model_name w
      = (Return output_path, w1) /\
    process_gif input_path output_path keep model_name w1
      = (Return output_path, w2) /\
    fs w2 = fs w1.
Proof.
  intros Hos Hin Hext Hopen Htrunc Hsess Hframes Hmk Hnodir.
  destruct (run_reaches_loop input_path output_path keep model_name data g s w
              Hos Hin Hext Hopen Hsess Hmk)
    as (wm & Hrun & Hk & Hdeep & Hdirs & _).
  set (lw := loop_world input_path output_path model_name wm) in *.
  assert (Hlw : fs lw = fs wm) by reflexivity.
  destruct (frame_loop_ok output_path keep s (frames g) 0 lw Hos)
    as (w3 & Hloop & Hpost).
  { rewrite Hlw. now apply Hdirs. }
  { intros i _. rewrite Hlw, !Hdeep by apply deep_child. apply Hnodir. }
  { exact Hframes. }
  assert (Hout3 : same_outside (artifact output_path 0 (0 + length (frames g))) lw w3)
    by exact (frame_loop_outside output_path keep s (frames g) 0 lw _ _ Hloop).
  simpl in Hloop, Hout3.
  set (n := length (frames g)) in *.
  rewrite Hloop, Htrunc in Hrun.
  set (w1 := add_log INFO ("Successfully processed " +:+ str_of_nat n +:+ " frames") w3)
    in *.
  assert (Hw1 : fs w1 = fs w3) by reflexivity.
  (* the second run *)
  assert (Hin1 : stat (fs w1) input_path = Some (File data)).
  { rewrite Hw1, (stat_same_outside _ _ _ _ Hout3) by now apply gif_not_artifact.
    rewrite Hlw. exact (stat_keeps _ _ _ _ Hk Hin). }
  assert (Hdirs1 : forall pre : Path, pre `prefix_of` output_path ->
                     stat (fs w1) pre = Some Dir).
  { intros pre Hpre.
    rewrite Hw1, (stat_same_outside _ _ _ _ Hout3) by now apply prefix_not_artifact.
    rewrite Hlw. now apply Hdirs. }
  assert (Hmkdir1 : mkdir_parents_exist_ok output_path w1
                    = (Return tt, add_event (EvMkdir output_path) w1)).
  { unfold mkdir_parents_exist_ok. erewrite bind_return by reflexivity.
    apply makedirs_existing. intros pre Hpre _. now apply Hdirs1. }
  pose proof (process_gif_loop input_path output_path keep model_name w1 _ data g s
                Hin1 Hext Hmkdir1 (Hos _) Hopen Hsess) as Hrun2.
  set (lw2 := loop_world input_path output_path model_name
                (add_event (EvMkdir output_path) w1)) in *.
  assert (Hlw2 : fs lw2 = fs w3) by reflexivity.
  destruct (frame_loop_ok output_path keep s (frames g) 0 lw2 Hos)
    as (w5 & Hloop5 & Hpost5).
  { rewrite Hlw2, <- Hw1. now apply Hdirs1. }
  { intros i _. rewrite Hlw2.
    destruct (decide (i <= n)) as [Hi|Hi].
    - destruct (decide (1 <= i)) as [Hi1|Hi1].
      + destruct (frame_at s (frames g) i (conj Hi1 Hi) Hframes)
          as (frame & p & r & Hj & Hp & Hr).
        destruct (Hpost _ _ _ _ Hj Hp Hr) as [Ho Ht].
        replace (0 + 1 + (i - 1)) with i in Ho, Ht by lia.
        rewrite Ho, Ht. split; [destruct keep|]; discriminate.
      + rewrite !Hout3, Hlw, !Hdeep; try apply deep_child; [apply Hnodir | |].
        * intros Ha. apply artifact_output in Ha. lia.
        * intros Ha. apply artifact_temp in Ha. lia.
    - rewrite !Hout3, Hlw, !Hdeep; try apply deep_child; [apply Hnodir | |].
      + intros Ha. apply artifact_output in Ha. lia.
      + intros Ha. apply artifact_temp in Ha. lia. }
  { exact Hframes. }
  assert (Hout5 : same_outside (artifact output_path 0 (0 + length (frames g))) lw2 w5)
    by exact (frame_loop_outside output_path keep s (frames g) 0 lw2 _ _ Hloop5).
  simpl in Hloop5, Hout5. fold n in Hloop5, Hout5.
  rewrite Hloop5, Htrunc in Hrun2.
  eexists _, _. split; [exact Hrun|]. split; [exact Hrun2|].
  simpl. apply map_eq. intros p.
  destruct (artifact_dec output_path 0 n p) as [(i & Hi & Hp)|Hno].
  - destruct (frame_at s (frames g) i) as (frame & png & r & Hj & Hpng & Hr);
      [fold n; lia | exact Hframes |].
    destruct (Hpost _ _ _ _ Hj Hpng Hr) as [Ho Ht].
    destruct (Hpost5 _ _ _ _ Hj Hpng Hr) as [Ho5 Ht5].
    replace (0 + 1 + (i - 1)) with i in Ho, Ht, Ho5, Ht5 by lia.
    destruct Hp as [-> | ->]; congruence.
  - rewrite (Hout5 p Hno). now rewrite Hlw2.
Qed.

(** X15. Keeping the temporary files changes nothing else: with and
    without the flag a successful run returns the same path and logs the
    same records, and the two file systems agree on every path that is
    not the temporary file of a frame; there, the one run has a file and
    the other none. *)
Theorem keeping_temp_files_changes_only_them
    input_path output_path model_name data g s w :
  (forall op, os_refuses op = None) ->
  stat (fs w) input_path = Some (File data) ->
  lower (suffix input_path) = ".gif" ->
  pil_open data = Return g ->
  truncated g = None ->
  rembg_new_session (requested_model model_name) = Return s ->
  Forall (frame_ok s) (frames g) ->
  (forall pre, pre `prefix_of` output_path ->
               is_file (stat (fs w) pre) = false) ->
  (forall i,
     fs w !! (output_path // temp_frame_name i) <> Some Dir /\
     fs w !! (output_path // output_frame_name i) <> Some Dir) ->
  exists wk wd,
    process_gif input_path output_path true model_name w
      = (Return output_path, wk) /\
    process_gif input_path output_path false model_name w
      = (Return output_path, wd) /\
    log wk = log wd /\
    (forall p : Path,
       (forall i, 1 <= i <= length (frames g) ->
          p <> output_path // temp_frame_name i) ->
       fs wk !! p = fs wd !! p) /\
    (forall i, 1 <= i <= length (frames g) ->
       is_Some (fs wk !! (output_path // temp_frame_name i)) /\
       fs wd !! (output_path // temp_frame_name i) = None).
Proof.
  intros Hos Hin Hext Hopen Htrunc Hsess Hframes Hmk Hnodir.
  destruct (mkdir_ok output_path w Hos Hmk) as (wm & Hmkdir & Hk & Hdeep & Hdirs).
  pose proof (fun keep =>
    process_gif_loop input_path output_path keep model_name w wm data g s
      Hin Hext Hmkdir (Hos _) Hopen Hsess) as Hrun.
  set (lw := loop_world input_path output_path model_name wm) in *.
  assert (Hlw : fs lw = fs wm) by reflexivity.
  assert (Hloop : forall keep, exists w3,
    frame_loop output_path keep s (frames g) 0 lw
      = (Return (length (frames g)), w3) /\
    (forall i, 1 <= i <= length (frames g) ->
       is_Some (fs w3 !! (output_path // output_frame_name i)) /\
       fs w3 !! (output_path // temp_frame_name i)
         = (if keep then fs w3 !! (output_path // temp_frame_name i) else None) /\
       (keep = true -> is_Some (fs w3 !! (output_path // temp_frame_name i))) /\
       forall w3' keep',
         frame_loop output_path keep' s (frames g) 0 lw
           = (Return (length (frames g)), w3') ->
         fs w3' !! (output_path // output_frame_name i)
         = fs w3 !! (output_path // output_frame_name i)) /\
    same_outside (artifact output_path 0 (length (frames g))) lw w3 /\
    log w3 = (log lw ++ (debug_record <$> seq 1 (length (frames g))))%list).
  { intros keep.
    destruct (frame_loop_ok output_path keep s (frames g) 0 lw Hos)
      as (w3 & Hl & Hpost).
    { rewrite Hlw. now apply Hdirs. }
    { intros i _. rewrite Hlw, !Hdeep by apply deep_child. apply Hnodir. }
    { exact Hframes. }
    exists w3. split; [exact Hl|]. split; [|split].
    - intros i Hi.
      destruct (frame_at s (frames g) i Hi Hframes) as (frame & p & r & Hj & Hp & Hr).
      destruct (Hpost _ _ _ _ Hj Hp Hr) as [Ho Ht].
      replace (0 + 1 + (i - 1)) with i in Ho, Ht by lia.
      split; [rewrite Ho; now eexists|]. split; [|split].
      + rewrite Ht. now destruct keep.
      + intros ->. rewrite Ht. now eexists.
      + intros w3' keep' Hl'.
        destruct (frame_loop_ok output_path keep' s (frames g) 0 lw Hos)
          as (w3'' & Hl'' & Hpost'').
        { rewrite Hlw. now apply Hdirs. }
        { intros i' _. rewrite Hlw, !Hdeep by apply deep_child. apply Hnodir. }
        { exact Hframes. }
        simpl in Hl''. rewrite Hl' in Hl''. injection Hl'' as <-.
        destruct (Hpost'' _ _ _ _ Hj Hp Hr) as [Ho' _].
        replace (0 + 1 + (i - 1)) with i in Ho' by lia. congruence.
    - exact (frame_loop_outside output_path keep s (frames g) 0 lw _ _ Hl).
    - destruct (frame_loop_returned_log _ _ _ _ _ _ _ _ Hl) as [_ Hlog].
      exact Hlog. }
  destruct (Hloop true) as (wk & Hlk & Hpk & Hok & Hlogk).
  destruct (Hloop false) as (wd & Hld & Hpd & Hod & Hlogd).
  pose proof (Hrun true) as Hrunk. pose proof (Hrun false) as Hrund.
  rewrite Hlk, Htrunc in Hrunk. rewrite Hld, Htrunc in Hrund.
  eexists _, _. split; [exact Hrunk|]. split; [exact Hrund|].
  split; [|split].
  - simpl. now rewrite Hlogk, Hlogd.
  - intros p Hp. simpl.
    destruct (artifact_dec output_path 0 (length (frames g)) p)
      as [(i & Hi & [-> | ->])|Hno].
    + exfalso. apply (Hp i); [lia | reflexivity].
    + destruct (Hpd i) as (_ & _ & _ & Hsame); [lia|].
      now apply Hsame with (keep' := true).
    + now rewrite (Hok p Hno), (Hod p Hno).
  - intros i Hi. simpl.
    destruct (Hpk i Hi) as (_ & _ & Hsome & _).
    destruct (Hpd i Hi) as (_ & Hnone & _).
    split; [now apply Hsome | exact Hnone].
Qed.

(* =================================================================== *)
(** ** More about the cleanup                                           *)
(* =================================================================== *)

(** X16. When the temporary file cannot be opened for writing, the
    frame fails with the error of that [open]: without kept files the
    cleanup still runs, its [unlink] finds no file, and the
    [FileNotFoundError] it gets is suppressed instead of taking the
    place of the first error.  A file that was lying there under the
    temporary name is deleted by that cleanup. *)
Theorem refused_save_is_what_is_raised
    output_path keep s i frame rgba e w :
  pil_convert_rgba frame = Return rgba ->
  os_refuses (OpOpenWrite (output_path // temp_frame_name i)) = Some e ->
  os_refuses (OpUnlink (output_path // temp_frame_name i)) = None ->
  fs w !! (output_path // temp_frame_name i) <> Some Dir ->
  exists w',
    frame_body output_path keep s i frame w = (Raised e, w') /\
    fs w' = (if keep then fs w
             else delete (output_path // temp_frame_name i) (fs w)) /\
    (fs w !! (output_path // temp_frame_name i) = None -> fs w' = fs w).
Proof.
  intros Hconv Hwrite Hunlink Hnodir.
  set (temp := output_path // temp_frame_name i) in *.
  set (outp := output_path // output_frame_name i).
  unfold frame_body. fold temp outp.
  erewrite bind_return by reflexivity.
  unfold lift at 1. erewrite bind_return by (rewrite Hconv; reflexivity).
  match goal with |- context [try_finally _ _ ?w0] => set (w0' := w0) end.
  assert (Htry : frame_try rgba temp outp s w0'
                 = (Raised e, add_event (EvSave temp) w0')).
  { unfold frame_try. erewrite bind_raised; [reflexivity|].
    unfold save. erewrite bind_return by reflexivity.
    erewrite bind_raised; [reflexivity|].
    unfold check_writable. erewrite bind_raised; [reflexivity|].
    unfold refuse. now rewrite Hwrite. }
  unfold try_finally. rewrite Htry. unfold frame_finally.
  destruct keep; simpl.
  - eexists. split; [reflexivity|]. split; [reflexivity|]. reflexivity.
  - set (w1 := add_event (EvSave temp) w0').
    assert (Hfs1 : fs w1 = fs w) by reflexivity.
    assert (Hstat : stat (fs (add_event (EvUnlink temp) w1)) temp
                    = fs w !! temp).
    { unfold temp. now rewrite stat_child. }
    unfold suppress, unlink.
    erewrite bind_return by reflexivity.
    erewrite bind_return by (unfold refuse; rewrite Hunlink; reflexivity).
    rewrite Hstat.
    destruct (fs w !! temp) as [[old|]|] eqn:Hl.
    + eexists. split; [reflexivity|]. split; [reflexivity|]. discriminate.
    + now destruct Hnodir.
    + simpl. eexists. split; [reflexivity|]. simpl.
      split; [|reflexivity]. symmetry. now apply delete_id.
Qed.

End Pipeline.

(* ===================================================================== *)
(** ** Concrete runs                                                      *)
(* ===================================================================== *)

Abbreviation toy_process_gif :=
  (process_gif toy_open toy_convert toy_encode toy_new_session toy_remove
     willing linux_text) (only parsing).

Abbreviation sample_run :=
  (toy_process_gif ["sample.gif"] ["out"] false None sample_world)
  (only parsing).

Abbreviation sample_dir_made :=
  (snd (mkdir_parents_exist_ok willing linux_text ["out"] sample_world)) (only parsing).

Abbreviation first_temp := (["out"] // temp_frame_name 1) (only parsing).
Abbreviation first_output := (["out"] // output_frame_name 1) (only parsing).

Abbreviation first_try :=
  (frame_try toy_encode broken_remove sticky linux_text Byte.x01 first_temp first_output
     "u2net") (only parsing).

(** Nothing stands in the way of making [out]. *)
Lemma no_file_above_out :
  forall pre, pre `prefix_of` ["out"] ->
              is_file (stat (fs sample_world) pre) = false.
Proof.
  intros pre [k Hk]. destruct pre as [|a [|b pre]]; [reflexivity | |].
  - injection Hk as <- _. vm_compute. reflexivity.
  - discriminate Hk.
Defined.

(** Every frame of the sample goes through. *)
Lemma toy_frames_ok :
  Forall (frame_ok toy_convert toy_encode toy_remove "u2net") (frames sample_gif).
Proof. repeat constructor; do 2 eexists; split; reflexivity. Defined.

(** The sample, three frames, run with the default options. *)
Lemma default_run_witness :
  (forall op, willing op = None) /\
  stat (fs sample_world) ["sample.gif"] = Some (File sample_data) /\
  lower (suffix ["sample.gif"]) = ".gif" /\
  toy_open sample_data = Return sample_gif /\
  truncated sample_gif = None /\
  toy_new_session (requested_model None) = Return "u2net" /\
  Forall (frame_ok toy_convert toy_encode toy_remove "u2net")
    (frames sample_gif) /\
  (forall pre, pre `prefix_of` ["out"] ->
               is_file (stat (fs sample_world) pre) = false) /\
  listdir (fs sample_world) ["out"] = ∅ /\
  exists w',
    toy_process_gif ["sample.gif"] ["out"] false None sample_world
      = (Return ["out"], w') /\
    listdir (fs w') ["out"]
      = list_to_set (output_frame_name <$> seq 1 3) /\
    size (listdir (fs w') ["out"]) = 3 /\
    (forall i, 1 <= i <= 3 ->
       is_file (fs w' !! (["out"] // output_frame_name i)) = true) /\
    (forall i, fs w' !! (["out"] // temp_frame_name i) = None) /\
    (forall i frame res,
       frames sample_gif !! i = Some frame ->
       frame_result toy_convert toy_encode toy_remove "u2net" frame
         = Return res ->
       fs w' !! (["out"] // output_frame_name (i + 1)) = Some (File res)) /\
    output_frame_name 1 = "frame_001_bg_removed.png" /\
    output_frame_name 1000 = "frame_1000_bg_removed.png".
Proof.
  assert (H1 : forall op, willing op = None) by reflexivity.
  assert (H2 : stat (fs sample_world) ["sample.gif"] = Some (File sample_data))
    by (vm_compute; reflexivity).
  assert (H3 : lower (suffix ["sample.gif"]) = ".gif")
    by (vm_compute; reflexivity).
  assert (H4 : toy_open sample_data = Return sample_gif) by reflexivity.
  assert (H5 : truncated sample_gif = None) by reflexivity.
  assert (H6 : toy_new_session (requested_model None) = Return "u2net")
    by reflexivity.
  assert (H9 : listdir (fs sample_world) ["out"] = ∅)
    by (vm_compute; reflexivity).
  repeat (split; [first [assumption | exact toy_frames_ok
                        | exact no_file_above_out]|]).
  exact (default_run_one_file_per_frame toy_open toy_convert toy_encode
           toy_new_session toy_remove willing linux_text
           ["sample.gif"] ["out"] None sample_data sample_gif "u2net"
           sample_world H1 H2 H3 H4 H5 H6 toy_frames_ok no_file_above_out H9).
Defined.

(** The sample run again, keeping the temporary files. *)
Lemma kept_temp_files_witness :
  (forall op, willing op = None) /\
  stat (fs sample_world) ["sample.gif"] = Some (File sample_data) /\
  lower (suffix ["sample.gif"]) = ".gif" /\
  toy_open sample_data = Return sample_gif /\
  truncated sample_gif = None /\
  toy_new_session (requested_model None) = Return "u2net" /\
  Forall (frame_ok toy_convert toy_encode toy_remove "u2net")
    (frames sample_gif) /\
  (forall pre, pre `prefix_of` ["out"] ->
               is_file (stat (fs sample_world) pre) = false) /\
  listdir (fs sample_world) ["out"] = ∅ /\
  exists w',
    toy_process_gif ["sample.gif"] ["out"] true None sample_world
      = (Return ["out"], w') /\
    listdir (fs w') ["out"]
      = list_to_set ((temp_frame_name <$> seq 1 3) ++
                     (output_frame_name <$> seq 1 3)) /\
    size (listdir (fs w') ["out"]) = 2 * 3 /\
    forall i frame png,
      frames sample_gif !! i = Some frame ->
      frame_png toy_convert toy_encode frame = Return png ->
      fs w' !! (["out"] // temp_frame_name (i + 1)) = Some (File png).
Proof.
  assert (H1 : forall op, willing op = None) by reflexivity.
  assert (H2 : stat (fs sample_world) ["sample.gif"] = Some (File sample_data))
    by (vm_compute; reflexivity).
  assert (H3 : lower (suffix ["sample.gif"]) = ".gif")
    by (vm_compute; reflexivity).
  assert (H4 : toy_open sample_data = Return sample_gif) by reflexivity.
  assert (H5 : truncated sample_gif = None) by reflexivity.
  assert (H6 : toy_new_session (requested_model None) = Return "u2net")
    by reflexivity.
  assert (H9 : listdir (fs sample_world) ["out"] = ∅)
    by (vm_compute; reflexivity).
  repeat (split; [first [assumption | exact toy_frames_ok
                        | exact no_file_above_out]|]).
  exact (kept_temp_files_hold_converted_frames toy_open toy_convert toy_encode
           toy_new_session toy_remove willing linux_text
           ["sample.gif"] ["out"] None sample_data sample_gif "u2net"
           sample_world H1 H2 H3 H4 H5 H6 toy_frames_ok no_file_above_out H9).
Defined.

(** A path that names nothing. *)
Lemma missing_input_witness :
  stat (fs sample_world) ["missing.gif"] = None /\
  toy_process_gif ["missing.gif"] ["out"] false None sample_world
  = (Raised (Exc FileNotFoundError "Input file not found: missing.gif"),
     sample_world).
Proof.
  assert (H : stat (fs sample_world) ["missing.gif"] = None)
    by (vm_compute; reflexivity).
  split; [exact H|].
  exact (missing_input_raises_not_found toy_open toy_convert toy_encode
           toy_new_session toy_remove willing linux_text
           ["missing.gif"] ["out"] false None sample_world H).
Defined.

(** The bytes of the sample under the name [sample.png]. *)
Lemma wrong_extension_witness :
  stat (fs renamed_world) ["sample.png"] = Some (File sample_data) /\
  lower (suffix ["sample.png"]) <> ".gif" /\
  toy_open sample_data = Return sample_gif /\
  toy_process_gif ["sample.png"] ["out"] false None renamed_world
  = (Raised (Exc ValueError "Input file must be a GIF, got: .png"),
     renamed_world).
Proof.
  assert (H1 : stat (fs renamed_world) ["sample.png"] = Some (File sample_data))
    by (vm_compute; reflexivity).
  assert (H2 : lower (suffix ["sample.png"]) <> ".gif")
    by (vm_compute; discriminate).
  split; [exact H1|]. split; [exact H2|]. split; [reflexivity|].
  exact (proj1
           (wrong_extension_raises_invalid_format toy_open toy_convert
              toy_encode toy_new_session toy_remove willing linux_text
              ["sample.png"] ["out"] false None renamed_world
              (File sample_data) H1) H2).
Defined.

(** The sample run returns [out]. *)
Lemma success_returns_witness :
  sample_run = (Return ["out"], snd sample_run) /\
  ["out"] = ["out"].
Proof.
  assert (H : sample_run = (Return ["out"], snd sample_run))
    by (vm_compute; reflexivity).
  split; [exact H|].
  exact (success_returns_output_folder toy_open toy_convert toy_encode
           toy_new_session toy_remove willing linux_text
           ["sample.gif"] ["out"] false None sample_world
           ["out"] (snd sample_run) H).
Defined.


(** The calls of the sample run. *)
Lemma one_session_witness :
  is_Some (stat (fs sample_world) ["sample.gif"]) /\
  lower (suffix ["sample.gif"]) = ".gif" /\
  mkdir_parents_exist_ok willing linux_text ["out"] sample_world
    = (Return tt, sample_dir_made) /\
  sample_run = (fst sample_run, snd sample_run) /\
  requested_model None = None /\
  exists evs,
    trace (snd sample_run)
      = (trace sample_world ++
         [EvMkdir ["out"]; EvNewSession (requested_model None)] ++ evs)%list /\
    Forall
      (fun ev =>
         match ev with
         | EvNewSession _ => False
         | EvRemove _ s => toy_new_session (requested_model None) = Return s
         | _ => True
         end) evs /\
    forall out data g,
      fst sample_run = Return out ->
      stat (fs sample_world) ["sample.gif"] = Some (File data) ->
      toy_open data = Return g ->
      Forall2
        (fun frame call =>
           frame_png toy_convert toy_encode frame = Return (fst call) /\
           toy_new_session (requested_model None) = Return (snd call))
        (frames g) (removes evs).
Proof.
  assert (H1 : is_Some (stat (fs sample_world) ["sample.gif"]))
    by (exists (File sample_data); vm_compute; reflexivity).
  assert (H2 : lower (suffix ["sample.gif"]) = ".gif")
    by (vm_compute; reflexivity).
  assert (H3 : mkdir_parents_exist_ok willing linux_text ["out"] sample_world
               = (Return tt, sample_dir_made)) by (vm_compute; reflexivity).
  assert (H4 : sample_run = (fst sample_run, snd sample_run))
    by (vm_compute; reflexivity).
  split; [exact H1|]. split; [exact H2|]. split; [exact H3|].
  split; [exact H4|].
  exact (one_session_for_all_frames toy_open toy_convert toy_encode
           toy_new_session toy_remove willing linux_text
           ["sample.gif"] ["out"] false None sample_world sample_dir_made
           (fst sample_run) (snd sample_run) H1 H2 H3 H4).
Defined.

Abbreviation session_ready :=
  (add_event (EvNewSession (requested_model None))
     (announced ["sample.gif"] ["out"] sample_dir_made)) (only parsing).

Abbreviation failing_frames :=
  (process_frames toy_open toy_convert toy_encode broken_remove sticky linux_text
     ["sample.gif"] ["out"] false "u2net" session_ready) (only parsing).

(** The inference of the first frame fails and the deletion is refused:
    the refusal is what is logged and raised. *)
Lemma errors_witness :
  is_Some (stat (fs sample_world) ["sample.gif"]) /\
  lower (suffix ["sample.gif"]) = ".gif" /\
  mkdir_parents_exist_ok sticky linux_text ["out"] sample_world
    = (Return tt, sample_dir_made) /\
  toy_new_session (requested_model None) = Return "u2net" /\
  failing_frames = (Raised not_permitted, snd failing_frames) /\
  process_gif toy_open toy_convert toy_encode toy_new_session broken_remove
    sticky linux_text ["sample.gif"] ["out"] false None sample_world
  = (Raised not_permitted,
     add_log ERROR "Error processing GIF: Operation not permitted"
       (snd failing_frames)).
Proof.
  assert (H1 : is_Some (stat (fs sample_world) ["sample.gif"]))
    by (exists (File sample_data); vm_compute; reflexivity).
  assert (H2 : lower (suffix ["sample.gif"]) = ".gif")
    by (vm_compute; reflexivity).
  assert (H3 : mkdir_parents_exist_ok sticky linux_text ["out"] sample_world
               = (Return tt, sample_dir_made)) by (vm_compute; reflexivity).
  assert (H4 : failing_frames = (Raised not_permitted, snd failing_frames))
    by (vm_compute; reflexivity).
  split; [exact H1|]. split; [exact H2|]. split; [exact H3|].
  split; [reflexivity|]. split; [exact H4|].
  exact (proj1 (proj2
           (errors_are_logged_and_reraised toy_open toy_convert toy_encode
              toy_new_session broken_remove sticky linux_text
              ["sample.gif"] ["out"] false None sample_world sample_dir_made
              H1 H2 H3))
           "u2net" not_permitted (snd failing_frames) eq_refl H4).
Defined.



(** What the sample run leaves alone. *)
Lemma untouched_witness :
  sample_run = (fst sample_run, snd sample_run) /\
  exists n,
    n <= frame_total toy_open ["sample.gif"] sample_world /\
    (exists l, log (snd sample_run) = (log sample_world ++ l)%list /\
               forall i, 1 <= i <= n -> debug_record i ∈ l) /\
    (forall (p : Path) e,
       fs sample_world !! p = Some e ->
       ~ artifact ["out"] 0 n p ->
       fs (snd sample_run) !! p = Some e) /\
    stat (fs (snd sample_run)) ["sample.gif"]
      = stat (fs sample_world) ["sample.gif"].
Proof.
  assert (H : sample_run = (fst sample_run, snd sample_run))
    by (vm_compute; reflexivity).
  split; [exact H|].
  exact (only_frame_artifacts_are_touched toy_open toy_convert toy_encode
           toy_new_session toy_remove willing linux_text
           ["sample.gif"] ["out"] false None sample_world
           (fst sample_run) (snd sample_run) H).
Defined.

(** The sample with and without a duration. *)
Lemma sample_and_untimed :
  same_but_input ["sample.gif"] sample_data untimed_data
    sample_world untimed_world.
Proof.
  repeat (split; [reflexivity|]).
  intros p Hp. unfold sample_world, untimed_world. simpl.
  rewrite !lookup_singleton_ne by congruence. reflexivity.
Defined.

(** The two runs end the same way. *)
Lemma duration_witness :
  same_but_input ["sample.gif"] sample_data untimed_data
    sample_world untimed_world /\
  toy_open sample_data = Return sample_gif /\
  toy_open untimed_data = Return untimed_gif /\
  info_duration sample_gif = Some 40%Z /\
  info_duration untimed_gif = None /\
  frames sample_gif = frames untimed_gif /\
  truncated sample_gif = truncated untimed_gif /\
  exists r w1' w2',
    toy_process_gif ["sample.gif"] ["out"] false None sample_world = (r, w1') /\
    toy_process_gif ["sample.gif"] ["out"] false None untimed_world = (r, w2') /\
    log w1' = log w2' /\ trace w1' = trace w2' /\
    forall p : Path, p <> ["sample.gif"] -> fs w1' !! p = fs w2' !! p.
Proof.
  split; [exact sample_and_untimed|].
  do 6 (split; [reflexivity|]).
  exact (duration_does_not_show toy_open toy_convert toy_encode
           toy_new_session toy_remove willing linux_text
           ["sample.gif"] ["out"] false None sample_data untimed_data
           sample_gif untimed_gif sample_world untimed_world
           sample_and_untimed eq_refl eq_refl eq_refl eq_refl).
Defined.


(** C7, as stated, fails: an exception raised by the session request
    leaves [process_gif] without having been logged by it. *)
Lemma session_failure_is_not_logged :
  process_gif toy_open toy_convert toy_encode no_model toy_remove willing linux_text
    ["sample.gif"] ["out"] false None sample_world
  = (Raised model_error,
     {| fs := {[ ["sample.gif"] := File sample_data; ["out"] := Dir ]};
        log_config := None;
        log := [(INFO, "Processing GIF: sample.gif");
                (INFO, "Output directory: out")];
        trace := [EvMkdir ["out"]; EvNewSession None] |}).
Proof. vm_compute. reflexivity. Qed.

Abbreviation noted_run keep :=
  (toy_process_gif ["sample.gif"] ["out"] keep None noted_world)
  (only parsing).

(** C1, as stated, fails: the sample has three frames and is valid, the
    run with the default options returns, and the output directory,
    which held some notes before, holds four files, not three. *)
Lemma notes_stay_beside_the_frames :
  toy_open sample_data = Return sample_gif /\
  length (frames sample_gif) = 3 /\
  fst (noted_run false) = Return ["out"] /\
  listdir (fs (snd (noted_run false))) ["out"]
  = list_to_set ("notes.txt" :: (output_frame_name <$> seq 1 3)) /\
  size (listdir (fs (snd (noted_run false))) ["out"]) = 4 /\
  size (listdir (fs (snd (noted_run false))) ["out"])
  <> length (frames sample_gif).
Proof.
  split; [reflexivity|]. split; [reflexivity|].
  split; [vm_compute; reflexivity|].
  split; [vm_compute; reflexivity|].
  assert (H : size (listdir (fs (snd (noted_run false))) ["out"]) = 4)
    by (vm_compute; reflexivity).
  split; [exact H|]. rewrite H. discriminate.
Qed.

(** C5, as stated, fails: the same run keeping the temporary files
    leaves seven files in the directory, not six. *)
Lemma notes_stay_beside_the_kept_files :
  toy_open sample_data = Return sample_gif /\
  length (frames sample_gif) = 3 /\
  fst (noted_run true) = Return ["out"] /\
  listdir (fs (snd (noted_run true))) ["out"]
  = list_to_set ("notes.txt" :: (temp_frame_name <$> seq 1 3) ++
                 (output_frame_name <$> seq 1 3)) /\
  size (listdir (fs (snd (noted_run true))) ["out"]) = 7 /\
  size (listdir (fs (snd (noted_run true))) ["out"])
  <> 2 * length (frames sample_gif).
Proof.
  split; [reflexivity|]. split; [reflexivity|].
  split; [vm_compute; reflexivity|].
  split; [vm_compute; reflexivity|].
  assert (H : size (listdir (fs (snd (noted_run true))) ["out"]) = 7)
    by (vm_compute; reflexivity).
  split; [exact H|]. rewrite H. discriminate.
Qed.

(* ===================================================================== *)
(** ** More concrete runs                                                 *)
(* ===================================================================== *)

(** No artifact path of the sample world is a directory. *)
Lemma sample_no_dir : forall i,
  fs sample_world !! (["out"] // temp_frame_name i) <> Some Dir /\
  fs sample_world !! (["out"] // output_frame_name i) <> Some Dir.
Proof.
  intros i. split; intros H; unfold sample_world, joinpath in H; simpl in H;
    apply lookup_singleton_Some in H as [_ H]; discriminate H.
Qed.

Lemma used_no_dir : forall i,
  fs used_world !! (["out"] // temp_frame_name i) <> Some Dir /\
  fs used_world !! (["out"] // output_frame_name i) <> Some Dir.
Proof.
  intros i. split; intros H; unfold used_world, joinpath in H; simpl in H;
    repeat (apply lookup_insert_Some in H as [[Hk H]|[_ H]];
            [first [discriminate H | discriminate Hk]|]);
    apply lookup_singleton_Some in H as [_ H]; discriminate H.
Qed.

Lemma no_file_above_used :
  forall pre, pre `prefix_of` ["out"] ->
              is_file (stat (fs used_world) pre) = false.
Proof.
  intros pre [k Hk]. destruct pre as [|a [|b pre]]; [reflexivity | |].
  - injection Hk as <- _. vm_compute. reflexivity.
  - discriminate Hk.
Qed.

Lemma dirs_above_blocked :
  forall pre : Path, pre `prefix_of` ["out"] -> pre <> ["out"] ->
    stat (fs blocked_world) pre = Some Dir.
Proof.
  intros pre [k Hk] Hne. destruct pre as [|a [|b pre]]; [reflexivity | |].
  - injection Hk as <- _. now destruct Hne.
  - discriminate Hk.
Qed.

(** Two frame numbers. *)
Lemma names_never_collide_witness :
  1 <> 2 /\
  temp_frame_name 1 <> temp_frame_name 2 /\
  output_frame_name 1 <> output_frame_name 2 /\
  temp_frame_name 1 <> output_frame_name 2 /\
  temp_frame_name 1 <> output_frame_name 1.
Proof.
  assert (H : 1 <> 2) by discriminate.
  split; [exact H|]. exact (artifact_names_never_collide 1 2 H).
Defined.

(** The ninth and the tenth frame. *)
Lemma names_sort_witness :
  9 < 10 /\ 10 < 1000 /\
  String.ltb (output_frame_name 9) (output_frame_name 10) = true /\
  String.ltb (temp_frame_name 9) (temp_frame_name 10) = true /\
  String.ltb (output_frame_name 1000) (output_frame_name 999) = true /\
  String.ltb (temp_frame_name 1000) (temp_frame_name 999) = true.
Proof.
  assert (H1 : 9 < 10) by lia.
  assert (H2 : 10 < 1000) by lia.
  split; [exact H1|]. split; [exact H2|].
  exact (names_sort_in_frame_order_below_1000 9 10 H1 H2).
Defined.

(** [SAMPLE.GIF] passes the extension check. *)
Lemma any_case_witness :
  (exists c t, "SAMPLE" = String c t /\ c <> "."%char) /\
  lower "GIF" = "gif" /\
  stat (fs capitals_world) ([] // ("SAMPLE" +:+ "." +:+ "GIF"))
    = Some (File sample_data) /\
  suffix ([] // ("SAMPLE" +:+ "." +:+ "GIF")) = "." +:+ "GIF" /\
  toy_process_gif ([] // ("SAMPLE" +:+ "." +:+ "GIF")) ["out"] false None
    capitals_world
  = after_validation toy_open toy_convert toy_encode toy_new_session
      toy_remove willing linux_text ([] // ("SAMPLE" +:+ "." +:+ "GIF")) ["out"] false
      None capitals_world.
Proof.
  assert (H1 : exists c t, "SAMPLE" = String c t /\ c <> "."%char)
    by (eexists _, _; split; [reflexivity | discriminate]).
  assert (H2 : lower "GIF" = "gif") by (vm_compute; reflexivity).
  assert (H3 : stat (fs capitals_world) ([] // ("SAMPLE" +:+ "." +:+ "GIF"))
               = Some (File sample_data)) by (vm_compute; reflexivity).
  split; [exact H1|]. split; [exact H2|]. split; [exact H3|].
  exact (any_case_of_gif_is_accepted toy_open toy_convert toy_encode
           toy_new_session toy_remove willing linux_text
           [] "SAMPLE" "GIF" ["out"] false None capitals_world
           (File sample_data) H1 H2 H3).
Defined.

(** A file named [.gif]. *)
Lemma dot_gif_witness :
  lower "gif" = "gif" /\
  stat (fs hidden_world) ([] // ("." +:+ "gif")) = Some (File sample_data) /\
  toy_process_gif ([] // ("." +:+ "gif")) ["out"] false None hidden_world
  = (Raised (Exc ValueError "Input file must be a GIF, got: "), hidden_world).
Proof.
  assert (H1 : lower "gif" = "gif") by (vm_compute; reflexivity).
  assert (H2 : stat (fs hidden_world) ([] // ("." +:+ "gif"))
               = Some (File sample_data)) by (vm_compute; reflexivity).
  split; [exact H1|]. split; [exact H2|].
  exact (dot_gif_alone_is_refused toy_open toy_convert toy_encode
           toy_new_session toy_remove willing linux_text
           [] "gif" ["out"] false None hidden_world (File sample_data) H1 H2).
Defined.

(** [out] is a file. *)
Lemma output_is_a_file_witness :
  is_Some (stat (fs blocked_world) ["sample.gif"]) /\
  lower (suffix ["sample.gif"]) = ".gif" /\
  (forall pre : Path, pre `prefix_of` ["out"] -> pre <> ["out"] ->
     stat (fs blocked_world) pre = Some Dir) /\
  stat (fs blocked_world) ["out"] = Some (File []) /\
  exists e,
    exc_class e = FileExistsError /\
    toy_process_gif ["sample.gif"] ["out"] false None blocked_world
    = (Raised e, add_event (EvMkdir ["out"]) blocked_world).
Proof.
  assert (H1 : is_Some (stat (fs blocked_world) ["sample.gif"]))
    by (exists (File sample_data); vm_compute; reflexivity).
  assert (H2 : lower (suffix ["sample.gif"]) = ".gif")
    by (vm_compute; reflexivity).
  assert (H4 : stat (fs blocked_world) ["out"] = Some (File []))
    by (vm_compute; reflexivity).
  split; [exact H1|]. split; [exact H2|].
  split; [exact dirs_above_blocked|]. split; [exact H4|].
  exact (output_path_that_is_a_file toy_open toy_convert toy_encode
           toy_new_session toy_remove willing linux_text
           ["sample.gif"] ["out"] false None blocked_world []
           H1 H2 dirs_above_blocked H4).
Defined.

(** After the sample run [out] is a directory. *)
Lemma directory_outlives_witness :
  is_Some (stat (fs sample_world) ["sample.gif"]) /\
  lower (suffix ["sample.gif"]) = ".gif" /\
  mkdir_parents_exist_ok willing linux_text ["out"] sample_world
    = (Return tt, sample_dir_made) /\
  sample_run = (fst sample_run, snd sample_run) /\
  forall pre : Path, pre `prefix_of` ["out"] ->
    stat (fs (snd sample_run)) pre = Some Dir.
Proof.
  assert (H1 : is_Some (stat (fs sample_world) ["sample.gif"]))
    by (exists (File sample_data); vm_compute; reflexivity).
  assert (H2 : lower (suffix ["sample.gif"]) = ".gif")
    by (vm_compute; reflexivity).
  assert (H3 : mkdir_parents_exist_ok willing linux_text ["out"] sample_world
               = (Return tt, sample_dir_made)) by (vm_compute; reflexivity).
  assert (H4 : sample_run = (fst sample_run, snd sample_run))
    by (vm_compute; reflexivity).
  split; [exact H1|]. split; [exact H2|]. split; [exact H3|].
  split; [exact H4|].
  exact (output_directory_outlives_the_run toy_open toy_convert toy_encode
           toy_new_session toy_remove willing linux_text
           ["sample.gif"] ["out"] false None sample_world sample_dir_made
           (fst sample_run) (snd sample_run) H1 H2 H3 H4).
Defined.

(** The log of the sample run. *)
Lemma run_log_witness :
  sample_run = (Return ["out"], snd sample_run) /\
  log (snd sample_run)
  = (log sample_world ++
     [(INFO, "Processing GIF: " +:+ path_str ["sample.gif"]);
      (INFO, "Output directory: " +:+ path_str ["out"])] ++
     (debug_record <$> seq 1 (frame_total toy_open ["sample.gif"] sample_world)) ++
     [(INFO, "Successfully processed " +:+
             str_of_nat (frame_total toy_open ["sample.gif"] sample_world) +:+
             " frames")])%list.
Proof.
  assert (H : sample_run = (Return ["out"], snd sample_run))
    by (vm_compute; reflexivity).
  split; [exact H|].
  exact (returning_run_logs_every_frame toy_open toy_convert toy_encode
           toy_new_session toy_remove willing linux_text
           ["sample.gif"] ["out"] false None sample_world
           ["out"] (snd sample_run) H).
Defined.

Abbreviation empty_dir_made :=
  (snd (mkdir_parents_exist_ok willing linux_text ["out"] empty_file_world))
  (only parsing).

(** An empty file under the name [sample.gif]. *)
Lemma undecodable_witness :
  stat (fs empty_file_world) ["sample.gif"] = Some (File []) /\
  lower (suffix ["sample.gif"]) = ".gif" /\
  mkdir_parents_exist_ok willing linux_text ["out"] empty_file_world
    = (Return tt, empty_dir_made) /\
  toy_new_session (requested_model None) = Return "u2net" /\
  willing (OpOpenRead ["sample.gif"]) = None /\
  toy_open [] = Raised (Exc LibraryError "cannot identify image file") /\
  toy_process_gif ["sample.gif"] ["out"] false None empty_file_world
  = (Raised (Exc LibraryError "cannot identify image file"),
     add_log ERROR
       ("Error processing GIF: " +:+
        exc_str (Exc LibraryError "cannot identify image file"))
       (loop_world ["sample.gif"] ["out"] None empty_dir_made)) /\
  stat (fs empty_dir_made) ["out"] = Some Dir /\
  forall nm, fs empty_dir_made !! (["out"] // nm)
             = fs empty_file_world !! (["out"] // nm).
Proof.
  assert (H1 : stat (fs empty_file_world) ["sample.gif"] = Some (File []))
    by (vm_compute; reflexivity).
  assert (H2 : lower (suffix ["sample.gif"]) = ".gif")
    by (vm_compute; reflexivity).
  assert (H3 : mkdir_parents_exist_ok willing linux_text ["out"] empty_file_world
               = (Return tt, empty_dir_made)) by (vm_compute; reflexivity).
  assert (H4 : toy_new_session (requested_model None) = Return "u2net")
    by reflexivity.
  assert (H5 : willing (OpOpenRead ["sample.gif"]) = None) by reflexivity.
  assert (H6 : toy_open []
               = Raised (Exc LibraryError "cannot identify image file"))
    by reflexivity.
  split; [exact H1|]. split; [exact H2|]. split; [exact H3|].
  split; [exact H4|]. split; [exact H5|]. split; [exact H6|].
  exact (undecodable_input_leaves_the_directory toy_open toy_convert
           toy_encode toy_new_session toy_remove willing linux_text
           ["sample.gif"] ["out"] false None empty_file_world empty_dir_made
           [] "u2net" (Exc LibraryError "cannot identify image file")
           H1 H2 H3 H4 H5 H6).
Defined.

Abbreviation missing_args :=
  (Args ["missing.gif"] ["out"] false None false) (only parsing).

(** The command line on a path that names nothing. *)
Lemma command_line_witness :
  stat (fs sample_world) (input_gif missing_args) = None /\
  main toy_open toy_convert toy_encode toy_new_session toy_remove willing linux_text
    missing_args sample_world
  = (1,
     add_log ERROR
       ("Failed to process GIF: Input file not found: " +:+
        path_str (input_gif missing_args))
       (configured INFO sample_world)).
Proof.
  assert (H : stat (fs sample_world) (input_gif missing_args) = None)
    by (vm_compute; reflexivity).
  split; [exact H|].
  exact (proj1
           (command_line_reports toy_open toy_convert toy_encode
              toy_new_session toy_remove willing linux_text missing_args sample_world)
           H).
Defined.

(** The calls of the sample run. *)
Lemma calls_witness :
  sample_run = (fst sample_run, snd sample_run) /\
  exists evs,
    trace (snd sample_run) = (trace sample_world ++ evs)%list /\
    Forall (on_expected_path ["sample.gif"] ["out"] false None) evs /\
    (false = true -> forall p : Path, EvUnlink p ∉ evs).
Proof.
  assert (H : sample_run = (fst sample_run, snd sample_run))
    by (vm_compute; reflexivity).
  split; [exact H|].
  exact (calls_go_where_they_should toy_open toy_convert toy_encode
           toy_new_session toy_remove willing linux_text
           ["sample.gif"] ["out"] false None sample_world
           (fst sample_run) (snd sample_run) H).
Defined.

(** The inference fails on the second of the three frames, in a
    directory that has been used. *)
Lemma inference_failure_witness :
  (forall op, willing op = None) /\
  stat (fs used_world) ["sample.gif"] = Some (File sample_data) /\
  lower (suffix ["sample.gif"]) = ".gif" /\
  toy_open sample_data = Return sample_gif /\
  toy_new_session (requested_model None) = Return "u2net" /\
  (forall pre, pre `prefix_of` ["out"] ->
               is_file (stat (fs used_world) pre) = false) /\
  (forall i,
     fs used_world !! (["out"] // temp_frame_name i) <> Some Dir /\
     fs used_world !! (["out"] // output_frame_name i) <> Some Dir) /\
  frames sample_gif = ([Byte.x01] ++ Byte.x02 :: [Byte.x03])%list /\
  Forall (frame_ok toy_convert toy_encode picky_remove "u2net") [Byte.x01] /\
  frame_png toy_convert toy_encode Byte.x02 = Return [Byte.x02] /\
  picky_remove [Byte.x02] "u2net" = Raised inference_error /\
  exists w',
    process_gif toy_open toy_convert toy_encode toy_new_session picky_remove
      willing linux_text ["sample.gif"] ["out"] false None used_world
      = (Raised inference_error, w') /\
    (forall j frame p r,
       [Byte.x01] !! j = Some frame ->
       frame_png toy_convert toy_encode frame = Return p ->
       picky_remove p "u2net" = Return r ->
       fs w' !! (["out"] // output_frame_name (j + 1)) = Some (File r)) /\
    fs w' !! (["out"] // output_frame_name (length [Byte.x01] + 1))
      = fs used_world !! (["out"] // output_frame_name (length [Byte.x01] + 1)) /\
    fs w' !! (["out"] // temp_frame_name (length [Byte.x01] + 1))
      = (if false then Some (File [Byte.x02]) else None) /\
    (forall p : Path, length ["out"] < length p ->
       ~ artifact ["out"] 0 (length [Byte.x01] + 1) p ->
       fs w' !! p = fs used_world !! p) /\
    (false = false ->
     listdir (fs w') ["out"]
     = (listdir (fs used_world) ["out"] ∖
          list_to_set (temp_frame_name <$> seq 1 (length [Byte.x01] + 1)))
       ∪ list_to_set (output_frame_name <$> seq 1 (length [Byte.x01]))) /\
    (false = false ->
     listdir (fs used_world) ["out"] = ∅ ->
     listdir (fs w') ["out"]
     = list_to_set (output_frame_name <$> seq 1 (length [Byte.x01]))) /\
    last (log w')
    = Some (ERROR, "Error processing GIF: " +:+ exc_str inference_error).
Proof.
  assert (H1 : forall op, willing op = None) by reflexivity.
  assert (H2 : stat (fs used_world) ["sample.gif"] = Some (File sample_data))
    by (vm_compute; reflexivity).
  assert (H3 : lower (suffix ["sample.gif"]) = ".gif")
    by (vm_compute; reflexivity).
  assert (H4 : toy_open sample_data = Return sample_gif) by reflexivity.
  assert (H5 : toy_new_session (requested_model None) = Return "u2net")
    by reflexivity.
  assert (H8 : frames sample_gif = ([Byte.x01] ++ Byte.x02 :: [Byte.x03])%list)
    by reflexivity.
  assert (H9 : Forall (frame_ok toy_convert toy_encode picky_remove "u2net")
                 [Byte.x01])
    by (repeat constructor; do 2 eexists; split; reflexivity).
  assert (H10 : frame_png toy_convert toy_encode Byte.x02 = Return [Byte.x02])
    by reflexivity.
  assert (H11 : picky_remove [Byte.x02] "u2net" = Raised inference_error)
    by reflexivity.
  repeat (split; [first [assumption | exact no_file_above_used
                        | exact used_no_dir]|]).
  exact (inference_failure_keeps_earlier_frames toy_open toy_convert
           toy_encode toy_new_session picky_remove willing linux_text
           ["sample.gif"] ["out"] false None sample_data sample_gif "u2net"
           used_world [Byte.x01] Byte.x02 [Byte.x03] [Byte.x02]
           inference_error
           H1 H2 H3 H4 H5 no_file_above_used used_no_dir H8 H9 H10 H11).
Defined.

(** The sample read by the decoder for files cut short, in a directory
    that has been used. *)
Lemma truncated_witness :
  (forall op, willing op = None) /\
  stat (fs used_world) ["sample.gif"] = Some (File sample_data) /\
  lower (suffix ["sample.gif"]) = ".gif" /\
  toy_open_cut sample_data = Return cut_gif /\
  truncated cut_gif = Some truncation_error /\
  toy_new_session (requested_model None) = Return "u2net" /\
  Forall (frame_ok toy_convert toy_encode toy_remove "u2net") (frames cut_gif) /\
  (forall pre, pre `prefix_of` ["out"] ->
               is_file (stat (fs used_world) pre) = false) /\
  (forall i,
     fs used_world !! (["out"] // temp_frame_name i) <> Some Dir /\
     fs used_world !! (["out"] // output_frame_name i) <> Some Dir) /\
  exists w',
    process_gif toy_open_cut toy_convert toy_encode toy_new_session toy_remove
      willing linux_text ["sample.gif"] ["out"] false None used_world
      = (Raised truncation_error, w') /\
    (forall j frame p r,
       frames cut_gif !! j = Some frame ->
       frame_png toy_convert toy_encode frame = Return p ->
       toy_remove p "u2net" = Return r ->
       fs w' !! (["out"] // output_frame_name (j + 1)) = Some (File r)) /\
    (forall p : Path, length ["out"] < length p ->
       ~ artifact ["out"] 0 (length (frames cut_gif)) p ->
       fs w' !! p = fs used_world !! p) /\
    (false = false ->
     listdir (fs w') ["out"]
     = (listdir (fs used_world) ["out"] ∖
          list_to_set (temp_frame_name <$> seq 1 (length (frames cut_gif))))
       ∪ list_to_set (output_frame_name <$> seq 1 (length (frames cut_gif)))) /\
    log w'
    = (log used_world ++
       [(INFO, "Processing GIF: " +:+ path_str ["sample.gif"]);
        (INFO, "Output directory: " +:+ path_str ["out"])] ++
       (debug_record <$> seq 1 (length (frames cut_gif))) ++
       [(ERROR, "Error processing GIF: " +:+ exc_str truncation_error)])%list.
Proof.
  assert (H1 : forall op, willing op = None) by reflexivity.
  assert (H2 : stat (fs used_world) ["sample.gif"] = Some (File sample_data))
    by (vm_compute; reflexivity).
  assert (H3 : lower (suffix ["sample.gif"]) = ".gif")
    by (vm_compute; reflexivity).
  assert (H4 : toy_open_cut sample_data = Return cut_gif) by reflexivity.
  assert (H5 : truncated cut_gif = Some truncation_error) by reflexivity.
  assert (H6 : toy_new_session (requested_model None) = Return "u2net")
    by reflexivity.
  assert (H7 : Forall (frame_ok toy_convert toy_encode toy_remove "u2net")
                 (frames cut_gif))
    by (repeat constructor; do 2 eexists; split; reflexivity).
  repeat (split; [first [assumption | exact no_file_above_used
                        | exact used_no_dir]|]).
  exact (truncated_gif_keeps_all_frames_read toy_open_cut toy_convert
           toy_encode toy_new_session toy_remove willing linux_text
           ["sample.gif"] ["out"] false None sample_data cut_gif "u2net"
           used_world truncation_error
           H1 H2 H3 H4 H5 H6 H7 no_file_above_used used_no_dir).
Defined.

(** The sample run in a directory that has been used: a file lies
    under the name of the temporary file of the second frame. *)
Lemma used_directory_witness :
  temp_frame_name 2 = "frame_002.png" /\
  fs used_world !! (["out"] // temp_frame_name 2) = Some (File [Byte.x09]) /\
  listdir (fs used_world) ["out"] = {[ "frame_002.png"; "notes.txt" ]} /\
  (forall op, willing op = None) /\
  stat (fs used_world) ["sample.gif"] = Some (File sample_data) /\
  lower (suffix ["sample.gif"]) = ".gif" /\
  toy_open sample_data = Return sample_gif /\
  truncated sample_gif = None /\
  toy_new_session (requested_model None) = Return "u2net" /\
  Forall (frame_ok toy_convert toy_encode toy_remove "u2net")
    (frames sample_gif) /\
  (forall pre, pre `prefix_of` ["out"] ->
               is_file (stat (fs used_world) pre) = false) /\
  (forall i,
     fs used_world !! (["out"] // temp_frame_name i) <> Some Dir /\
     fs used_world !! (["out"] // output_frame_name i) <> Some Dir) /\
  exists w',
    toy_process_gif ["sample.gif"] ["out"] false None used_world
      = (Return ["out"], w') /\
    listdir (fs w') ["out"]
    = (listdir (fs used_world) ["out"] ∖
         list_to_set (temp_frame_name <$> seq 1 (length (frames sample_gif))))
      ∪ list_to_set (output_frame_name <$> seq 1 (length (frames sample_gif))) /\
    (forall i, 1 <= i <= length (frames sample_gif) ->
       fs w' !! (["out"] // temp_frame_name i) = None) /\
    (forall nm,
       (forall i, 1 <= i <= length (frames sample_gif) ->
          nm <> temp_frame_name i /\ nm <> output_frame_name i) ->
       fs w' !! (["out"] // nm) = fs used_world !! (["out"] // nm)).
Proof.
  split; [vm_compute; reflexivity|].
  split; [vm_compute; reflexivity|].
  split; [vm_compute; reflexivity|].
  assert (H1 : forall op, willing op = None) by reflexivity.
  assert (H2 : stat (fs used_world) ["sample.gif"] = Some (File sample_data))
    by (vm_compute; reflexivity).
  assert (H3 : lower (suffix ["sample.gif"]) = ".gif")
    by (vm_compute; reflexivity).
  assert (H4 : toy_open sample_data = Return sample_gif) by reflexivity.
  assert (H5 : truncated sample_gif = None) by reflexivity.
  assert (H6 : toy_new_session (requested_model None) = Return "u2net")
    by reflexivity.
  repeat (split; [first [assumption | exact toy_frames_ok
                        | exact no_file_above_used | exact used_no_dir]|]).
  exact (used_directory_loses_only_temp_names toy_open toy_convert toy_encode
           toy_new_session toy_remove willing linux_text
           ["sample.gif"] ["out"] None sample_data sample_gif "u2net"
           used_world H1 H2 H3 H4 H5 H6 toy_frames_ok no_file_above_used
           used_no_dir).
Defined.

(** The sample run, twice. *)
Lemma second_run_witness :
  (forall op, willing op = None) /\
  stat (fs sample_world) ["sample.gif"] = Some (File sample_data) /\
  lower (suffix ["sample.gif"]) = ".gif" /\
  toy_open sample_data = Return sample_gif /\
  truncated sample_gif = None /\
  toy_new_session (requested_model None) = Return "u2net" /\
  Forall (frame_ok toy_convert toy_encode toy_remove "u2net")
    (frames sample_gif) /\
  (forall pre, pre `prefix_of` ["out"] ->
               is_file (stat (fs sample_world) pre) = false) /\
  (forall i,
     fs sample_world !! (["out"] // temp_frame_name i) <> Some Dir /\
     fs sample_world !! (["out"] // output_frame_name i) <> Some Dir) /\
  exists w1 w2,
    toy_process_gif ["sample.gif"] ["out"] true None sample_world
      = (Return ["out"], w1) /\
    toy_process_gif ["sample.gif"] ["out"] true None w1
      = (Return ["out"], w2) /\
    fs w2 = fs w1.
Proof.
  assert (H1 : forall op, willing op = None) by reflexivity.
  assert (H2 : stat (fs sample_world) ["sample.gif"] = Some (File sample_data))
    by (vm_compute; reflexivity).
  assert (H3 : lower (suffix ["sample.gif"]) = ".gif")
    by (vm_compute; reflexivity).
  assert (H4 : toy_open sample_data = Return sample_gif) by reflexivity.
  assert (H5 : truncated sample_gif = None) by reflexivity.
  assert (H6 : toy_new_session (requested_model None) = Return "u2net")
    by reflexivity.
  repeat (split; [first [assumption | exact toy_frames_ok
                        | exact no_file_above_out | exact sample_no_dir]|]).
  exact (second_run_changes_no_file toy_open toy_convert toy_encode
           toy_new_session toy_remove willing linux_text
           ["sample.gif"] ["out"] true None sample_data sample_gif "u2net"
           sample_world H1 H2 H3 H4 H5 H6 toy_frames_ok no_file_above_out
           sample_no_dir).
Defined.

(** The sample run with and without its temporary files. *)
Lemma keeping_temp_files_witness :
  (forall op, willing op = None) /\
  stat (fs sample_world) ["sample.gif"] = Some (File sample_data) /\
  lower (suffix ["sample.gif"]) = ".gif" /\
  toy_open sample_data = Return sample_gif /\
  truncated sample_gif = None /\
  toy_new_session (requested_model None) = Return "u2net" /\
  Forall (frame_ok toy_convert toy_encode toy_remove "u2net")
    (frames sample_gif) /\
  (forall pre, pre `prefix_of` ["out"] ->
               is_file (stat (fs sample_world) pre) = false) /\
  (forall i,
     fs sample_world !! (["out"] // temp_frame_name i) <> Some Dir /\
     fs sample_world !! (["out"] // output_frame_name i) <> Some Dir) /\
  exists wk wd,
    toy_process_gif ["sample.gif"] ["out"] true None sample_world
      = (Return ["out"], wk) /\
    toy_process_gif ["sample.gif"] ["out"] false None sample_world
      = (Return ["out"], wd) /\
    log wk = log wd /\
    (forall p : Path,
       (forall i, 1 <= i <= length (frames sample_gif) ->
          p <> ["out"] // temp_frame_name i) ->
       fs wk !! p = fs wd !! p) /\
    (forall i, 1 <= i <= length (frames sample_gif) ->
       is_Some (fs wk !! (["out"] // temp_frame_name i)) /\
       fs wd !! (["out"] // temp_frame_name i) = None).
Proof.
  assert (H1 : forall op, willing op = None) by reflexivity.
  assert (H2 : stat (fs sample_world) ["sample.gif"] = Some (File sample_data))
    by (vm_compute; reflexivity).
  assert (H3 : lower (suffix ["sample.gif"]) = ".gif")
    by (vm_compute; reflexivity).
  assert (H4 : toy_open sample_data = Return sample_gif) by reflexivity.
  assert (H5 : truncated sample_gif = None) by reflexivity.
  assert (H6 : toy_new_session (requested_model None) = Return "u2net")
    by reflexivity.
  repeat (split; [first [assumption | exact toy_frames_ok
                        | exact no_file_above_out | exact sample_no_dir]|]).
  exact (keeping_temp_files_changes_only_them toy_open toy_convert toy_encode
           toy_new_session toy_remove willing linux_text
           ["sample.gif"] ["out"] None sample_data sample_gif "u2net"
           sample_world H1 H2 H3 H4 H5 H6 toy_frames_ok no_file_above_out
           sample_no_dir).
Defined.

(** The first frame in a directory that takes no new file. *)
Lemma refused_save_witness :
  toy_convert Byte.x01 = Return Byte.x01 /\
  read_only (OpOpenWrite first_temp) = Some not_permitted /\
  read_only (OpUnlink first_temp) = None /\
  fs ready_world !! first_temp <> Some Dir /\
  exists w',
    frame_body toy_convert toy_encode toy_remove read_only linux_text ["out"] false
      "u2net" 1 Byte.x01 ready_world = (Raised not_permitted, w') /\
    fs w' = (if false then fs ready_world
             else delete first_temp (fs ready_world)) /\
    (fs ready_world !! first_temp = None -> fs w' = fs ready_world).
Proof.
  assert (H1 : toy_convert Byte.x01 = Return Byte.x01) by reflexivity.
  assert (H2 : read_only (OpOpenWrite first_temp) = Some not_permitted)
    by reflexivity.
  assert (H3 : read_only (OpUnlink first_temp) = None) by reflexivity.
  assert (H4 : fs ready_world !! first_temp <> Some Dir)
    by (vm_compute; discriminate).
  split; [exact H1|]. split; [exact H2|]. split; [exact H3|].
  split; [exact H4|].
  exact (refused_save_is_what_is_raised toy_convert toy_encode toy_remove
           read_only linux_text ["out"] false "u2net" 1 Byte.x01 Byte.x01 not_permitted
           ready_world H1 H2 H3 H4).
Defined.
